(** * Seller marketplace client: screen controllers over a managed backend

    A shallow embedding of the screen handlers of the seller application
    (login, signup, entry redirect, catalog, inventory, orders, profile,
    dashboard) and of the storage schema they talk to.

    Every handler is an [async] arrow function of a React component.  It
    reads the values captured by its closure at render time, calls React
    state setters, awaits calls of the auth and storage interfaces and asks
    the router to navigate.  A handler is embedded as a program of the
    monad [prog]: a finite tree of state writes, awaited calls and router
    requests, in the order the source performs them.  [run] executes such a
    program against the current view state and an arbitrary remote. *)

From Stdlib Require Import List String Ascii Bool Arith ZArith Lia.
Import ListNotations.
Open Scope string_scope.
Open Scope bool_scope.

Set Implicit Arguments.

(** ** JavaScript string primitives used by the handlers

    A JavaScript string is a sequence of UTF-16 code units.  It is held
    here as the [string] of its UTF-8 bytes, the form in which a literal of
    the source reaches this file.  Emptiness, equality, prefix and
    substring of two well-formed strings are the same on the bytes and on
    the code units; the length is not, and [length] counts code units. *)

Module Js.

(** [!s] is [true] exactly for the empty string. *)
Definition truthy (s : string) : bool := negb (s =? "").

(** [s || d] on strings. *)
Definition or_else (s d : string) : string := if truthy s then s else d.

(** [s.startsWith(p)] *)
Definition startsWith (s p : string) : bool := String.prefix p s.

(** [s.includes(sub)]: [sub] occurs in [s] at some position. *)
Fixpoint includes (s sub : string) : bool :=
  String.prefix sub s ||
  match s with
  | EmptyString => false
  | String _ s' => includes s' sub
  end.

(** [a === b] on strings. *)
Definition strict_eq (a b : string) : bool := (a =? b).

(** The UTF-16 code units that start at a byte of the UTF-8 form: one for a
    byte that stands alone or leads a sequence of two or three bytes (a
    character of the basic plane), two for a byte that leads a sequence of
    four (a surrogate pair), none for a continuation byte. *)
Definition units (a : ascii) : nat :=
  let n := nat_of_ascii a in
  if Nat.ltb n 128 then 1
  else if Nat.ltb n 192 then 0
  else if Nat.ltb n 240 then 1
  else 2.

(** [s.length] *)
Fixpoint length (s : string) : nat :=
  match s with
  | EmptyString => 0
  | String a rest => units a + length rest
  end.

End Js.

(** ** Values exchanged with the auth and storage interfaces *)

Definition uuid := string.
Definition timestamptz := string.
(** A [decimal(10,2)] value, as its count of hundredths. *)
Definition decimal := Z.

(** The [error] member of a response; [None] is JavaScript's [null]. *)
Module Error.
Record t := { message : string }.
End Error.

Module User.
Record t := { id : uuid; email : option string }.
End User.

Module Session.
Record t := { user : User.t }.
End Session.

(** Payload of [from('sellers').update({...})] in the profile screen. *)
Module SellerPatch.
Record t := {
  shop_name : string;
  owner_name : string;
  phone : string;
  address : string;
  gst_number : option string
}.
End SellerPatch.

(** Payload of [from('seller_products').insert({...})] in the catalog. *)
Module SellerProductInsert.
Record t := {
  seller_id : uuid;
  product_id : uuid;
  stock_status : string
}.
End SellerProductInsert.

(** A row of [from('seller_products').select('stock_status')]. *)
Module ProductStock.
Record t := { stock_status : string }.
End ProductStock.

(** A row of [from('orders').select('total_amount, status')]. *)
Module OrderTotal.
Record t := { total_amount : decimal; status : string }.
End OrderTotal.

(** The awaited calls, indexed by the type of what the handler destructures
    from the response.  [auth] is the interface of [useAuth()], [storage]
    the query builder of the storage client. *)
Inductive auth : Type -> Type :=
| signIn (email password : string) : auth (option Error.t)
| signUp (email password : string) : auth (option Error.t)
| signInWithGoogle : auth (option Error.t)
| signInWithPhone (phone : string) : auth (option Error.t)
| verifyOtp (phone otp : string) : auth (option Error.t * option Session.t).

Inductive storage : Type -> Type :=
  (* from('sellers').select('id').eq('id', id).maybeSingle(), member data *)
| sellers_select_id (id : uuid) : storage (option uuid)
  (* from('sellers').update(patch).eq('id', id) *)
| sellers_update (patch : SellerPatch.t) (id : uuid)
    : storage (option Error.t)
  (* from('seller_products').insert(row) *)
| seller_products_insert (row : SellerProductInsert.t)
    : storage (option Error.t)
  (* from('seller_products').update({ stock_status }).eq('id', id) *)
| seller_products_update (stock_status : string) (id : uuid)
    : storage (option Error.t)
  (* from('seller_products').delete().eq('id', id) *)
| seller_products_delete (id : uuid) : storage (option Error.t)
  (* from('orders').update({ status, updated_at }).eq('id', id) *)
| orders_update (status : string) (updated_at : timestamptz) (id : uuid)
    : storage (option Error.t)
  (* from('seller_products').select('stock_status').eq('seller_id', id),
     member data *)
| seller_products_select_stock_status (seller_id : uuid)
    : storage (option (list ProductStock.t))
  (* from('orders').select('total_amount, status').eq('seller_id', id),
     member data *)
| orders_select_total_amount_status (seller_id : uuid)
    : storage (option (list OrderTotal.t)).

Inductive call (X : Type) : Type :=
| Auth (a : auth X)
| Storage (q : storage X).

Arguments Auth {X} a.
Arguments Storage {X} q.

(** A call as it appears in a trace. *)
Definition logged : Type := { X : Type & call X }.
Definition log {X} (c : call X) : logged := existT call X c.

Inductive nav : Type :=
| replace (href : string)
| push (href : string).

(** ** The handler monad *)

Inductive prog (S A : Type) : Type :=
| Ret (a : A)
| SetState (upd : S -> S) (k : prog S A)
| Await (X : Type) (c : call X) (k : X -> prog S A)
| Router (n : nav) (k : prog S A).

Arguments Ret {S A} a.
Arguments SetState {S A} upd k.
Arguments Await {S A X} c k.
Arguments Router {S A} n k.

Fixpoint bind {S A B} (p : prog S A) (f : A -> prog S B) : prog S B :=
  match p with
  | Ret a => f a
  | SetState upd k => SetState upd (bind k f)
  | Await c k => Await c (fun x => bind (k x) f)
  | Router n k => Router n (bind k f)
  end.

Definition set {S} (upd : S -> S) : prog S unit := SetState upd (Ret tt).
Definition await {S X} (c : call X) : prog S X := Await c (fun x => Ret x).
Definition router_replace {S} (href : string) : prog S unit :=
  Router (replace href) (Ret tt).
Definition skip {S} : prog S unit := Ret tt.

Declare Scope prog_scope.
Delimit Scope prog_scope with prog.
Notation "x <- c ;; k" := (bind c (fun x => k))
  (at level 61, c at next level, right associativity) : prog_scope.
Notation "c ;; k" := (bind c (fun _ => k))
  (at level 61, right associativity) : prog_scope.
Open Scope prog_scope.

(** What one execution of a handler leaves behind. *)
Record outcome (S W : Type) : Type := {
  view : S;                 (* the component's state after the handler *)
  world : W;                (* the remote's state after the handler *)
  calls : list logged;      (* the awaited calls, in order *)
  navs : list nav           (* the router requests, in order *)
}.

Section Run.
Variables S W : Type.
(** The remote answers every call and moves to a new state. *)
Variable remote : forall X, call X -> W -> X * W.

Fixpoint run {A} (p : prog S A) (s : S) (w : W) : outcome S W :=
  match p with
  | Ret _ => {| view := s; world := w; calls := []; navs := [] |}
  | SetState upd k => run k (upd s) w
  | Await c k =>
      let (x, w') := remote c w in
      let o := run (k x) s w' in
      {| view := view o; world := world o;
         calls := log c :: calls o; navs := navs o |}
  | Router n k =>
      let o := run k s w in
      {| view := view o; world := world o;
         calls := calls o; navs := n :: navs o |}
  end.
End Run.

(** ** The storage schema (migration [create_seller_marketplace_schema])

    Tables are lists of rows in insertion order.  A nullable column is an
    [option]; [decimal(10,2)] is a count of hundredths. *)

Module SellerRow.
Record t := {
  id : uuid;
  shop_name : string;
  owner_name : string;
  phone : string;
  email : string;
  address : string;
  gst_number : option string;
  logo_url : option string;
  banner_url : option string;
  is_verified : option bool;
  created_at : option timestamptz;
  updated_at : option timestamptz
}.
End SellerRow.

Module MasterProductRow.
Record t := {
  id : uuid;
  name : string;
  brand : string;
  category : string;
  base_price : decimal;
  description : option string;
  image_url : option string;
  is_active : option bool;
  created_at : option timestamptz
}.
End MasterProductRow.

Module SellerProductRow.
Record t := {
  id : uuid;
  seller_id : uuid;
  product_id : uuid;
  custom_price : option decimal;
  stock_status : string;
  added_at : option timestamptz
}.
End SellerProductRow.

Module OrderRow.
Record t := {
  id : uuid;
  seller_id : uuid;
  buyer_name : string;
  buyer_phone : string;
  buyer_address : string;
  status : string;
  total_amount : decimal;
  created_at : option timestamptz;
  updated_at : option timestamptz
}.
End OrderRow.

Module Db.

Record t := {
  sellers : list SellerRow.t;
  master_products : list MasterProductRow.t;
  seller_products : list SellerProductRow.t;
  orders : list OrderRow.t
}.

Definition empty : t :=
  {| sellers := []; master_products := []; seller_products := [];
     orders := [] |}.

(** What the server knows when it runs one request: the identity of the
    session ([auth.uid()], [None] for a request that is not authenticated)
    and the values its column defaults draw. *)
Record ctx := {
  uid : option uuid;
  gen_random_uuid : uuid;
  now : timestamptz
}.

(** [auth.uid() = owner], for the role [authenticated]. *)
Definition owns (c : ctx) (owner : uuid) : bool :=
  match uid c with
  | Some u => (u =? owner)
  | None => false
  end.

(** CHECK (stock_status IN ('available', 'out_of_stock')) *)
Definition stock_status_check (s : string) : bool :=
  (s =? "available") || (s =? "out_of_stock").

(** CHECK (status IN ('confirmed', 'packed', 'shipped', 'delivered',
    'cancelled')) *)
Definition status_check (s : string) : bool :=
  (s =? "confirmed") || (s =? "packed") || (s =? "shipped")
  || (s =? "delivered") || (s =? "cancelled").

Definition rls_violation : Error.t :=
  {| Error.message := "new row violates row-level security policy" |}.
Definition check_violation : Error.t :=
  {| Error.message := "new row violates check constraint" |}.
Definition foreign_key_violation : Error.t :=
  {| Error.message := "insert violates foreign key constraint" |}.
Definition unique_violation : Error.t :=
  {| Error.message := "duplicate key value violates unique constraint" |}.

(** *** sellers *)

(** SELECT id ... WHERE id = [i], under the policy "Sellers can view own
    profile"; [maybeSingle] yields the row when there is exactly one. *)
Definition select_seller_id (c : ctx) (i : uuid) (d : t) : option uuid :=
  match filter (fun r => owns c (SellerRow.id r) && (SellerRow.id r =? i))
               (sellers d) with
  | [r] => Some (SellerRow.id r)
  | _ => None
  end.

Definition patch_seller (p : SellerPatch.t) (r : SellerRow.t) : SellerRow.t :=
  {| SellerRow.id := SellerRow.id r;
     SellerRow.shop_name := SellerPatch.shop_name p;
     SellerRow.owner_name := SellerPatch.owner_name p;
     SellerRow.phone := SellerPatch.phone p;
     SellerRow.email := SellerRow.email r;
     SellerRow.address := SellerPatch.address p;
     SellerRow.gst_number := SellerPatch.gst_number p;
     SellerRow.logo_url := SellerRow.logo_url r;
     SellerRow.banner_url := SellerRow.banner_url r;
     SellerRow.is_verified := SellerRow.is_verified r;
     SellerRow.created_at := SellerRow.created_at r;
     SellerRow.updated_at := SellerRow.updated_at r |}.

(** UPDATE sellers SET ... WHERE id = [i], under "Sellers can update own
    profile": rows the policy hides are not touched.  The table has no
    trigger, so the columns outside the SET list keep their values. *)
Definition update_seller (c : ctx) (p : SellerPatch.t) (i : uuid) (d : t)
  : option Error.t * t :=
  (None,
   {| sellers :=
        map (fun r =>
               if owns c (SellerRow.id r) && (SellerRow.id r =? i)
               then patch_seller p r else r)
            (sellers d);
      master_products := master_products d;
      seller_products := seller_products d;
      orders := orders d |}).

(** *** seller_products *)

Definition with_seller_products (l : list SellerProductRow.t) (d : t) : t :=
  {| sellers := sellers d; master_products := master_products d;
     seller_products := l; orders := orders d |}.

(** INSERT INTO seller_products (seller_id, product_id, stock_status):
    policy "Sellers can insert own products", the CHECK on [stock_status],
    both foreign keys, the primary key and UNIQUE(seller_id, product_id).
    The columns left out take their defaults. *)
Definition insert_seller_product (c : ctx) (r : SellerProductInsert.t) (d : t)
  : option Error.t * t :=
  if negb (owns c (SellerProductInsert.seller_id r)) then
    (Some rls_violation, d)
  else if negb (stock_status_check (SellerProductInsert.stock_status r)) then
    (Some check_violation, d)
  else if negb (existsb (fun s => SellerRow.id s
                                  =? SellerProductInsert.seller_id r)
                        (sellers d))
       || negb (existsb (fun m => MasterProductRow.id m
                                  =? SellerProductInsert.product_id r)
                        (master_products d)) then
    (Some foreign_key_violation, d)
  else if existsb (fun x =>
                     (SellerProductRow.id x =? gen_random_uuid c)
                     || ((SellerProductRow.seller_id x
                          =? SellerProductInsert.seller_id r)
                         && (SellerProductRow.product_id x
                             =? SellerProductInsert.product_id r)))
                  (seller_products d) then
    (Some unique_violation, d)
  else
    (None,
     with_seller_products
       (seller_products d ++
        [{| SellerProductRow.id := gen_random_uuid c;
            SellerProductRow.seller_id := SellerProductInsert.seller_id r;
            SellerProductRow.product_id := SellerProductInsert.product_id r;
            SellerProductRow.custom_price := None;
            SellerProductRow.stock_status :=
              SellerProductInsert.stock_status r;
            SellerProductRow.added_at := Some (now c) |}])
       d).

Definition set_stock_status (s : string) (r : SellerProductRow.t)
  : SellerProductRow.t :=
  {| SellerProductRow.id := SellerProductRow.id r;
     SellerProductRow.seller_id := SellerProductRow.seller_id r;
     SellerProductRow.product_id := SellerProductRow.product_id r;
     SellerProductRow.custom_price := SellerProductRow.custom_price r;
     SellerProductRow.stock_status := s;
     SellerProductRow.added_at := SellerProductRow.added_at r |}.

(** The rows of seller_products that a statement WHERE id = [i] reaches
    under the policies of the table. *)
Definition reaches_seller_product (c : ctx) (i : uuid)
           (r : SellerProductRow.t) : bool :=
  owns c (SellerProductRow.seller_id r) && (SellerProductRow.id r =? i).

(** UPDATE seller_products SET stock_status = [s] WHERE id = [i]; the CHECK
    is evaluated on the rows the statement writes. *)
Definition update_seller_product (c : ctx) (s : string) (i : uuid) (d : t)
  : option Error.t * t :=
  if existsb (reaches_seller_product c i) (seller_products d)
     && negb (stock_status_check s) then
    (Some check_violation, d)
  else
    (None,
     with_seller_products
       (map (fun r => if reaches_seller_product c i r
                      then set_stock_status s r else r)
            (seller_products d))
       d).

(** DELETE FROM seller_products WHERE id = [i] *)
Definition delete_seller_product (c : ctx) (i : uuid) (d : t)
  : option Error.t * t :=
  (None,
   with_seller_products
     (filter (fun r => negb (reaches_seller_product c i r))
             (seller_products d))
     d).

(** *** orders *)

Definition set_status (s : string) (u : timestamptz) (r : OrderRow.t)
  : OrderRow.t :=
  {| OrderRow.id := OrderRow.id r;
     OrderRow.seller_id := OrderRow.seller_id r;
     OrderRow.buyer_name := OrderRow.buyer_name r;
     OrderRow.buyer_phone := OrderRow.buyer_phone r;
     OrderRow.buyer_address := OrderRow.buyer_address r;
     OrderRow.status := s;
     OrderRow.total_amount := OrderRow.total_amount r;
     OrderRow.created_at := OrderRow.created_at r;
     OrderRow.updated_at := Some u |}.

Definition reaches_order (c : ctx) (i : uuid) (r : OrderRow.t) : bool :=
  owns c (OrderRow.seller_id r) && (OrderRow.id r =? i).

(** UPDATE orders SET status = [s], updated_at = [u] WHERE id = [i] *)
Definition update_order (c : ctx) (s : string) (u : timestamptz) (i : uuid)
           (d : t) : option Error.t * t :=
  if existsb (reaches_order c i) (orders d) && negb (status_check s) then
    (Some check_violation, d)
  else
    (None,
     {| sellers := sellers d; master_products := master_products d;
        seller_products := seller_products d;
        orders := map (fun r => if reaches_order c i r
                                then set_status s u r else r)
                      (orders d) |}).

(** SELECT stock_status FROM seller_products WHERE seller_id = [i], under
    "Sellers can view own products". *)
Definition select_stock_status (c : ctx) (i : uuid) (d : t)
  : option (list ProductStock.t) :=
  Some (map (fun r => {| ProductStock.stock_status :=
                           SellerProductRow.stock_status r |})
            (filter (fun r => owns c (SellerProductRow.seller_id r)
                              && (SellerProductRow.seller_id r =? i))
                    (seller_products d))).

(** SELECT total_amount, status FROM orders WHERE seller_id = [i], under
    "Sellers can view own orders". *)
Definition select_total_amount_status (c : ctx) (i : uuid) (d : t)
  : option (list OrderTotal.t) :=
  Some (map (fun r => {| OrderTotal.total_amount := OrderRow.total_amount r;
                         OrderTotal.status := OrderRow.status r |})
            (filter (fun r => owns c (OrderRow.seller_id r)
                              && (OrderRow.seller_id r =? i))
                    (orders d))).

(** One storage request against the database. *)
Definition exec (c : ctx) {X} (q : storage X) (d : t) : X * t :=
  match q in storage X return X * t with
  | sellers_select_id i => (select_seller_id c i d, d)
  | sellers_update p i => update_seller c p i d
  | seller_products_insert r => insert_seller_product c r d
  | seller_products_update s i => update_seller_product c s i d
  | seller_products_delete i => delete_seller_product c i d
  | orders_update s u i => update_order c s u i d
  | seller_products_select_stock_status i => (select_stock_status c i d, d)
  | orders_select_total_amount_status i =>
      (select_total_amount_status c i d, d)
  end.

(** The whole remote: the storage above, and an auth gateway [gw] that is
    not part of this repository and answers as it pleases. *)
Definition remote (gw : forall X, auth X -> X) (c : ctx)
  : forall X, call X -> t -> X * t :=
  fun X k d =>
    match k with
    | Auth a => (gw X a, d)
    | Storage q => exec c q d
    end.

End Db.

(** ** Login screen *)

Module LoginScreen.

Inductive Mode := email_mode | phone_mode.

Record state := {
  mode : Mode;
  email : string;
  password : string;
  phone : string;
  otp : string;
  otpSent : bool;
  error : string;
  loading : bool
}.

(** The state after [setError(v)]. *)
Definition with_error (v : string) (s : state) : state :=
  {| mode := mode s; email := email s; password := password s;
     phone := phone s; otp := otp s; otpSent := otpSent s;
     error := v; loading := loading s |}.

Definition setError (v : string) : prog state unit := set (with_error v).
Definition setLoading (v : bool) : prog state unit :=
  set (fun s => {| mode := mode s; email := email s; password := password s;
                   phone := phone s; otp := otp s; otpSent := otpSent s;
                   error := error s; loading := v |}).
Definition setOtpSent (v : bool) : prog state unit :=
  set (fun s => {| mode := mode s; email := email s; password := password s;
                   phone := phone s; otp := otp s; otpSent := v;
                   error := error s; loading := loading s |}).

(** [st] is the render whose closure the handler captured. *)
Definition handleEmailLogin (st : state) : prog state unit :=
  if negb (Js.truthy (email st)) || negb (Js.truthy (password st)) then
    setError "Please fill in all fields"
  else
    setError "" ;;
    setLoading true ;;
    error <- await (Auth (signIn (email st) (password st))) ;;
    setLoading false ;;
    match error with
    | Some e => setError (Js.or_else (Error.message e) "Failed to sign in")
    | None => router_replace "/(tabs)"
    end.

Definition handleGoogleLogin (st : state) : prog state unit :=
  setError "" ;;
  setLoading true ;;
  error <- await (Auth signInWithGoogle) ;;
  setLoading false ;;
  match error with
  | Some e =>
      setError (Js.or_else (Error.message e) "Failed to sign in with Google")
  | None => skip
  end.

Definition handlePhoneSendOtp (st : state) : prog state unit :=
  if negb (Js.truthy (phone st)) then
    setError "Please enter your phone number"
  else if negb (Js.startsWith (phone st) "+") then
    setError "Phone number must include country code (e.g., +1234567890)"
  else
    setError "" ;;
    setLoading true ;;
    error <- await (Auth (signInWithPhone (phone st))) ;;
    setLoading false ;;
    match error with
    | Some e => setError (Js.or_else (Error.message e) "Failed to send OTP")
    | None => setOtpSent true
    end.

Definition handlePhoneVerifyOtp (st : state) : prog state unit :=
  if negb (Js.truthy (otp st)) then
    setError "Please enter the OTP"
  else
    setError "" ;;
    setLoading true ;;
    r <- await (Auth (verifyOtp (phone st) (otp st))) ;;
    setLoading false ;;
    match r with
    | (Some e, _) =>
        setError (Js.or_else (Error.message e) "Failed to verify OTP")
    | (None, Some _) => router_replace "/(tabs)"
    | (None, None) => skip
    end.

End LoginScreen.

(** ** Signup screen *)

Module SignupScreen.

Record state := {
  mode : LoginScreen.Mode;
  email : string;
  password : string;
  confirmPassword : string;
  phone : string;
  otp : string;
  otpSent : bool;
  error : string;
  loading : bool
}.

(** The state after [setError(v)]. *)
Definition with_error (v : string) (s : state) : state :=
  {| mode := mode s; email := email s; password := password s;
     confirmPassword := confirmPassword s;
     phone := phone s; otp := otp s; otpSent := otpSent s;
     error := v; loading := loading s |}.

Definition setError (v : string) : prog state unit := set (with_error v).
Definition setLoading (v : bool) : prog state unit :=
  set (fun s => {| mode := mode s; email := email s; password := password s;
                   confirmPassword := confirmPassword s;
                   phone := phone s; otp := otp s; otpSent := otpSent s;
                   error := error s; loading := v |}).
Definition setOtpSent (v : bool) : prog state unit :=
  set (fun s => {| mode := mode s; email := email s; password := password s;
                   confirmPassword := confirmPassword s;
                   phone := phone s; otp := otp s; otpSent := v;
                   error := error s; loading := loading s |}).

Definition handleEmailSignup (st : state) : prog state unit :=
  if negb (Js.truthy (email st)) || negb (Js.truthy (password st))
     || negb (Js.truthy (confirmPassword st)) then
    setError "Please fill in all fields"
  else if negb (Js.strict_eq (password st) (confirmPassword st)) then
    setError "Passwords do not match"
  else if Nat.ltb (Js.length (password st)) 6 then
    setError "Password must be at least 6 characters"
  else
    setError "" ;;
    setLoading true ;;
    error <- await (Auth (signUp (email st) (password st))) ;;
    setLoading false ;;
    match error with
    | Some e =>
        setError (Js.or_else (Error.message e) "Failed to create account")
    | None => router_replace "/(auth)/profile-setup"
    end.

Definition handlePhoneSendOtp (st : state) : prog state unit :=
  if negb (Js.truthy (phone st)) then
    setError "Please enter your phone number"
  else if negb (Js.startsWith (phone st) "+") then
    setError "Phone number must include country code (e.g., +1234567890)"
  else
    setError "" ;;
    setLoading true ;;
    error <- await (Auth (signInWithPhone (phone st))) ;;
    setLoading false ;;
    match error with
    | Some e => setError (Js.or_else (Error.message e) "Failed to send OTP")
    | None => setOtpSent true
    end.

Definition handlePhoneVerifyOtp (st : state) : prog state unit :=
  if negb (Js.truthy (otp st)) then
    setError "Please enter the OTP"
  else
    setError "" ;;
    setLoading true ;;
    r <- await (Auth (verifyOtp (phone st) (otp st))) ;;
    setLoading false ;;
    match r with
    | (Some e, _) =>
        setError (Js.or_else (Error.message e) "Failed to verify OTP")
    | (None, Some _) => router_replace "/(auth)/profile-setup"
    | (None, None) => skip
    end.

Definition handleGoogleSignup (st : state) : prog state unit :=
  setError "" ;;
  setLoading true ;;
  error <- await (Auth signInWithGoogle) ;;
  setLoading false ;;
  match error with
  | Some e =>
      setError (Js.or_else (Error.message e) "Failed to sign in with Google")
  | None => skip
  end.

End SignupScreen.

(** ** Entry screen: the redirect run by the effect of [IndexScreen] *)

Module IndexScreen.

(** The component keeps no state of its own. *)
Definition state := unit.

(** [user] and [loading] are the values [useAuth()] gave the render. *)
Definition checkProfile (user : option User.t) (loading : bool)
  : prog state unit :=
  if loading then skip
  else
    match user with
    | None => router_replace "/(auth)/login"
    | Some u =>
        data <- await (Storage (sellers_select_id (User.id u))) ;;
        match data with
        | Some _ => router_replace "/(tabs)"
        | None => router_replace "/(auth)/profile-setup"
        end
    end.

End IndexScreen.

(** ** Catalog screen *)

Module CatalogScreen.

Module Product.
Record t := {
  id : string;
  name : string;
  brand : string;
  category : string;
  base_price : decimal;
  description : option string;
  image_url : option string;
  is_added : bool
}.

(** [{ ...p, is_added: v }] *)
Definition with_is_added (v : bool) (p : t) : t :=
  {| id := id p; name := name p; brand := brand p; category := category p;
     base_price := base_price p; description := description p;
     image_url := image_url p; is_added := v |}.
End Product.

Record state := {
  products : list Product.t;
  loading : bool;
  refreshing : bool;
  searchQuery : string
}.

Definition setProducts (v : list Product.t) : prog state unit :=
  set (fun s => {| products := v; loading := loading s;
                   refreshing := refreshing s;
                   searchQuery := searchQuery s |}).

Definition addProduct (user : option User.t) (st : state) (productId : string)
  : prog state unit :=
  match user with
  | None => skip
  | Some u =>
      error <- await (Storage (seller_products_insert
                 {| SellerProductInsert.seller_id := User.id u;
                    SellerProductInsert.product_id := productId;
                    SellerProductInsert.stock_status := "available" |})) ;;
      match error with
      | None =>
          setProducts
            (map (fun p => if Js.strict_eq (Product.id p) productId
                           then Product.with_is_added true p else p)
                 (products st))
      | Some _ => skip
      end
  end.

Section Filter.
(** [String.prototype.toLowerCase], a primitive of the language. *)
Variable toLowerCase : string -> string.

Definition filteredProducts (products : list Product.t) (searchQuery : string)
  : list Product.t :=
  filter (fun p =>
            Js.includes (toLowerCase (Product.name p))
                        (toLowerCase searchQuery)
            || Js.includes (toLowerCase (Product.brand p))
                           (toLowerCase searchQuery)
            || Js.includes (toLowerCase (Product.category p))
                           (toLowerCase searchQuery))
         products.
End Filter.

End CatalogScreen.

(** ** Inventory screen ("my products") *)

Module MyProductsScreen.

Module MasterDetails.
Record t := {
  name : string;
  brand : string;
  category : string;
  base_price : decimal;
  image_url : option string
}.
End MasterDetails.

Module SellerProduct.
Record t := {
  id : string;
  product_id : string;
  stock_status : string;
  product : MasterDetails.t
}.

(** [{ ...p, stock_status: v }] *)
Definition with_stock_status (v : string) (p : t) : t :=
  {| id := id p; product_id := product_id p; stock_status := v;
     product := product p |}.
End SellerProduct.

Record state := {
  products : list SellerProduct.t;
  loading : bool;
  refreshing : bool
}.

Definition setProducts (v : list SellerProduct.t) : prog state unit :=
  set (fun s => {| products := v; loading := loading s;
                   refreshing := refreshing s |}).

(** The [const newStatus] of [toggleStock]. *)
Definition newStatus (currentStatus : string) : string :=
  if Js.strict_eq currentStatus "available" then "out_of_stock"
  else "available".

Definition toggleStock (st : state) (productId currentStatus : string)
  : prog state unit :=
  error <- await (Storage (seller_products_update (newStatus currentStatus)
                                                  productId)) ;;
  match error with
  | None =>
      setProducts
        (map (fun p => if Js.strict_eq (SellerProduct.id p) productId
                       then SellerProduct.with_stock_status
                              (newStatus currentStatus) p
                       else p)
             (products st))
  | Some _ => skip
  end.

Definition removeProduct (st : state) (productId : string)
  : prog state unit :=
  error <- await (Storage (seller_products_delete productId)) ;;
  match error with
  | None =>
      setProducts
        (filter (fun p => negb (Js.strict_eq (SellerProduct.id p) productId))
                (products st))
  | Some _ => skip
  end.


End MyProductsScreen.

(** ** Orders screen *)

Module OrdersScreen.

Module Order.
Record t := {
  id : string;
  buyer_name : string;
  buyer_phone : string;
  buyer_address : string;
  status : string;
  total_amount : decimal;
  created_at : string
}.

(** [{ ...o, status: v }] *)
Definition with_status (v : string) (o : t) : t :=
  {| id := id o; buyer_name := buyer_name o; buyer_phone := buyer_phone o;
     buyer_address := buyer_address o; status := v;
     total_amount := total_amount o; created_at := created_at o |}.
End Order.

Module StatusOption.
Record t := { value : string; label : string; color : string }.
End StatusOption.

Definition STATUS_OPTIONS : list StatusOption.t :=
  [ {| StatusOption.value := "confirmed"; StatusOption.label := "Confirmed";
       StatusOption.color := "#3b82f6" |};
    {| StatusOption.value := "packed"; StatusOption.label := "Packed";
       StatusOption.color := "#8b5cf6" |};
    {| StatusOption.value := "shipped"; StatusOption.label := "Shipped";
       StatusOption.color := "#f59e0b" |};
    {| StatusOption.value := "delivered"; StatusOption.label := "Delivered";
       StatusOption.color := "#10b981" |};
    {| StatusOption.value := "cancelled"; StatusOption.label := "Cancelled";
       StatusOption.color := "#ef4444" |} ].

Record state := {
  orders : list Order.t;
  loading : bool;
  refreshing : bool;
  selectedOrder : option Order.t;
  modalVisible : bool
}.

Definition setOrders (v : list Order.t) : prog state unit :=
  set (fun s => {| orders := v; loading := loading s;
                   refreshing := refreshing s;
                   selectedOrder := selectedOrder s;
                   modalVisible := modalVisible s |}).
Definition setModalVisible (v : bool) : prog state unit :=
  set (fun s => {| orders := orders s; loading := loading s;
                   refreshing := refreshing s;
                   selectedOrder := selectedOrder s;
                   modalVisible := v |}).

(** [date] is what [new Date().toISOString()] evaluates to when the
    handler builds its request. *)
Definition updateOrderStatus (st : state) (date : timestamptz)
           (orderId newStatus : string) : prog state unit :=
  error <- await (Storage (orders_update newStatus date orderId)) ;;
  match error with
  | None =>
      setOrders
        (map (fun o => if Js.strict_eq (Order.id o) orderId
                       then Order.with_status newStatus o else o)
             (orders st)) ;;
      setModalVisible false
  | Some _ => skip
  end.

(** [onPress] of the entry the detail view renders for [status]; the
    entries exist only while an order is selected. *)
Definition onPressStatus (st : state) (date : timestamptz)
           (status : StatusOption.t) : prog state unit :=
  match selectedOrder st with
  | Some selected =>
      updateOrderStatus st date (Order.id selected)
                        (StatusOption.value status)
  | None => skip
  end.

(** [STATUS_OPTIONS.find(s => s.value === status)] *)
Definition findStatus (status : string) : option StatusOption.t :=
  find (fun s => Js.strict_eq (StatusOption.value s) status) STATUS_OPTIONS.

(** [find(...)?.color || '#6b7280'] *)
Definition getStatusColor (status : string) : string :=
  match findStatus status with
  | Some s => Js.or_else (StatusOption.color s) "#6b7280"
  | None => "#6b7280"
  end.

(** The text of the status badge that [renderOrder] shows for [item]:
    [find(...)?.label || item.status]. *)
Definition statusText (item : Order.t) : string :=
  match findStatus (Order.status item) with
  | Some s => Js.or_else (StatusOption.label s) (Order.status item)
  | None => Order.status item
  end.

End OrdersScreen.

(** ** Profile screen *)

Module ProfileScreen.

Module SellerProfile.
Record t := {
  shop_name : string;
  owner_name : string;
  phone : string;
  email : string;
  address : string;
  gst_number : option string;
  is_verified : bool
}.
End SellerProfile.

Record state := {
  profile : option SellerProfile.t;
  loading : bool;
  editing : bool;
  editedProfile : option SellerProfile.t
}.

Definition setProfile (v : option SellerProfile.t) : prog state unit :=
  set (fun s => {| profile := v; loading := loading s; editing := editing s;
                   editedProfile := editedProfile s |}).
Definition setEditing (v : bool) : prog state unit :=
  set (fun s => {| profile := profile s; loading := loading s; editing := v;
                   editedProfile := editedProfile s |}).

Definition handleSave (user : option User.t) (st : state)
  : prog state unit :=
  match user, editedProfile st with
  | Some u, Some edited =>
      error <- await (Storage (sellers_update
                 {| SellerPatch.shop_name := SellerProfile.shop_name edited;
                    SellerPatch.owner_name := SellerProfile.owner_name edited;
                    SellerPatch.phone := SellerProfile.phone edited;
                    SellerPatch.address := SellerProfile.address edited;
                    SellerPatch.gst_number :=
                      SellerProfile.gst_number edited |}
                 (User.id u))) ;;
      match error with
      | None => setProfile (Some edited) ;; setEditing false
      | Some _ => skip
      end
  | _, _ => skip
  end.

End ProfileScreen.

(** ** Dashboard screen *)

Module DashboardScreen.

Section Stats.
(** JavaScript numbers with [0] and [+]; [parseFloat] is taken on the
    [total_amount] member of a row, the JSON number printed for the decimal
    column.  All three are primitives of the language. *)
Variable number : Type.
Variable zero : number.
Variable add : number -> number -> number.
Variable parseFloat : decimal -> number.

Record DashboardStats := {
  totalProducts : nat;
  inStock : nat;
  outOfStock : nat;
  totalOrders : nat;
  revenue : number
}.

Record state := {
  stats : DashboardStats;
  loading : bool;
  refreshing : bool
}.

Definition setStats (v : DashboardStats) : prog state unit :=
  set (fun s => {| stats := v; loading := loading s;
                   refreshing := refreshing s |}).
Definition setLoading (v : bool) : prog state unit :=
  set (fun s => {| stats := stats s; loading := v;
                   refreshing := refreshing s |}).
Definition setRefreshing (v : bool) : prog state unit :=
  set (fun s => {| stats := stats s; loading := loading s;
                   refreshing := v |}).

(** [xs.reduce((sum, o) => f(sum, o), init)] *)
Definition reduce {A B} (f : B -> A -> B) (xs : list A) (init : B) : B :=
  fold_left f xs init.

(** The value [loadStats] hands to [setStats], from the [data] members of
    its two responses ([None] is [null]). *)
Definition loadStats_stats (productsData : option (list ProductStock.t))
           (ordersData : option (list OrderTotal.t)) : DashboardStats :=
  let products := match productsData with Some l => l | None => [] end in
  let orders := match ordersData with Some l => l | None => [] end in
  let inStock :=
    List.length (filter (fun p => Js.strict_eq (ProductStock.stock_status p)
                                               "available")
                        products) in
  let outOfStock :=
    List.length (filter (fun p => Js.strict_eq (ProductStock.stock_status p)
                                               "out_of_stock")
                        products) in
  let revenue :=
    reduce (fun sum o => add sum (parseFloat (OrderTotal.total_amount o)))
           (filter (fun o => Js.strict_eq (OrderTotal.status o) "delivered")
                   orders)
           zero in
  {| totalProducts := List.length products;
     inStock := inStock;
     outOfStock := outOfStock;
     totalOrders := List.length orders;
     revenue := revenue |}.

(** The two selects of [Promise.all] read only; they are awaited here one
    after the other.  Nothing in the body of the [try] throws in this
    model, so the [finally] block follows [setStats]. *)
Definition loadStats (user : option User.t) (st : state)
  : prog state unit :=
  match user with
  | None => skip
  | Some u =>
      productsData <-
        await (Storage (seller_products_select_stock_status (User.id u))) ;;
      ordersData <-
        await (Storage (orders_select_total_amount_status (User.id u))) ;;
      setStats (loadStats_stats productsData ordersData) ;;
      setLoading false ;;
      setRefreshing false
  end.
(** [onRefresh] *)
Definition onRefresh (user : option User.t) (st : state)
  : prog state unit :=
  setRefreshing true ;;
  loadStats user st.
End Stats.

End DashboardScreen.

(** * The remaining handlers

    Profile setup and the loaders of the catalog and of the profile send
    requests of their own.  [request] adds them to the calls above, and
    [task] is the handler monad over requests; a [prog] is a [task] through
    [of_prog]. *)

(** Payload of [from('sellers').insert({...})] in profile setup. *)
Module SellerInsert.
Record t := {
  id : uuid;
  shop_name : string;
  owner_name : string;
  phone : string;
  email : string;
  address : string;
  gst_number : option string
}.
End SellerInsert.

Inductive query : Type -> Type :=
  (* from('sellers').insert(row) *)
| sellers_insert (row : SellerInsert.t) : query (option Error.t)
  (* from('sellers').select('*').eq('id', id).maybeSingle(), member data *)
| sellers_select (id : uuid) : query (option SellerRow.t)
  (* from('master_products').select('*').eq('is_active', true),
     member data *)
| master_products_select_active : query (option (list MasterProductRow.t))
  (* from('seller_products').select('product_id').eq('seller_id', id),
     member data, each row as its product_id *)
| seller_products_select_product_id (seller_id : uuid)
    : query (option (list uuid)).

Inductive request (X : Type) : Type :=
| Known (c : call X)
| Further (q : query X).

Arguments Known {X} c.
Arguments Further {X} q.

Definition asked : Type := { X : Type & request X }.
Definition note {X} (r : request X) : asked := existT request X r.

Inductive task (S A : Type) : Type :=
| Return (a : A)
| Store (upd : S -> S) (k : task S A)
| Request (X : Type) (r : request X) (k : X -> task S A)
| Route (n : nav) (k : task S A).

Arguments Return {S A} a.
Arguments Store {S A} upd k.
Arguments Request {S A X} r k.
Arguments Route {S A} n k.

Fixpoint task_bind {S A B} (t : task S A) (f : A -> task S B) : task S B :=
  match t with
  | Return a => f a
  | Store upd k => Store upd (task_bind k f)
  | Request r k => Request r (fun x => task_bind (k x) f)
  | Route n k => Route n (task_bind k f)
  end.

Fixpoint of_prog {S A} (p : prog S A) : task S A :=
  match p with
  | Ret a => Return a
  | SetState upd k => Store upd (of_prog k)
  | Await c k => Request (Known c) (fun x => of_prog (k x))
  | Router n k => Route n (of_prog k)
  end.

Definition store {S} (upd : S -> S) : task S unit := Store upd (Return tt).
Definition ask {S X} (q : query X) : task S X :=
  Request (Further q) (fun x => Return x).
Definition route_replace {S} (href : string) : task S unit :=
  Route (replace href) (Return tt).
Definition pass {S} : task S unit := Return tt.

Declare Scope task_scope.
Delimit Scope task_scope with task.
Notation "x <- c ;; k" := (task_bind c (fun x => k))
  (at level 61, c at next level, right associativity) : task_scope.
Notation "c ;; k" := (task_bind c (fun _ => k))
  (at level 61, right associativity) : task_scope.

Record result (S W : Type) : Type := {
  shown : S;                (* the component's state after the handler *)
  remote_state : W;         (* the remote's state after the handler *)
  requests : list asked;    (* the awaited requests, in order *)
  routes : list nav         (* the router requests, in order *)
}.

Section Perform.
Variables S W : Type.
Variable remote : forall X, request X -> W -> X * W.

Fixpoint perform {A} (t : task S A) (s : S) (w : W) : result S W :=
  match t with
  | Return _ =>
      {| shown := s; remote_state := w; requests := []; routes := [] |}
  | Store upd k => perform k (upd s) w
  | Request r k =>
      let (x, w') := remote r w in
      let o := perform (k x) s w' in
      {| shown := shown o; remote_state := remote_state o;
         requests := note r :: requests o; routes := routes o |}
  | Route n k =>
      let o := perform k s w in
      {| shown := shown o; remote_state := remote_state o;
         requests := requests o; routes := n :: routes o |}
  end.
End Perform.

(** ** The schema under the further requests *)

Module Backend.

(** INSERT INTO sellers: policy "Sellers can insert own profile" and the
    primary key.  The key references the auth user, who exists since the
    policy has made the id the one of the session.  The columns left out
    take their defaults. *)
Definition insert_seller (c : Db.ctx) (r : SellerInsert.t) (d : Db.t)
  : option Error.t * Db.t :=
  if negb (Db.owns c (SellerInsert.id r)) then (Some Db.rls_violation, d)
  else if existsb (fun s => SellerRow.id s =? SellerInsert.id r)
                  (Db.sellers d) then
    (Some Db.unique_violation, d)
  else
    (None,
     {| Db.sellers :=
          Db.sellers d ++
          [{| SellerRow.id := SellerInsert.id r;
              SellerRow.shop_name := SellerInsert.shop_name r;
              SellerRow.owner_name := SellerInsert.owner_name r;
              SellerRow.phone := SellerInsert.phone r;
              SellerRow.email := SellerInsert.email r;
              SellerRow.address := SellerInsert.address r;
              SellerRow.gst_number := SellerInsert.gst_number r;
              SellerRow.logo_url := None;
              SellerRow.banner_url := None;
              SellerRow.is_verified := Some false;
              SellerRow.created_at := Some (Db.now c);
              SellerRow.updated_at := Some (Db.now c) |}];
        Db.master_products := Db.master_products d;
        Db.seller_products := Db.seller_products d;
        Db.orders := Db.orders d |}).

(** SELECT * FROM sellers WHERE id = [i], under "Sellers can view own
    profile"; [maybeSingle] yields the row when there is exactly one. *)
Definition select_seller (c : Db.ctx) (i : uuid) (d : Db.t)
  : option SellerRow.t :=
  match filter (fun r => Db.owns c (SellerRow.id r) && (SellerRow.id r =? i))
               (Db.sellers d) with
  | [r] => Some r
  | _ => None
  end.

(** [is_active = true] on a nullable boolean. *)
Definition is_true (b : option bool) : bool :=
  match b with
  | Some true => true
  | _ => false
  end.

(** SELECT * FROM master_products WHERE is_active = true, under
    "Authenticated sellers can view master products". *)
Definition select_active_master (c : Db.ctx) (d : Db.t)
  : option (list MasterProductRow.t) :=
  match Db.uid c with
  | Some _ =>
      Some (filter (fun m => is_true (MasterProductRow.is_active m)
                             && is_true (MasterProductRow.is_active m))
                   (Db.master_products d))
  | None => Some []
  end.

(** SELECT product_id FROM seller_products WHERE seller_id = [i], under
    "Sellers can view own products". *)
Definition select_product_ids (c : Db.ctx) (i : uuid) (d : Db.t)
  : option (list uuid) :=
  Some (map SellerProductRow.product_id
            (filter (fun r => Db.owns c (SellerProductRow.seller_id r)
                              && (SellerProductRow.seller_id r =? i))
                    (Db.seller_products d))).

Definition exec (c : Db.ctx) {X} (q : query X) (d : Db.t) : X * Db.t :=
  match q in query X return X * Db.t with
  | sellers_insert r => insert_seller c r d
  | sellers_select i => (select_seller c i d, d)
  | master_products_select_active => (select_active_master c d, d)
  | seller_products_select_product_id i => (select_product_ids c i d, d)
  end.

Definition remote (gw : forall X, auth X -> X) (c : Db.ctx)
  : forall X, request X -> Db.t -> X * Db.t :=
  fun X r d =>
    match r with
    | Known k => Db.remote gw c k d
    | Further q => exec c q d
    end.

End Backend.

(** ** Profile setup screen *)

Module ProfileSetupScreen.

Local Open Scope task_scope.

Record state := {
  shopName : string;
  ownerName : string;
  phone : string;
  address : string;
  gstNumber : string;
  error : string;
  loading : bool
}.

(** The state after [setError(v)]. *)
Definition with_error (v : string) (s : state) : state :=
  {| shopName := shopName s; ownerName := ownerName s; phone := phone s;
     address := address s; gstNumber := gstNumber s;
     error := v; loading := loading s |}.

Definition setError (v : string) : task state unit := store (with_error v).
Definition setLoading (v : bool) : task state unit :=
  store (fun s => {| shopName := shopName s; ownerName := ownerName s;
                     phone := phone s; address := address s;
                     gstNumber := gstNumber s;
                     error := error s; loading := v |}).

(** The row [handleSetup] inserts: [user.email || ''] and
    [gstNumber || null]. *)
Definition setup_row (u : User.t) (st : state) : SellerInsert.t :=
  {| SellerInsert.id := User.id u;
     SellerInsert.shop_name := shopName st;
     SellerInsert.owner_name := ownerName st;
     SellerInsert.phone := phone st;
     SellerInsert.email :=
       match User.email u with
       | Some e => Js.or_else e ""
       | None => ""
       end;
     SellerInsert.address := address st;
     SellerInsert.gst_number :=
       if Js.truthy (gstNumber st) then Some (gstNumber st) else None |}.

Definition handleSetup (user : option User.t) (st : state)
  : task state unit :=
  if negb (Js.truthy (shopName st)) || negb (Js.truthy (ownerName st))
     || negb (Js.truthy (phone st)) || negb (Js.truthy (address st)) then
    setError "Please fill in all required fields"
  else
    match user with
    | None => setError "User not authenticated"
    | Some u =>
        setError "" ;;
        setLoading true ;;
        dbError <- ask (sellers_insert (setup_row u st)) ;;
        setLoading false ;;
        match dbError with
        | Some e =>
            setError (Js.or_else (Error.message e) "Failed to create profile")
        | None => route_replace "/(tabs)"
        end
    end.

End ProfileSetupScreen.

(** ** Loader of the catalog *)

Module CatalogLoader.

Local Open Scope task_scope.

Definition setLoading (v : bool) : task CatalogScreen.state unit :=
  store (fun s => {| CatalogScreen.products := CatalogScreen.products s;
                     CatalogScreen.loading := v;
                     CatalogScreen.refreshing := CatalogScreen.refreshing s;
                     CatalogScreen.searchQuery :=
                       CatalogScreen.searchQuery s |}).
Definition setRefreshing (v : bool) : task CatalogScreen.state unit :=
  store (fun s => {| CatalogScreen.products := CatalogScreen.products s;
                     CatalogScreen.loading := CatalogScreen.loading s;
                     CatalogScreen.refreshing := v;
                     CatalogScreen.searchQuery :=
                       CatalogScreen.searchQuery s |}).

(** [addedProductIds.has(id)] for the set built from [ids]. *)
Definition has (ids : list uuid) (id : uuid) : bool :=
  existsb (fun i => i =? id) ids.

(** [{ ...p, is_added: v }] for a row [p] of master_products, at the
    members of [Product]. *)
Definition withStatus (v : bool) (p : MasterProductRow.t)
  : CatalogScreen.Product.t :=
  {| CatalogScreen.Product.id := MasterProductRow.id p;
     CatalogScreen.Product.name := MasterProductRow.name p;
     CatalogScreen.Product.brand := MasterProductRow.brand p;
     CatalogScreen.Product.category := MasterProductRow.category p;
     CatalogScreen.Product.base_price := MasterProductRow.base_price p;
     CatalogScreen.Product.description := MasterProductRow.description p;
     CatalogScreen.Product.image_url := MasterProductRow.image_url p;
     CatalogScreen.Product.is_added := v |}.

(** The list [loadProducts] hands to [setProducts]. *)
Definition productsWithStatus
           (masterProducts : option (list MasterProductRow.t))
           (sellerProducts : option (list uuid))
  : list CatalogScreen.Product.t :=
  let addedProductIds :=
    match sellerProducts with Some l => l | None => [] end in
  map (fun p => withStatus (has addedProductIds (MasterProductRow.id p)) p)
      (match masterProducts with Some l => l | None => [] end).

(** Nothing in the body of the [try] throws in this model, so the
    [finally] block follows [setProducts]. *)
Definition loadProducts (user : option User.t) (st : CatalogScreen.state)
  : task CatalogScreen.state unit :=
  match user with
  | None => pass
  | Some u =>
      masterProducts <- ask master_products_select_active ;;
      sellerProducts <-
        ask (seller_products_select_product_id (User.id u)) ;;
      of_prog (CatalogScreen.setProducts
                 (productsWithStatus masterProducts sellerProducts)) ;;
      setLoading false ;;
      setRefreshing false
  end.

(** [onRefresh] *)
Definition onRefresh (user : option User.t) (st : CatalogScreen.state)
  : task CatalogScreen.state unit :=
  setRefreshing true ;;
  loadProducts user st.

End CatalogLoader.

(** ** Loader of the profile *)

Module ProfileLoader.

Local Open Scope task_scope.

Definition setLoading (v : bool) : task ProfileScreen.state unit :=
  store (fun s => {| ProfileScreen.profile := ProfileScreen.profile s;
                     ProfileScreen.loading := v;
                     ProfileScreen.editing := ProfileScreen.editing s;
                     ProfileScreen.editedProfile :=
                       ProfileScreen.editedProfile s |}).
Definition setEditedProfile (v : option ProfileScreen.SellerProfile.t)
  : task ProfileScreen.state unit :=
  store (fun s => {| ProfileScreen.profile := ProfileScreen.profile s;
                     ProfileScreen.loading := ProfileScreen.loading s;
                     ProfileScreen.editing := ProfileScreen.editing s;
                     ProfileScreen.editedProfile := v |}).

(** The row of sellers at the members of [SellerProfile]; the screen uses
    [is_verified] for its truthiness only, and [null] is falsy. *)
Definition of_row (r : SellerRow.t) : ProfileScreen.SellerProfile.t :=
  {| ProfileScreen.SellerProfile.shop_name := SellerRow.shop_name r;
     ProfileScreen.SellerProfile.owner_name := SellerRow.owner_name r;
     ProfileScreen.SellerProfile.phone := SellerRow.phone r;
     ProfileScreen.SellerProfile.email := SellerRow.email r;
     ProfileScreen.SellerProfile.address := SellerRow.address r;
     ProfileScreen.SellerProfile.gst_number := SellerRow.gst_number r;
     ProfileScreen.SellerProfile.is_verified :=
       match SellerRow.is_verified r with
       | Some b => b
       | None => false
       end |}.

Definition loadProfile (user : option User.t) (st : ProfileScreen.state)
  : task ProfileScreen.state unit :=
  match user with
  | None => pass
  | Some u =>
      data <- ask (sellers_select (User.id u)) ;;
      match data with
      | Some row =>
          of_prog (ProfileScreen.setProfile (Some (of_row row))) ;;
          setEditedProfile (Some (of_row row))
      | None => pass
      end ;;
      setLoading false
  end.

(** [if (loading || !profile)]: the screen renders the placeholder
    ['Loading...'] instead of the profile. *)
Definition rendersPlaceholder (s : ProfileScreen.state) : bool :=
  ProfileScreen.loading s
  || match ProfileScreen.profile s with Some _ => false | None => true end.

End ProfileLoader.

(** * Vocabulary of the properties *)

(** What the remote answers to call [c] in state [w]. *)
Definition answer {W X} (remote : forall X, call X -> W -> X * W)
           (c : call X) (w : W) : X :=
  fst (remote X c w).

(** [sub] is a substring of [s]. *)
Definition occurs_in (sub s : string) : Prop :=
  exists pre post, s = pre ++ sub ++ post.

Definition valid_stock_status (s : string) : Prop :=
  s = "available" \/ s = "out_of_stock".

(** Every row of seller_products has one of the two stock statuses. *)
Definition stock_ok (d : Db.t) : Prop :=
  forall r, In r (Db.seller_products d) ->
            valid_stock_status (SellerProductRow.stock_status r).

(** The total of the delivered orders, taken in one pass over the list in
    its order: an order that is not delivered leaves the running total as
    it is. *)
Fixpoint delivered_total {number : Type}
         (add : number -> number -> number) (parseFloat : decimal -> number)
         (orders : list OrderTotal.t) (acc : number)
  : number :=
  match orders with
  | [] => acc
  | o :: rest =>
      delivered_total add parseFloat rest
        (if OrderTotal.status o =? "delivered"
         then add acc (parseFloat (OrderTotal.total_amount o))
         else acc)
  end.

(** The orders of seller [i] in the table, as the dashboard reads them. *)
Definition orders_of (i : uuid) (d : Db.t) : list OrderTotal.t :=
  map (fun r => {| OrderTotal.total_amount := OrderRow.total_amount r;
                   OrderTotal.status := OrderRow.status r |})
      (filter (fun r => OrderRow.seller_id r =? i) (Db.orders d)).

(** The payload [handleSave] builds from the edited profile. *)
Definition save_patch (edited : ProfileScreen.SellerProfile.t)
  : SellerPatch.t :=
  {| SellerPatch.shop_name := ProfileScreen.SellerProfile.shop_name edited;
     SellerPatch.owner_name := ProfileScreen.SellerProfile.owner_name edited;
     SellerPatch.phone := ProfileScreen.SellerProfile.phone edited;
     SellerPatch.address := ProfileScreen.SellerProfile.address edited;
     SellerPatch.gst_number := ProfileScreen.SellerProfile.gst_number edited |}.

(** PRIMARY KEY (id) and UNIQUE (seller_id, product_id) of
    seller_products. *)
Definition keys_ok (d : Db.t) : Prop :=
  NoDup (map SellerProductRow.id (Db.seller_products d))
  /\ NoDup (map (fun r => (SellerProductRow.seller_id r,
                           SellerProductRow.product_id r))
                (Db.seller_products d)).

Definition valid_status (s : string) : Prop :=
  s = "confirmed" \/ s = "packed" \/ s = "shipped" \/ s = "delivered"
  \/ s = "cancelled".

(** Every row of orders has one of the five statuses. *)
Definition orders_ok (d : Db.t) : Prop :=
  forall r, In r (Db.orders d) -> valid_status (OrderRow.status r).

(** The foreign keys of seller_products and orders point at rows that
    exist. *)
Definition references_ok (d : Db.t) : Prop :=
  (forall r, In r (Db.seller_products d) ->
             In (SellerProductRow.seller_id r)
                (map SellerRow.id (Db.sellers d))
             /\ In (SellerProductRow.product_id r)
                   (map MasterProductRow.id (Db.master_products d)))
  /\ (forall r, In r (Db.orders d) ->
                In (OrderRow.seller_id r) (map SellerRow.id (Db.sellers d))).

(** The rows of each owned table that do not belong to the session of
    [c]. *)
Definition foreign_sellers (c : Db.ctx) (d : Db.t) : list SellerRow.t :=
  filter (fun r => negb (Db.owns c (SellerRow.id r))) (Db.sellers d).
Definition foreign_seller_products (c : Db.ctx) (d : Db.t)
  : list SellerProductRow.t :=
  filter (fun r => negb (Db.owns c (SellerProductRow.seller_id r)))
         (Db.seller_products d).
Definition foreign_orders (c : Db.ctx) (d : Db.t) : list OrderRow.t :=
  filter (fun r => negb (Db.owns c (OrderRow.seller_id r))) (Db.orders d).

(** * Concrete sessions, tables and views *)

Module Sample.

Definition seller : User.t :=
  {| User.id := "seller-1"; User.email := Some "asha@example.com" |}.

(** A gateway that accepts every credential. *)
Definition gw : forall X, auth X -> X :=
  fun X a =>
    match a in auth X return X with
    | signIn _ _ => None
    | signUp _ _ => None
    | signInWithGoogle => None
    | signInWithPhone _ => None
    | verifyOtp _ _ => (None, Some {| Session.user := seller |})
    end.

Definition network_error : Error.t :=
  {| Error.message := "Network request failed" |}.

(** A remote that cannot be reached: every call comes back with an error
    and the database is not touched. *)
Definition offline : forall X, call X -> Db.t -> X * Db.t :=
  fun X k d =>
    (match k in call _ return X with
     | Auth a =>
         match a in auth X return X with
         | signIn _ _ => Some network_error
         | signUp _ _ => Some network_error
         | signInWithGoogle => Some network_error
         | signInWithPhone _ => Some network_error
         | verifyOtp _ _ => (Some network_error, None)
         end
     | Storage q =>
         match q in storage X return X with
         | sellers_select_id _ => None
         | sellers_update _ _ => Some network_error
         | seller_products_insert _ => Some network_error
         | seller_products_update _ _ => Some network_error
         | seller_products_delete _ => Some network_error
         | orders_update _ _ _ => Some network_error
         | seller_products_select_stock_status _ => None
         | orders_select_total_amount_status _ => None
         end
     end, d).

Definition cx : Db.ctx :=
  {| Db.uid := Some "seller-1"; Db.gen_random_uuid := "sp-2";
     Db.now := "2025-10-04T16:40:00.000Z" |}.

Definition cx' : Db.ctx :=
  {| Db.uid := Some "seller-1"; Db.gen_random_uuid := "sp-3";
     Db.now := "2025-10-04T16:41:00.000Z" |}.

Definition seller_row : SellerRow.t :=
  {| SellerRow.id := "seller-1"; SellerRow.shop_name := "Asha Stores";
     SellerRow.owner_name := "Asha"; SellerRow.phone := "+911234567890";
     SellerRow.email := "asha@example.com";
     SellerRow.address := "12 Market Road"; SellerRow.gst_number := None;
     SellerRow.logo_url := None; SellerRow.banner_url := None;
     SellerRow.is_verified := Some true;
     SellerRow.created_at := Some "2025-10-04T16:33:57.000Z";
     SellerRow.updated_at := Some "2025-10-04T16:33:57.000Z" |}.

Definition other_seller_row : SellerRow.t :=
  {| SellerRow.id := "seller-2"; SellerRow.shop_name := "Ravi Traders";
     SellerRow.owner_name := "Ravi"; SellerRow.phone := "+919876543210";
     SellerRow.email := "ravi@example.com";
     SellerRow.address := "7 Lake View"; SellerRow.gst_number := Some "GST7";
     SellerRow.logo_url := None; SellerRow.banner_url := None;
     SellerRow.is_verified := Some false;
     SellerRow.created_at := Some "2025-10-04T16:35:00.000Z";
     SellerRow.updated_at := Some "2025-10-04T16:35:00.000Z" |}.

Definition tea : MasterProductRow.t :=
  {| MasterProductRow.id := "prod-tea";
     MasterProductRow.name := "Organic Green Tea (100g)";
     MasterProductRow.brand := "TeaGarden";
     MasterProductRow.category := "Food & Beverages";
     MasterProductRow.base_price := 29900%Z;
     MasterProductRow.description := None;
     MasterProductRow.image_url := None;
     MasterProductRow.is_active := Some true;
     MasterProductRow.created_at := None |}.

Definition mat : MasterProductRow.t :=
  {| MasterProductRow.id := "prod-mat";
     MasterProductRow.name := "Yoga Mat";
     MasterProductRow.brand := "FitLife";
     MasterProductRow.category := "Sports & Fitness";
     MasterProductRow.base_price := 79900%Z;
     MasterProductRow.description := None;
     MasterProductRow.image_url := None;
     MasterProductRow.is_active := Some true;
     MasterProductRow.created_at := None |}.

Definition tea_in_shop : SellerProductRow.t :=
  {| SellerProductRow.id := "sp-1";
     SellerProductRow.seller_id := "seller-1";
     SellerProductRow.product_id := "prod-tea";
     SellerProductRow.custom_price := None;
     SellerProductRow.stock_status := "available";
     SellerProductRow.added_at := Some "2025-10-04T16:36:00.000Z" |}.

Definition delivered_order : OrderRow.t :=
  {| OrderRow.id := "order-1"; OrderRow.seller_id := "seller-1";
     OrderRow.buyer_name := "Meera"; OrderRow.buyer_phone := "+915550001";
     OrderRow.buyer_address := "3 Hill Street";
     OrderRow.status := "delivered"; OrderRow.total_amount := 29900%Z;
     OrderRow.created_at := Some "2025-10-04T16:37:00.000Z";
     OrderRow.updated_at := Some "2025-10-04T16:38:00.000Z" |}.

Definition db : Db.t :=
  {| Db.sellers := [seller_row; other_seller_row];
     Db.master_products := [tea; mat];
     Db.seller_products := [tea_in_shop];
     Db.orders := [delivered_order] |}.

(** Login and signup forms *)

Definition login_form : LoginScreen.state :=
  {| LoginScreen.mode := LoginScreen.email_mode;
     LoginScreen.email := "asha@example.com";
     LoginScreen.password := "secret1";
     LoginScreen.phone := "911234567890";
     LoginScreen.otp := ""; LoginScreen.otpSent := false;
     LoginScreen.error := ""; LoginScreen.loading := false |}.

Definition signup_form : SignupScreen.state :=
  {| SignupScreen.mode := LoginScreen.email_mode;
     SignupScreen.email := "asha@example.com";
     SignupScreen.password := "abc12";
     SignupScreen.confirmPassword := "abc12";
     SignupScreen.phone := "911234567890";
     SignupScreen.otp := ""; SignupScreen.otpSent := false;
     SignupScreen.error := ""; SignupScreen.loading := false |}.

(** A password of five characters, three of them accented: "e-acute"
    three times, then "12".  Its UTF-8 form has eight bytes. *)
Definition e_acute : string :=
  String (ascii_of_nat 195) (String (ascii_of_nat 169) EmptyString).

Definition accented_password : string := e_acute ++ e_acute ++ e_acute ++ "12".

Definition accented_signup_form : SignupScreen.state :=
  {| SignupScreen.mode := LoginScreen.email_mode;
     SignupScreen.email := "asha@example.com";
     SignupScreen.password := accented_password;
     SignupScreen.confirmPassword := accented_password;
     SignupScreen.phone := "";
     SignupScreen.otp := ""; SignupScreen.otpSent := false;
     SignupScreen.error := ""; SignupScreen.loading := false |}.

(** Views *)

Definition catalog_tea : CatalogScreen.Product.t :=
  {| CatalogScreen.Product.id := "prod-tea";
     CatalogScreen.Product.name := "Organic Green Tea (100g)";
     CatalogScreen.Product.brand := "TeaGarden";
     CatalogScreen.Product.category := "Food & Beverages";
     CatalogScreen.Product.base_price := 29900%Z;
     CatalogScreen.Product.description := None;
     CatalogScreen.Product.image_url := None;
     CatalogScreen.Product.is_added := false |}.

Definition catalog_mat : CatalogScreen.Product.t :=
  {| CatalogScreen.Product.id := "prod-mat";
     CatalogScreen.Product.name := "Yoga Mat";
     CatalogScreen.Product.brand := "FitLife";
     CatalogScreen.Product.category := "Sports & Fitness";
     CatalogScreen.Product.base_price := 79900%Z;
     CatalogScreen.Product.description := None;
     CatalogScreen.Product.image_url := None;
     CatalogScreen.Product.is_added := false |}.

Definition catalog : CatalogScreen.state :=
  {| CatalogScreen.products := [catalog_tea; catalog_mat];
     CatalogScreen.loading := false; CatalogScreen.refreshing := false;
     CatalogScreen.searchQuery := "" |}.

Definition my_tea : MyProductsScreen.SellerProduct.t :=
  {| MyProductsScreen.SellerProduct.id := "sp-1";
     MyProductsScreen.SellerProduct.product_id := "prod-tea";
     MyProductsScreen.SellerProduct.stock_status := "available";
     MyProductsScreen.SellerProduct.product :=
       {| MyProductsScreen.MasterDetails.name := "Organic Green Tea (100g)";
          MyProductsScreen.MasterDetails.brand := "TeaGarden";
          MyProductsScreen.MasterDetails.category := "Food & Beverages";
          MyProductsScreen.MasterDetails.base_price := 29900%Z;
          MyProductsScreen.MasterDetails.image_url := None |} |}.

Definition my_products : MyProductsScreen.state :=
  {| MyProductsScreen.products := [my_tea];
     MyProductsScreen.loading := false;
     MyProductsScreen.refreshing := false |}.

Definition order_view : OrdersScreen.Order.t :=
  {| OrdersScreen.Order.id := "order-1";
     OrdersScreen.Order.buyer_name := "Meera";
     OrdersScreen.Order.buyer_phone := "+915550001";
     OrdersScreen.Order.buyer_address := "3 Hill Street";
     OrdersScreen.Order.status := "delivered";
     OrdersScreen.Order.total_amount := 29900%Z;
     OrdersScreen.Order.created_at := "2025-10-04T16:37:00.000Z" |}.

Definition orders_view : OrdersScreen.state :=
  {| OrdersScreen.orders := [order_view];
     OrdersScreen.loading := false; OrdersScreen.refreshing := false;
     OrdersScreen.selectedOrder := Some order_view;
     OrdersScreen.modalVisible := true |}.

(** The first entry of the status list: back to 'confirmed'. *)
Definition to_confirmed : OrdersScreen.StatusOption.t :=
  {| OrdersScreen.StatusOption.value := "confirmed";
     OrdersScreen.StatusOption.label := "Confirmed";
     OrdersScreen.StatusOption.color := "#3b82f6" |}.

Definition edited : ProfileScreen.SellerProfile.t :=
  {| ProfileScreen.SellerProfile.shop_name := "Asha Super Stores";
     ProfileScreen.SellerProfile.owner_name := "Asha K";
     ProfileScreen.SellerProfile.phone := "+911112223334";
     ProfileScreen.SellerProfile.email := "asha@example.com";
     ProfileScreen.SellerProfile.address := "14 Market Road";
     ProfileScreen.SellerProfile.gst_number := Some "GST1";
     ProfileScreen.SellerProfile.is_verified := true |}.

Definition profile_view : ProfileScreen.state :=
  {| ProfileScreen.profile := None; ProfileScreen.loading := false;
     ProfileScreen.editing := true;
     ProfileScreen.editedProfile := Some edited |}.

(** Lowercasing of the letters A to Z, every other character kept. *)
Definition lower (a : ascii) : ascii :=
  let n := nat_of_ascii a in
  if Nat.leb 65 n && Nat.leb n 90 then ascii_of_nat (n + 32) else a.

Fixpoint toLowerCase (s : string) : string :=
  match s with
  | EmptyString => EmptyString
  | String a rest => String (lower a) (toLowerCase rest)
  end.

(** Dashboard rows with amounts in hundredths. *)
Definition dashboard_orders : list OrderTotal.t :=
  [ {| OrderTotal.total_amount := 29900%Z;
       OrderTotal.status := "delivered" |};
    {| OrderTotal.total_amount := 79900%Z;
       OrderTotal.status := "cancelled" |};
    {| OrderTotal.total_amount := 19900%Z;
       OrderTotal.status := "delivered" |} ].

Definition dashboard : DashboardScreen.state Z :=
  {| DashboardScreen.stats :=
       {| DashboardScreen.totalProducts := 0;
          DashboardScreen.inStock := 0;
          DashboardScreen.outOfStock := 0;
          DashboardScreen.totalOrders := 0;
          DashboardScreen.revenue := 0%Z |};
     DashboardScreen.loading := true;
     DashboardScreen.refreshing := false |}.

(** A user who has signed up and has no profile yet. *)
Definition newcomer : User.t :=
  {| User.id := "seller-3"; User.email := None |}.

Definition cx3 : Db.ctx :=
  {| Db.uid := Some "seller-3"; Db.gen_random_uuid := "sp-9";
     Db.now := "2025-10-05T09:00:00.000Z" |}.

Definition setup_form : ProfileSetupScreen.state :=
  {| ProfileSetupScreen.shopName := "Kiran Crafts";
     ProfileSetupScreen.ownerName := "Kiran";
     ProfileSetupScreen.phone := "+917770001111";
     ProfileSetupScreen.address := "5 River Lane";
     ProfileSetupScreen.gstNumber := "";
     ProfileSetupScreen.error := "";
     ProfileSetupScreen.loading := false |}.

Definition profile_blank : ProfileScreen.state :=
  {| ProfileScreen.profile := None; ProfileScreen.loading := true;
     ProfileScreen.editing := false;
     ProfileScreen.editedProfile := None |}.

(** A remote out of reach, for the further requests as well. *)
Definition unreachable : forall X, request X -> Db.t -> X * Db.t :=
  fun X r d =>
    match r with
    | Known k => offline k d
    | Further q =>
        (match q in query X return X with
         | sellers_insert _ => Some network_error
         | sellers_select _ => None
         | master_products_select_active => None
         | seller_products_select_product_id _ => None
         end, d)
    end.

End Sample.

(** * Properties *)

Unset Implicit Arguments.

(** ** Strings *)

Lemma truthy_false (s : string) : Js.truthy s = false <-> s = "".
Proof.
  unfold Js.truthy. destruct (String.eqb_spec s ""); simpl; split; congruence.
Qed.

Lemma prefix_append (p s : string) :
  String.prefix p s = true <-> exists rest, s = p ++ rest.
Proof.
  revert s. induction p as [|a p IH]; intros s.
  - simpl. split; [exists s; reflexivity | destruct s; reflexivity].
  - destruct s as [|b s]; simpl.
    + split; [discriminate | intros [rest H]; discriminate].
    + destruct (Ascii.ascii_dec a b) as [->|Hab].
      * rewrite IH. split; intros [rest H]; exists rest.
        -- now subst.
        -- now injection H.
      * split; [discriminate | intros [rest H]; injection H; congruence].
Qed.

(** [s.startsWith('+')] fails when [s] is not ['+'] followed by
    something. *)
Lemma startsWith_plus_false (s : string) :
  (forall rest, s <> "+" ++ rest) -> Js.startsWith s "+" = false.
Proof.
  intros H. unfold Js.startsWith.
  destruct (String.prefix "+" s) eqn:E; [|reflexivity].
  apply prefix_append in E. destruct E as [rest ->]. now elim (H rest).
Qed.

(** ** Validation before any remote call *)

Lemma strict_neq (a b : string) :
  a <> b -> negb (Js.strict_eq a b) = true.
Proof.
  intros H. unfold Js.strict_eq. apply String.eqb_neq in H. now rewrite H.
Qed.

(** C7.  An email signup whose password has fewer than 6 characters
    (counted as [password.length] counts them, in UTF-16 code units), or
    differs from the confirmation, awaits no call at all (so no signup
    request leaves the device and the remote, sessions included, is as it
    was), navigates nowhere, and ends with one of the three validation
    messages in [error] and the rest of the view untouched. *)
Theorem email_signup_rejected_locally :
  forall (W : Type) (remote : forall X, call X -> W -> X * W)
         (st s : SignupScreen.state) (w : W),
    Js.length (SignupScreen.password st) < 6
    \/ SignupScreen.password st <> SignupScreen.confirmPassword st ->
    let o := run remote (SignupScreen.handleEmailSignup st) s w in
    calls o = [] /\ world o = w /\ navs o = [] /\
    exists msg,
      In msg ["Please fill in all fields"; "Passwords do not match";
              "Password must be at least 6 characters"]
      /\ view o = SignupScreen.with_error msg s.
Proof.
  intros W remote st s w H. unfold SignupScreen.handleEmailSignup.
  destruct (negb (Js.truthy (SignupScreen.email st))
            || negb (Js.truthy (SignupScreen.password st))
            || negb (Js.truthy (SignupScreen.confirmPassword st))).
  { simpl. repeat split. eexists. split; [|reflexivity]. simpl. auto. }
  destruct (negb (Js.strict_eq (SignupScreen.password st)
                               (SignupScreen.confirmPassword st))) eqn:Em.
  { simpl. repeat split. eexists. split; [|reflexivity]. simpl. auto. }
  destruct (Nat.ltb_spec (Js.length (SignupScreen.password st)) 6)
    as [Hl|Hl].
  { simpl. repeat split. eexists. split; [|reflexivity]. simpl. auto. }
  exfalso. destruct H as [H|H]; [lia|].
  apply strict_neq in H. congruence.
Qed.

(** C8.  A phone sign-in or signup whose number does not start with ['+']
    awaits no call (no one-time code is requested, the remote is as it
    was), navigates nowhere and ends with a validation message in
    [error]; this holds for the handler of the login screen and for the one
    of the signup screen. *)
Theorem phone_without_plus_rejected_locally :
  forall (W : Type) (remote : forall X, call X -> W -> X * W) (w : W),
    (forall st s : LoginScreen.state,
        (forall rest, LoginScreen.phone st <> "+" ++ rest) ->
        let o := run remote (LoginScreen.handlePhoneSendOtp st) s w in
        calls o = [] /\ world o = w /\ navs o = [] /\
        exists msg,
          In msg ["Please enter your phone number";
                  "Phone number must include country code (e.g., +1234567890)"]
          /\ view o = LoginScreen.with_error msg s)
    /\
    (forall st s : SignupScreen.state,
        (forall rest, SignupScreen.phone st <> "+" ++ rest) ->
        let o := run remote (SignupScreen.handlePhoneSendOtp st) s w in
        calls o = [] /\ world o = w /\ navs o = [] /\
        exists msg,
          In msg ["Please enter your phone number";
                  "Phone number must include country code (e.g., +1234567890)"]
          /\ view o = SignupScreen.with_error msg s).
Proof.
  intros W remote w. split; intros st s H.
  - unfold LoginScreen.handlePhoneSendOtp.
    rewrite (startsWith_plus_false _ H).
    destruct (negb (Js.truthy (LoginScreen.phone st)));
      simpl; repeat split; eexists; (split; [|reflexivity]); simpl; auto.
  - unfold SignupScreen.handlePhoneSendOtp.
    rewrite (startsWith_plus_false _ H).
    destruct (negb (Js.truthy (SignupScreen.phone st)));
      simpl; repeat split; eexists; (split; [|reflexivity]); simpl; auto.
Qed.

(** ** Navigation after a session is established *)

Ltac ask_remote :=
  unfold answer in *;
  match goal with
  | |- context [?r _ (@Auth ?X ?a) ?w] =>
      destruct (r X (@Auth X a) w) as [? ?] eqn:?
  | |- context [?r _ (@Storage ?X ?q) ?w] =>
      destruct (r X (@Storage X q) w) as [? ?] eqn:?
  end; simpl in *.

(** The entry screen sends a signed-in user without a Seller row to profile
    setup, and one with a row to the tabs. *)
Lemma checkProfile_routes_by_row :
  forall (W : Type) (remote : forall X, call X -> W -> X * W) (w : W)
         (u : User.t),
    navs (run remote (IndexScreen.checkProfile (Some u) false) tt w)
    = match answer remote (Storage (sellers_select_id (User.id u))) w with
      | Some _ => [replace "/(tabs)"]
      | None => [replace "/(auth)/profile-setup"]
      end.
Proof.
  intros W remote w u. simpl. ask_remote. now destruct o.
Qed.

(** Whatever the sellers table holds, an accepted email login asks the
    router for the tabs and for nothing else; it never reads the table. *)
Lemma handleEmailLogin_accepted :
  forall (W : Type) (remote : forall X, call X -> W -> X * W) (w : W)
         (st s : LoginScreen.state),
    LoginScreen.email st <> "" -> LoginScreen.password st <> "" ->
    answer remote (Auth (signIn (LoginScreen.email st)
                                (LoginScreen.password st))) w = None ->
    let o := run remote (LoginScreen.handleEmailLogin st) s w in
    navs o = [replace "/(tabs)"]
    /\ calls o = [log (Auth (signIn (LoginScreen.email st)
                                    (LoginScreen.password st)))].
Proof.
  intros W remote w st s He Hp Ha. unfold LoginScreen.handleEmailLogin.
  assert (Js.truthy (LoginScreen.email st) = true) as ->.
  { destruct (Js.truthy _) eqn:E; [reflexivity|].
    now apply truthy_false in E. }
  assert (Js.truthy (LoginScreen.password st) = true) as ->.
  { destruct (Js.truthy _) eqn:E; [reflexivity|].
    now apply truthy_false in E. }
  simpl. revert Ha. ask_remote. intros ->. simpl. split; reflexivity.
Qed.

(** The same for a verified one-time code on the login screen. *)
Lemma handlePhoneVerifyOtp_accepted :
  forall (W : Type) (remote : forall X, call X -> W -> X * W) (w : W)
         (st s : LoginScreen.state) (session : Session.t),
    LoginScreen.otp st <> "" ->
    answer remote (Auth (verifyOtp (LoginScreen.phone st)
                                   (LoginScreen.otp st))) w
    = (None, Some session) ->
    navs (run remote (LoginScreen.handlePhoneVerifyOtp st) s w)
    = [replace "/(tabs)"].
Proof.
  intros W remote w st s session Ho Ha.
  unfold LoginScreen.handlePhoneVerifyOtp.
  assert (Js.truthy (LoginScreen.otp st) = true) as ->.
  { destruct (Js.truthy _) eqn:E; [reflexivity|].
    now apply truthy_false in E. }
  simpl. revert Ha. ask_remote. intros ->. reflexivity.
Qed.

(** ** Mutations: all or nothing on the view *)

Lemma toggleStock_run :
  forall (W : Type) (remote : forall X, call X -> W -> X * W) (w : W)
         (st s : MyProductsScreen.state) (productId currentStatus : string),
    let c := Storage (seller_products_update
                        (MyProductsScreen.newStatus currentStatus)
                        productId) in
    let o := run remote
                 (MyProductsScreen.toggleStock st productId currentStatus)
                 s w in
    calls o = [log c] /\ navs o = [] /\ world o = snd (remote _ c w) /\
    view o =
      match answer remote c w with
      | None =>
          {| MyProductsScreen.products :=
               map (fun p =>
                      if Js.strict_eq (MyProductsScreen.SellerProduct.id p)
                                      productId
                      then MyProductsScreen.SellerProduct.with_stock_status
                             (MyProductsScreen.newStatus currentStatus) p
                      else p)
                   (MyProductsScreen.products st);
             MyProductsScreen.loading := MyProductsScreen.loading s;
             MyProductsScreen.refreshing := MyProductsScreen.refreshing s |}
      | Some _ => s
      end.
Proof.
  intros W remote w st s productId currentStatus. simpl.
  unfold MyProductsScreen.toggleStock. simpl. ask_remote.
  destruct o; simpl; auto.
Qed.

Lemma removeProduct_run :
  forall (W : Type) (remote : forall X, call X -> W -> X * W) (w : W)
         (st s : MyProductsScreen.state) (productId : string),
    let c := Storage (seller_products_delete productId) in
    let o := run remote (MyProductsScreen.removeProduct st productId) s w in
    calls o = [log c] /\ navs o = [] /\ world o = snd (remote _ c w) /\
    view o =
      match answer remote c w with
      | None =>
          {| MyProductsScreen.products :=
               filter (fun p =>
                         negb (Js.strict_eq
                                 (MyProductsScreen.SellerProduct.id p)
                                 productId))
                      (MyProductsScreen.products st);
             MyProductsScreen.loading := MyProductsScreen.loading s;
             MyProductsScreen.refreshing := MyProductsScreen.refreshing s |}
      | Some _ => s
      end.
Proof.
  intros W remote w st s productId. simpl.
  unfold MyProductsScreen.removeProduct. simpl. ask_remote.
  destruct o; simpl; auto.
Qed.

Lemma updateOrderStatus_run :
  forall (W : Type) (remote : forall X, call X -> W -> X * W) (w : W)
         (st s : OrdersScreen.state) (date : timestamptz)
         (orderId newStatus : string),
    let c := Storage (orders_update newStatus date orderId) in
    let o := run remote
                 (OrdersScreen.updateOrderStatus st date orderId newStatus)
                 s w in
    calls o = [log c] /\ navs o = [] /\ world o = snd (remote _ c w) /\
    view o =
      match answer remote c w with
      | None =>
          {| OrdersScreen.orders :=
               map (fun o => if Js.strict_eq (OrdersScreen.Order.id o) orderId
                             then OrdersScreen.Order.with_status newStatus o
                             else o)
                   (OrdersScreen.orders st);
             OrdersScreen.loading := OrdersScreen.loading s;
             OrdersScreen.refreshing := OrdersScreen.refreshing s;
             OrdersScreen.selectedOrder := OrdersScreen.selectedOrder s;
             OrdersScreen.modalVisible := false |}
      | Some _ => s
      end.
Proof.
  intros W remote w st s date orderId newStatus. simpl.
  unfold OrdersScreen.updateOrderStatus. simpl. ask_remote.
  destruct o; simpl; auto.
Qed.

(** C2.  For the three mutations a screen issues (toggle of the stock
    status, removal of a seller product, update of an order status): when
    the remote answers with an error the view after the handler is the view
    before it, so a handler that changed the view was answered without an
    error. *)
Theorem failed_mutation_keeps_view :
  forall (W : Type) (remote : forall X, call X -> W -> X * W) (w : W),
    (forall (st s : MyProductsScreen.state) (productId currentStatus : string),
        let c := Storage (seller_products_update
                            (MyProductsScreen.newStatus currentStatus)
                            productId) in
        let o := run remote
                     (MyProductsScreen.toggleStock st productId currentStatus)
                     s w in
        (answer remote c w <> None -> view o = s)
        /\ (view o <> s -> answer remote c w = None))
    /\
    (forall (st s : MyProductsScreen.state) (productId : string),
        let c := Storage (seller_products_delete productId) in
        let o := run remote (MyProductsScreen.removeProduct st productId)
                     s w in
        (answer remote c w <> None -> view o = s)
        /\ (view o <> s -> answer remote c w = None))
    /\
    (forall (st s : OrdersScreen.state) (date : timestamptz)
            (orderId newStatus : string),
        let c := Storage (orders_update newStatus date orderId) in
        let o := run remote
                     (OrdersScreen.updateOrderStatus st date orderId newStatus)
                     s w in
        (answer remote c w <> None -> view o = s)
        /\ (view o <> s -> answer remote c w = None)).
Proof.
  intros W remote w. repeat split.
  - intros H.
    destruct (toggleStock_run W remote w st s productId currentStatus)
      as (_ & _ & _ & ->).
    now destruct (answer remote _ w).
  - intros H.
    destruct (toggleStock_run W remote w st s productId currentStatus)
      as (_ & _ & _ & Hv).
    destruct (answer remote _ w); [|reflexivity]. now elim H.
  - intros H.
    destruct (removeProduct_run W remote w st s productId) as (_ & _ & _ & ->).
    now destruct (answer remote _ w).
  - intros H.
    destruct (removeProduct_run W remote w st s productId) as (_ & _ & _ & Hv).
    destruct (answer remote _ w); [|reflexivity]. now elim H.
  - intros H.
    destruct (updateOrderStatus_run W remote w st s date orderId newStatus)
      as (_ & _ & _ & ->).
    now destruct (answer remote _ w).
  - intros H.
    destruct (updateOrderStatus_run W remote w st s date orderId newStatus)
      as (_ & _ & _ & Hv).
    destruct (answer remote _ w); [|reflexivity]. now elim H.
Qed.

(** ** Order status *)

Lemma status_options_pass_check (target : OrdersScreen.StatusOption.t) :
  In target OrdersScreen.STATUS_OPTIONS ->
  Db.status_check (OrdersScreen.StatusOption.value target) = true.
Proof.
  simpl. intros [<-|[<-|[<-|[<-|[<-|[]]]]]]; reflexivity.
Qed.

Lemma update_order_reached (c : Db.ctx) (s : string) (u : timestamptz)
      (i : uuid) (d : Db.t) (row : OrderRow.t) :
  Db.status_check s = true ->
  In row (Db.orders d) ->
  Db.reaches_order c i row = true ->
  fst (Db.update_order c s u i d) = None
  /\ In (Db.set_status s u row) (Db.orders (snd (Db.update_order c s u i d))).
Proof.
  intros Hs Hin Hr. unfold Db.update_order. rewrite Hs, andb_false_r. simpl.
  split; [reflexivity|].
  apply in_map_iff. exists row. now rewrite Hr.
Qed.

(** C3.  With an order selected in the detail view, pressing any of the
    five status entries, whatever the status of the order is, issues one
    update of that order carrying the entry's status and the timestamp of
    the press; when the remote reports no error the order list of the view
    is the former list with that order's status replaced.  On the schema,
    for an order row of the session's seller, the update is accepted for
    each of the five targets from every current status and leaves the row
    with the new status and the new [updated_at]. *)
Theorem any_status_can_be_selected :
  forall (st : OrdersScreen.state) (date : timestamptz)
         (selected : OrdersScreen.Order.t)
         (target : OrdersScreen.StatusOption.t),
    OrdersScreen.selectedOrder st = Some selected ->
    In selected (OrdersScreen.orders st) ->
    In target OrdersScreen.STATUS_OPTIONS ->
    let c := Storage (orders_update (OrdersScreen.StatusOption.value target)
                                    date (OrdersScreen.Order.id selected)) in
    (forall (W : Type) (remote : forall X, call X -> W -> X * W) (w : W)
            (s : OrdersScreen.state),
        let o := run remote (OrdersScreen.onPressStatus st date target) s w in
        calls o = [log c]
        /\ (answer remote c w = None ->
            In (OrdersScreen.Order.with_status
                  (OrdersScreen.StatusOption.value target) selected)
               (OrdersScreen.orders (view o))
            /\ (forall x, In x (OrdersScreen.orders (view o)) ->
                          OrdersScreen.Order.id x
                          = OrdersScreen.Order.id selected ->
                          OrdersScreen.Order.status x
                          = OrdersScreen.StatusOption.value target)
            /\ List.length (OrdersScreen.orders (view o))
               = List.length (OrdersScreen.orders st)))
    /\
    (forall (gw : forall X, auth X -> X) (cx : Db.ctx) (d : Db.t)
            (row : OrderRow.t),
        In row (Db.orders d) ->
        OrderRow.id row = OrdersScreen.Order.id selected ->
        Db.owns cx (OrderRow.seller_id row) = true ->
        let o := run (Db.remote gw cx)
                     (OrdersScreen.onPressStatus st date target) st d in
        answer (Db.remote gw cx) c d = None
        /\ In (Db.set_status (OrdersScreen.StatusOption.value target) date row)
              (Db.orders (world o))
        /\ OrderRow.status
             (Db.set_status (OrdersScreen.StatusOption.value target) date row)
           = OrdersScreen.StatusOption.value target
        /\ OrderRow.updated_at
             (Db.set_status (OrdersScreen.StatusOption.value target) date row)
           = Some date).
Proof.
  intros st date selected target Hsel Hin Htarget c. split.
  - intros W remote w s o. subst o. unfold OrdersScreen.onPressStatus.
    rewrite Hsel.
    destruct (updateOrderStatus_run W remote w st s date
                (OrdersScreen.Order.id selected)
                (OrdersScreen.StatusOption.value target))
      as (Hc & _ & _ & Hv).
    split; [exact Hc|]. intros Ha. rewrite Hv. fold c. rewrite Ha. simpl.
    repeat split.
    + apply in_map_iff. exists selected. split; [|exact Hin].
      unfold Js.strict_eq. now rewrite String.eqb_refl.
    + intros x Hx Hid. apply in_map_iff in Hx. destruct Hx as (y & <- & _).
      unfold Js.strict_eq in *.
      destruct (String.eqb_spec (OrdersScreen.Order.id y)
                                (OrdersScreen.Order.id selected));
        [reflexivity | contradiction].
    + apply length_map.
  - intros gw cx d row Hrow Hid Hown o. subst o.
    unfold OrdersScreen.onPressStatus. rewrite Hsel.
    destruct (updateOrderStatus_run _ (Db.remote gw cx) d st st date
                (OrdersScreen.Order.id selected)
                (OrdersScreen.StatusOption.value target))
      as (_ & _ & Hw & _).
    rewrite Hw. unfold answer, c. simpl.
    assert (Db.reaches_order cx (OrdersScreen.Order.id selected) row = true)
      as Hr.
    { unfold Db.reaches_order. rewrite Hown, Hid. apply String.eqb_refl. }
    destruct (update_order_reached cx _ date _ d row
                (status_options_pass_check target Htarget) Hrow Hr)
      as [H1 H2].
    repeat split; assumption.
Qed.

(** ** Adding a catalog product *)

Lemma addProduct_run :
  forall (W : Type) (remote : forall X, call X -> W -> X * W) (w : W)
         (u : User.t) (st s : CatalogScreen.state) (productId : string),
    let c := Storage (seller_products_insert
               {| SellerProductInsert.seller_id := User.id u;
                  SellerProductInsert.product_id := productId;
                  SellerProductInsert.stock_status := "available" |}) in
    let o := run remote (CatalogScreen.addProduct (Some u) st productId)
                 s w in
    calls o = [log c] /\ navs o = [] /\ world o = snd (remote _ c w) /\
    view o =
      match answer remote c w with
      | None =>
          {| CatalogScreen.products :=
               map (fun p =>
                      if Js.strict_eq (CatalogScreen.Product.id p) productId
                      then CatalogScreen.Product.with_is_added true p
                      else p)
                   (CatalogScreen.products st);
             CatalogScreen.loading := CatalogScreen.loading s;
             CatalogScreen.refreshing := CatalogScreen.refreshing s;
             CatalogScreen.searchQuery := CatalogScreen.searchQuery s |}
      | Some _ => s
      end.
Proof.
  intros W remote w u st s productId. simpl. ask_remote.
  destruct o; simpl; auto.
Qed.

(** An insert the storage accepts appends one row built from the payload
    and the column defaults. *)
Lemma insert_seller_product_accepted (c : Db.ctx) (r : SellerProductInsert.t)
      (d : Db.t) :
  fst (Db.insert_seller_product c r d) = None ->
  Db.seller_products (snd (Db.insert_seller_product c r d))
  = (Db.seller_products d ++
     [{| SellerProductRow.id := Db.gen_random_uuid c;
         SellerProductRow.seller_id := SellerProductInsert.seller_id r;
         SellerProductRow.product_id := SellerProductInsert.product_id r;
         SellerProductRow.custom_price := None;
         SellerProductRow.stock_status := SellerProductInsert.stock_status r;
         SellerProductRow.added_at := Some (Db.now c) |}])%list.
Proof.
  unfold Db.insert_seller_product.
  repeat match goal with
         | |- context [if ?b then _ else _] => destruct b
         end; simpl; intros H; try discriminate; reflexivity.
Qed.

(** UNIQUE(seller_id, product_id): a second row for the pair is refused and
    the database stays as it was. *)
Lemma insert_seller_product_duplicate (c : Db.ctx)
      (r : SellerProductInsert.t) (d : Db.t) (x : SellerProductRow.t) :
  In x (Db.seller_products d) ->
  SellerProductRow.seller_id x = SellerProductInsert.seller_id r ->
  SellerProductRow.product_id x = SellerProductInsert.product_id r ->
  fst (Db.insert_seller_product c r d) <> None
  /\ snd (Db.insert_seller_product c r d) = d.
Proof.
  intros Hin Hs Hp. unfold Db.insert_seller_product.
  destruct (negb (Db.owns c _)); [split; [discriminate|reflexivity]|].
  destruct (negb (Db.stock_status_check _));
    [split; [discriminate|reflexivity]|].
  destruct (negb (existsb _ (Db.sellers d)) || _);
    [split; [discriminate|reflexivity]|].
  match goal with
  | |- context [if ?b then _ else _] => assert (b = true) as ->
  end; [|split; [discriminate|reflexivity]].
  apply existsb_exists. exists x. split; [exact Hin|].
  rewrite Hs, Hp, !String.eqb_refl. apply orb_true_r.
Qed.

(** C4.  Adding a catalog product issues one insert into seller_products
    for the pair (seller, product) with stock status ['available'], and a
    row the storage accepts carries that status.  When the insert fails,
    as it does when the pair is already in the table, the handler is
    silent: the view is the view before the call (the screen has no
    message to set and the product's [is_added] is not changed), nothing is
    navigated to, and the table is as it was. *)
Theorem addProduct_available_and_silent_on_failure :
  forall (u : User.t) (st : CatalogScreen.state) (productId : string),
    let c := Storage (seller_products_insert
               {| SellerProductInsert.seller_id := User.id u;
                  SellerProductInsert.product_id := productId;
                  SellerProductInsert.stock_status := "available" |}) in
    (forall (W : Type) (remote : forall X, call X -> W -> X * W) (w : W)
            (s : CatalogScreen.state),
        let o := run remote (CatalogScreen.addProduct (Some u) st productId)
                     s w in
        calls o = [log c] /\ navs o = []
        /\ (answer remote c w <> None -> view o = s))
    /\
    (forall (gw : forall X, auth X -> X) (cx : Db.ctx) (d : Db.t)
            (s : CatalogScreen.state),
        let o := run (Db.remote gw cx)
                     (CatalogScreen.addProduct (Some u) st productId) s d in
        (answer (Db.remote gw cx) c d = None ->
         exists row,
           Db.seller_products (world o)
           = (Db.seller_products d ++ [row])%list
           /\ SellerProductRow.seller_id row = User.id u
           /\ SellerProductRow.product_id row = productId
           /\ SellerProductRow.stock_status row = "available")
        /\
        ((exists x, In x (Db.seller_products d)
                    /\ SellerProductRow.seller_id x = User.id u
                    /\ SellerProductRow.product_id x = productId) ->
         answer (Db.remote gw cx) c d <> None
         /\ world o = d /\ view o = s)).
Proof.
  intros u st productId c. split.
  - intros W remote w s o. subst o.
    destruct (addProduct_run W remote w u st s productId)
      as (Hc & Hn & _ & Hv).
    repeat split; [exact Hc | exact Hn |].
    intros Ha. rewrite Hv. fold c. now destruct (answer remote c w).
  - intros gw cx d s o. subst o.
    destruct (addProduct_run _ (Db.remote gw cx) d u st s productId)
      as (_ & _ & Hw & Hv).
    rewrite Hw, Hv. fold c. unfold answer, c. simpl. split.
    + intros Ha. eexists. split.
      * apply insert_seller_product_accepted. exact Ha.
      * simpl. auto.
    + intros (x & Hin & Hs & Hp).
      destruct (insert_seller_product_duplicate cx
                  {| SellerProductInsert.seller_id := User.id u;
                     SellerProductInsert.product_id := productId;
                     SellerProductInsert.stock_status := "available" |}
                  d x Hin Hs Hp) as [H1 H2].
      repeat split; [exact H1 | exact H2 |].
      destruct (fst (Db.insert_seller_product cx _ d));
        [reflexivity | now elim H1].
Qed.

(** ** Saving the profile *)

Lemma Forall2_map_self {A : Type} (R : A -> A -> Prop) (f : A -> A)
      (l : list A) :
  (forall x, In x l -> R x (f x)) -> Forall2 R l (map f l).
Proof.
  induction l as [|x l IH]; intros H; simpl; constructor.
  - apply H. now left.
  - apply IH. intros y Hy. apply H. now right.
Qed.

Lemma handleSave_run :
  forall (W : Type) (remote : forall X, call X -> W -> X * W) (w : W)
         (u : User.t) (st s : ProfileScreen.state)
         (edited : ProfileScreen.SellerProfile.t),
    ProfileScreen.editedProfile st = Some edited ->
    let c := Storage (sellers_update (save_patch edited) (User.id u)) in
    let o := run remote (ProfileScreen.handleSave (Some u) st) s w in
    calls o = [log c] /\ navs o = [] /\ world o = snd (remote _ c w).
Proof.
  intros W remote w u st s edited He. simpl.
  unfold ProfileScreen.handleSave. rewrite He. simpl.
  unfold save_patch. ask_remote. destruct o; simpl; auto.
Qed.

(** C9.  A profile save issues exactly one call, an update of sellers
    filtered on the caller's id whose payload holds the five editable
    fields and nothing else.  On the schema, run for the caller's session,
    the caller's row gets these five values and keeps every other column
    (id, email, logo and banner references, verified flag, both
    timestamps); every other Seller row and every other table is
    unchanged. *)
Theorem handleSave_writes_five_fields :
  forall (u : User.t) (st : ProfileScreen.state)
         (edited : ProfileScreen.SellerProfile.t),
    ProfileScreen.editedProfile st = Some edited ->
    (forall (W : Type) (remote : forall X, call X -> W -> X * W) (w : W)
            (s : ProfileScreen.state),
        calls (run remote (ProfileScreen.handleSave (Some u) st) s w)
        = [log (Storage (sellers_update
                  {| SellerPatch.shop_name :=
                       ProfileScreen.SellerProfile.shop_name edited;
                     SellerPatch.owner_name :=
                       ProfileScreen.SellerProfile.owner_name edited;
                     SellerPatch.phone :=
                       ProfileScreen.SellerProfile.phone edited;
                     SellerPatch.address :=
                       ProfileScreen.SellerProfile.address edited;
                     SellerPatch.gst_number :=
                       ProfileScreen.SellerProfile.gst_number edited |}
                  (User.id u)))])
    /\
    (forall (gw : forall X, auth X -> X) (cx : Db.ctx) (d : Db.t)
            (s : ProfileScreen.state),
        Db.uid cx = Some (User.id u) ->
        let d' := world (run (Db.remote gw cx)
                             (ProfileScreen.handleSave (Some u) st) s d) in
        Forall2
          (fun r r' =>
             if SellerRow.id r =? User.id u then
               SellerRow.shop_name r'
               = ProfileScreen.SellerProfile.shop_name edited
               /\ SellerRow.owner_name r'
                  = ProfileScreen.SellerProfile.owner_name edited
               /\ SellerRow.phone r' = ProfileScreen.SellerProfile.phone edited
               /\ SellerRow.address r'
                  = ProfileScreen.SellerProfile.address edited
               /\ SellerRow.gst_number r'
                  = ProfileScreen.SellerProfile.gst_number edited
               /\ SellerRow.id r' = SellerRow.id r
               /\ SellerRow.email r' = SellerRow.email r
               /\ SellerRow.logo_url r' = SellerRow.logo_url r
               /\ SellerRow.banner_url r' = SellerRow.banner_url r
               /\ SellerRow.is_verified r' = SellerRow.is_verified r
               /\ SellerRow.created_at r' = SellerRow.created_at r
               /\ SellerRow.updated_at r' = SellerRow.updated_at r
             else r' = r)
          (Db.sellers d) (Db.sellers d')
        /\ Db.master_products d' = Db.master_products d
        /\ Db.seller_products d' = Db.seller_products d
        /\ Db.orders d' = Db.orders d).
Proof.
  intros u st edited He. split.
  - intros W remote w s.
    now destruct (handleSave_run W remote w u st s edited He) as (-> & _).
  - intros gw cx d s Huid d'. subst d'.
    destruct (handleSave_run _ (Db.remote gw cx) d u st s edited He)
      as (_ & _ & ->).
    simpl. repeat split.
    apply Forall2_map_self. intros r _.
    unfold Db.owns. rewrite Huid.
    destruct (String.eqb_spec (SellerRow.id r) (User.id u)) as [E|E].
    + rewrite <- E, String.eqb_refl. simpl. repeat split.
    + rewrite andb_false_r. reflexivity.
Qed.

(** ** Catalog filter *)

Lemma includes_occurs (s sub : string) :
  Js.includes s sub = true <-> occurs_in sub s.
Proof.
  induction s as [|a s IH]; cbn [Js.includes].
  - rewrite orb_false_r, prefix_append. split.
    + intros [rest H]. exists "", rest. exact H.
    + intros (pre & post & H). exists post.
      destruct pre; [exact H | discriminate].
  - rewrite orb_true_iff, prefix_append, IH. split.
    + intros [[rest H] | (pre & post & H)].
      * exists "", rest. exact H.
      * exists (String a pre), post. simpl. now rewrite H.
    + intros (pre & post & H). destruct pre as [|b pre].
      * left. exists post. exact H.
      * right. exists pre, post. simpl in H. now injection H.
Qed.

Lemma includes_empty (s : string) : Js.includes s "" = true.
Proof. apply includes_occurs. exists "", s. reflexivity. Qed.

(** C5.  The filtered catalog holds exactly the products of the list whose
    lowercased name, brand or category has the lowercased query as a
    substring; with the empty query (which lowercases to itself) the
    filtered catalog is the list itself. *)
Theorem filteredProducts_exact :
  forall (toLowerCase : string -> string)
         (products : list CatalogScreen.Product.t) (searchQuery : string),
    (forall p,
        In p (CatalogScreen.filteredProducts toLowerCase products searchQuery)
        <-> In p products
            /\ (occurs_in (toLowerCase searchQuery)
                          (toLowerCase (CatalogScreen.Product.name p))
                \/ occurs_in (toLowerCase searchQuery)
                             (toLowerCase (CatalogScreen.Product.brand p))
                \/ occurs_in (toLowerCase searchQuery)
                             (toLowerCase (CatalogScreen.Product.category p))))
    /\ (toLowerCase "" = "" ->
        CatalogScreen.filteredProducts toLowerCase products "" = products).
Proof.
  intros toLowerCase products searchQuery. split.
  - intros p. unfold CatalogScreen.filteredProducts.
    rewrite filter_In, !orb_true_iff, !includes_occurs. tauto.
  - intros He. unfold CatalogScreen.filteredProducts. rewrite He.
    induction products as [|p l IH]; simpl; [reflexivity|].
    rewrite includes_empty. simpl. now rewrite IH.
Qed.

(** ** Dashboard revenue *)

Section Revenue.
Variable number : Type.
Variable zero : number.
Variable add : number -> number -> number.
Variable parseFloat : decimal -> number.

Let sum_delivered (orders : list OrderTotal.t) (acc : number) : number :=
  DashboardScreen.reduce
    (fun sum o => add sum (parseFloat (OrderTotal.total_amount o)))
    (filter (fun o => Js.strict_eq (OrderTotal.status o) "delivered") orders)
    acc.

Lemma sum_delivered_total (orders : list OrderTotal.t) :
  forall acc, sum_delivered orders acc
              = delivered_total add parseFloat orders acc.
Proof.
  induction orders as [|o l IH]; intros acc; [reflexivity|].
  unfold sum_delivered, DashboardScreen.reduce, Js.strict_eq in *. simpl.
  destruct (OrderTotal.status o =? "delivered"); simpl; apply IH.
Qed.

Lemma delivered_total_app (l1 l2 : list OrderTotal.t) :
  forall acc,
    delivered_total add parseFloat (l1 ++ l2) acc
    = delivered_total add parseFloat l2
        (delivered_total add parseFloat l1 acc).
Proof.
  induction l1 as [|o l IH]; intros acc; simpl; [reflexivity | apply IH].
Qed.

Lemma delivered_total_none (l : list OrderTotal.t) :
  (forall o, In o l -> OrderTotal.status o <> "delivered") ->
  forall acc, delivered_total add parseFloat l acc = acc.
Proof.
  induction l as [|o l IH]; intros H acc; simpl; [reflexivity|].
  assert ((OrderTotal.status o =? "delivered") = false) as ->.
  { apply String.eqb_neq, H. now left. }
  apply IH. intros x Hx. apply H. now right.
Qed.

(** Under the policy of the table a seller reads exactly their own
    orders. *)
Lemma select_own_orders (cx : Db.ctx) (i : uuid) (d : Db.t) :
  Db.uid cx = Some i ->
  Db.select_total_amount_status cx i d = Some (orders_of i d).
Proof.
  intros Hu. unfold Db.select_total_amount_status, orders_of. do 2 f_equal.
  apply filter_ext. intros r. unfold Db.owns. rewrite Hu.
  rewrite String.eqb_sym. apply andb_diag.
Qed.

(** C10.  The revenue that [loadStats] stores is the total, from [0] and in
    list order, of [parseFloat(total_amount)] over the delivered orders of
    the response: an order in any other status, wherever it stands in the
    list, does not change the figure, and a list without delivered orders
    gives [0].  Run for a seller's session against the schema, the figure
    is that total over the seller's rows of the orders table. *)
Theorem revenue_counts_delivered_only :
  (forall (productsData : option (list ProductStock.t))
          (orders : list OrderTotal.t),
      let revenue_of l :=
        DashboardScreen.revenue
          (DashboardScreen.loadStats_stats zero add parseFloat productsData
                                           (Some l)) in
      revenue_of orders = delivered_total add parseFloat orders zero
      /\ (forall l1 o l2,
             orders = (l1 ++ o :: l2)%list ->
             OrderTotal.status o <> "delivered" ->
             revenue_of orders = revenue_of (l1 ++ l2)%list)
      /\ ((forall o, In o orders -> OrderTotal.status o <> "delivered") ->
          revenue_of orders = zero))
  /\
  (forall (gw : forall X, auth X -> X) (cx : Db.ctx) (d : Db.t)
          (u : User.t) (st s : DashboardScreen.state number),
      Db.uid cx = Some (User.id u) ->
      let o := run (Db.remote gw cx)
                   (DashboardScreen.loadStats zero add parseFloat (Some u) st)
                   s d in
      DashboardScreen.revenue (DashboardScreen.stats (view o))
      = delivered_total add parseFloat (orders_of (User.id u) d) zero
      /\ world o = d).
Proof.
  assert (forall pd l,
             DashboardScreen.revenue
               (DashboardScreen.loadStats_stats zero add parseFloat pd
                                                (Some l))
             = delivered_total add parseFloat l zero) as Hrev.
  { intros pd l. apply (sum_delivered_total l zero). }
  split.
  - intros productsData orders revenue_of. subst revenue_of. repeat split.
    + apply Hrev.
    + intros l1 o l2 -> Ho. rewrite !Hrev, !delivered_total_app. simpl.
      apply String.eqb_neq in Ho. now rewrite Ho.
    + intros H. rewrite Hrev. now apply delivered_total_none.
  - intros gw cx d u st s Hu o. subst o.
    cbn -[Db.select_total_amount_status Db.select_stock_status
          DashboardScreen.loadStats_stats].
    rewrite (select_own_orders cx (User.id u) d Hu).
    split; [|reflexivity]. apply Hrev.
Qed.

End Revenue.

(** ** Stock status *)

Lemma stock_status_check_valid (s : string) :
  Db.stock_status_check s = true <-> valid_stock_status s.
Proof.
  unfold Db.stock_status_check, valid_stock_status.
  now rewrite orb_true_iff, !String.eqb_eq.
Qed.

Lemma newStatus_valid (s : string) :
  valid_stock_status (MyProductsScreen.newStatus s).
Proof.
  unfold MyProductsScreen.newStatus, valid_stock_status.
  destruct (Js.strict_eq s "available"); auto.
Qed.



(** The switch against the schema: the status the handler sends always
    passes the CHECK, so the update is accepted. *)
Lemma toggleStock_on_schema :
  forall (gw : forall X, auth X -> X) (c : Db.ctx) (d : Db.t)
         (st s : MyProductsScreen.state) (i cur : string),
    run (Db.remote gw c) (MyProductsScreen.toggleStock st i cur) s d
    = {| view :=
           {| MyProductsScreen.products :=
                map (fun p =>
                       if Js.strict_eq (MyProductsScreen.SellerProduct.id p) i
                       then MyProductsScreen.SellerProduct.with_stock_status
                              (MyProductsScreen.newStatus cur) p
                       else p)
                    (MyProductsScreen.products st);
              MyProductsScreen.loading := MyProductsScreen.loading s;
              MyProductsScreen.refreshing := MyProductsScreen.refreshing s |};
         world :=
           Db.with_seller_products
             (map (fun r => if Db.reaches_seller_product c i r
                            then Db.set_stock_status
                                   (MyProductsScreen.newStatus cur) r
                            else r)
                  (Db.seller_products d))
             d;
         calls := [log (Storage (seller_products_update
                                   (MyProductsScreen.newStatus cur) i))];
         navs := [] |}.
Proof.
  intros gw c d st s i cur. unfold MyProductsScreen.toggleStock. simpl.
  unfold Db.update_seller_product.
  assert (Db.stock_status_check (MyProductsScreen.newStatus cur) = true)
    as ->.
  { apply stock_status_check_valid, newStatus_valid. }
  rewrite andb_false_r. reflexivity.
Qed.




(** ** The properties on concrete sessions *)

(** C1.  An email login the gateway accepts, for a user without a row in
    sellers: the login handler asks the router for the tabs and never for
    profile setup, although the table still holds no row for the user; the
    entry screen, run in that same situation, asks for profile setup. *)
Theorem login_without_profile_lands_on_tabs :
  let remote := Db.remote Sample.gw Sample.cx in
  let st := Sample.login_form in
  let o := run remote (LoginScreen.handleEmailLogin st) st Db.empty in
  answer remote (Auth (signIn (LoginScreen.email st) (LoginScreen.password st)))
         Db.empty = None
  /\ Db.select_seller_id Sample.cx (User.id Sample.seller) (world o) = None
  /\ navs o = [replace "/(tabs)"]
  /\ ~ In (replace "/(auth)/profile-setup") (navs o)
  /\ navs (run remote (IndexScreen.checkProfile (Some Sample.seller) false)
               tt (world o))
     = [replace "/(auth)/profile-setup"].
Proof.
  repeat split; try reflexivity.
  simpl. intros [H|[]]. discriminate H.
Qed.

Lemma email_signup_rejected_locally_witness :
  let rejected (st : SignupScreen.state) :=
    let o := run Sample.offline (SignupScreen.handleEmailSignup st) st
                 Sample.db in
    calls o = [] /\ world o = Sample.db /\ navs o = [] /\
    exists msg,
      In msg ["Please fill in all fields"; "Passwords do not match";
              "Password must be at least 6 characters"]
      /\ view o = SignupScreen.with_error msg st in
  Js.length Sample.accented_password = 5
  /\ rejected Sample.accented_signup_form
  /\ rejected Sample.signup_form.
Proof.
  intros rejected. split; [reflexivity|]. split.
  - apply (email_signup_rejected_locally Db.t Sample.offline
             Sample.accented_signup_form Sample.accented_signup_form
             Sample.db).
    left. apply Nat.ltb_lt. reflexivity.
  - apply (email_signup_rejected_locally Db.t Sample.offline
             Sample.signup_form Sample.signup_form Sample.db).
    left. apply Nat.ltb_lt. reflexivity.
Defined.

Lemma phone_without_plus_rejected_locally_witness :
  (let o := run (Db.remote Sample.gw Sample.cx)
                (LoginScreen.handlePhoneSendOtp Sample.login_form)
                Sample.login_form Sample.db in
   calls o = [] /\ world o = Sample.db /\ navs o = [] /\
   exists msg,
     In msg ["Please enter your phone number";
             "Phone number must include country code (e.g., +1234567890)"]
     /\ view o = LoginScreen.with_error msg Sample.login_form)
  /\
  (let o := run (Db.remote Sample.gw Sample.cx)
                (SignupScreen.handlePhoneSendOtp Sample.signup_form)
                Sample.signup_form Sample.db in
   calls o = [] /\ world o = Sample.db /\ navs o = [] /\
   exists msg,
     In msg ["Please enter your phone number";
             "Phone number must include country code (e.g., +1234567890)"]
     /\ view o = SignupScreen.with_error msg Sample.signup_form).
Proof.
  destruct (phone_without_plus_rejected_locally
              Db.t (Db.remote Sample.gw Sample.cx) Sample.db) as [HL HS].
  split.
  - apply HL. intros rest H. discriminate H.
  - apply HS. intros rest H. discriminate H.
Defined.

Lemma failed_mutation_keeps_view_witness :
  (view (run Sample.offline
             (MyProductsScreen.toggleStock Sample.my_products
                                           "sp-1" "available")
             Sample.my_products Sample.db) = Sample.my_products
   /\ view (run Sample.offline
                (MyProductsScreen.removeProduct Sample.my_products "sp-1")
                Sample.my_products Sample.db) = Sample.my_products
   /\ view (run Sample.offline
                (OrdersScreen.updateOrderStatus
                   Sample.orders_view "2025-10-04T16:40:00.000Z"
                   "order-1" "packed")
                Sample.orders_view Sample.db) = Sample.orders_view)
  /\
  (answer (Db.remote Sample.gw Sample.cx)
          (Storage (seller_products_update
                      (MyProductsScreen.newStatus "available") "sp-1"))
          Sample.db = None
   /\ answer (Db.remote Sample.gw Sample.cx)
             (Storage (seller_products_delete "sp-1")) Sample.db = None
   /\ answer (Db.remote Sample.gw Sample.cx)
             (Storage (orders_update "packed" "2025-10-04T16:40:00.000Z"
                                     "order-1"))
             Sample.db = None).
Proof.
  destruct (failed_mutation_keeps_view Db.t Sample.offline Sample.db)
    as (Ht & Hr & Hu).
  destruct (failed_mutation_keeps_view
              Db.t (Db.remote Sample.gw Sample.cx) Sample.db)
    as (Ht' & Hr' & Hu').
  split; [split; [|split] | split; [|split]].
  - apply (Ht Sample.my_products Sample.my_products "sp-1" "available").
    discriminate.
  - apply (Hr Sample.my_products Sample.my_products "sp-1"). discriminate.
  - apply (Hu Sample.orders_view Sample.orders_view
              "2025-10-04T16:40:00.000Z" "order-1" "packed").
    discriminate.
  - apply (Ht' Sample.my_products Sample.my_products "sp-1" "available").
    discriminate.
  - apply (Hr' Sample.my_products Sample.my_products "sp-1"). discriminate.
  - apply (Hu' Sample.orders_view Sample.orders_view
               "2025-10-04T16:40:00.000Z" "order-1" "packed").
    discriminate.
Defined.

Lemma any_status_can_be_selected_witness :
  let c := Storage (orders_update "confirmed" "2025-10-04T16:40:00.000Z"
                                  "order-1") in
  let o := run (Db.remote Sample.gw Sample.cx)
               (OrdersScreen.onPressStatus Sample.orders_view
                  "2025-10-04T16:40:00.000Z" Sample.to_confirmed)
               Sample.orders_view Sample.db in
  (calls o = [log c]
   /\ In (OrdersScreen.Order.with_status "confirmed" Sample.order_view)
         (OrdersScreen.orders (view o)))
  /\ answer (Db.remote Sample.gw Sample.cx) c Sample.db = None
  /\ In (Db.set_status "confirmed" "2025-10-04T16:40:00.000Z"
                       Sample.delivered_order)
        (Db.orders (world o)).
Proof.
  destruct (any_status_can_be_selected
              Sample.orders_view "2025-10-04T16:40:00.000Z"
              Sample.order_view Sample.to_confirmed
              eq_refl (or_introl eq_refl) (or_introl eq_refl))
    as [Hview Hdb].
  split.
  - destruct (Hview Db.t (Db.remote Sample.gw Sample.cx) Sample.db
                    Sample.orders_view) as [Hc Hv].
    split; [exact Hc|]. apply Hv. reflexivity.
  - destruct (Hdb Sample.gw Sample.cx Sample.db Sample.delivered_order
                  (or_introl eq_refl) eq_refl eq_refl)
      as (Ha & Hin & _).
    split; [exact Ha | exact Hin].
Defined.

Lemma addProduct_available_and_silent_on_failure_witness :
  (* the tea is in the shop already: the second insert is refused *)
  (let o := run (Db.remote Sample.gw Sample.cx)
                (CatalogScreen.addProduct (Some Sample.seller) Sample.catalog
                                          "prod-tea")
                Sample.catalog Sample.db in
   view o = Sample.catalog /\ world o = Sample.db)
  /\
  (* the mat is not: a row with status 'available' is appended *)
  (let o := run (Db.remote Sample.gw Sample.cx)
                (CatalogScreen.addProduct (Some Sample.seller) Sample.catalog
                                          "prod-mat")
                Sample.catalog Sample.db in
   exists row,
     Db.seller_products (world o)
     = (Db.seller_products Sample.db ++ [row])%list
     /\ SellerProductRow.seller_id row = "seller-1"
     /\ SellerProductRow.product_id row = "prod-mat"
     /\ SellerProductRow.stock_status row = "available").
Proof.
  split.
  - destruct (addProduct_available_and_silent_on_failure
                Sample.seller Sample.catalog "prod-tea") as [Hview Hdb].
    destruct (Hview Db.t (Db.remote Sample.gw Sample.cx) Sample.db
                    Sample.catalog) as (_ & _ & Hsilent).
    destruct (Hdb Sample.gw Sample.cx Sample.db Sample.catalog)
      as [_ Hdup].
    split.
    + apply Hsilent. discriminate.
    + apply Hdup. exists Sample.tea_in_shop.
      split; [left; reflexivity | split; reflexivity].
  - destruct (addProduct_available_and_silent_on_failure
                Sample.seller Sample.catalog "prod-mat") as [_ Hdb].
    destruct (Hdb Sample.gw Sample.cx Sample.db Sample.catalog)
      as [Hok _].
    apply Hok. reflexivity.
Defined.

Lemma filteredProducts_exact_witness :
  CatalogScreen.filteredProducts Sample.toLowerCase
    [Sample.catalog_tea; Sample.catalog_mat] ""
  = [Sample.catalog_tea; Sample.catalog_mat].
Proof.
  destruct (filteredProducts_exact Sample.toLowerCase
              [Sample.catalog_tea; Sample.catalog_mat] "") as [_ H].
  apply H. reflexivity.
Defined.

Lemma sample_db_stock_ok : stock_ok Sample.db.
Proof.
  intros r [<-|[]]. left. reflexivity.
Defined.


Lemma handleSave_writes_five_fields_witness :
  let d' := world (run (Db.remote Sample.gw Sample.cx)
                       (ProfileScreen.handleSave (Some Sample.seller)
                                                 Sample.profile_view)
                       Sample.profile_view Sample.db) in
  Db.sellers d'
  = [Db.patch_seller (save_patch Sample.edited) Sample.seller_row;
     Sample.other_seller_row]
  /\ SellerRow.email (Db.patch_seller (save_patch Sample.edited)
                                      Sample.seller_row)
     = "asha@example.com"
  /\ Db.orders d' = Db.orders Sample.db.
Proof.
  destruct (handleSave_writes_five_fields
              Sample.seller Sample.profile_view Sample.edited eq_refl)
    as [_ Hdb].
  destruct (Hdb Sample.gw Sample.cx Sample.db Sample.profile_view eq_refl)
    as (_ & _ & _ & Horders).
  split; [reflexivity | split; [reflexivity | exact Horders]].
Defined.

Lemma revenue_counts_delivered_only_witness :
  (let revenue_of l :=
     DashboardScreen.revenue
       (DashboardScreen.loadStats_stats 0%Z Z.add (fun a : Z => a) None
                                        (Some l)) in
   revenue_of [ {| OrderTotal.total_amount := 79900%Z;
                   OrderTotal.status := "cancelled" |} ] = 0%Z
   /\
   revenue_of Sample.dashboard_orders
   = revenue_of [ {| OrderTotal.total_amount := 29900%Z;
                     OrderTotal.status := "delivered" |};
                  {| OrderTotal.total_amount := 19900%Z;
                     OrderTotal.status := "delivered" |} ])
  /\
  DashboardScreen.revenue
    (DashboardScreen.stats
       (view (run (Db.remote Sample.gw Sample.cx)
                  (DashboardScreen.loadStats 0%Z Z.add (fun a : Z => a)
                                             (Some Sample.seller)
                                             Sample.dashboard)
                  Sample.dashboard Sample.db)))
  = 29900%Z.
Proof.
  destruct (revenue_counts_delivered_only Z 0%Z Z.add (fun a : Z => a))
    as [Hlist Hdb].
  split; [split|].
  - destruct (Hlist None [ {| OrderTotal.total_amount := 79900%Z;
                              OrderTotal.status := "cancelled" |} ])
      as (_ & _ & Hnone).
    apply Hnone. intros o [<-|[]]. discriminate.
  - destruct (Hlist None Sample.dashboard_orders) as (_ & Hskip & _).
    apply (Hskip [ {| OrderTotal.total_amount := 29900%Z;
                      OrderTotal.status := "delivered" |} ]
                 {| OrderTotal.total_amount := 79900%Z;
                    OrderTotal.status := "cancelled" |}
                 [ {| OrderTotal.total_amount := 19900%Z;
                      OrderTotal.status := "delivered" |} ]).
    + reflexivity.
    + discriminate.
  - destruct (Hdb Sample.gw Sample.cx Sample.db Sample.seller
                  Sample.dashboard Sample.dashboard eq_refl) as [Hrev _].
    exact Hrev.
Defined.

(** * Further properties of the screens *)

(** ** Sign-in and sign-up forms *)

Lemma truthy_true (s : string) : s <> "" -> Js.truthy s = true.
Proof.
  intros H. destruct (Js.truthy s) eqn:E; [reflexivity|].
  now apply truthy_false in E.
Qed.

Lemma or_else_nonempty (m d : string) : d <> "" -> Js.or_else m d <> "".
Proof.
  intros Hd. unfold Js.or_else. destruct (Js.truthy m) eqn:E; [|exact Hd].
  intros ->. discriminate E.
Qed.

(** X1.  An email login with an empty email or an empty password stops at the
    form: no call is awaited, the remote is as it was, nothing is navigated
    to, and the only change of the view is the message. *)
Theorem login_empty_field_rejected_locally :
  forall (W : Type) (remote : forall X, call X -> W -> X * W)
         (st s : LoginScreen.state) (w : W),
    LoginScreen.email st = "" \/ LoginScreen.password st = "" ->
    let o := run remote (LoginScreen.handleEmailLogin st) s w in
    calls o = [] /\ world o = w /\ navs o = []
    /\ view o = LoginScreen.with_error "Please fill in all fields" s.
Proof.
  intros W remote st s w H. unfold LoginScreen.handleEmailLogin.
  assert (negb (Js.truthy (LoginScreen.email st))
          || negb (Js.truthy (LoginScreen.password st)) = true) as ->.
  { destruct H as [-> | ->]; [reflexivity | apply orb_true_r]. }
  simpl. repeat split.
Qed.

Lemma login_empty_field_rejected_locally_witness :
  let st := LoginScreen.with_error "" Sample.login_form in
  let blank :=
    {| LoginScreen.mode := LoginScreen.email_mode;
       LoginScreen.email := "asha@example.com"; LoginScreen.password := "";
       LoginScreen.phone := ""; LoginScreen.otp := "";
       LoginScreen.otpSent := false; LoginScreen.error := "";
       LoginScreen.loading := false |} in
  calls (run Sample.offline (LoginScreen.handleEmailLogin blank) st Sample.db)
  = []
  /\ LoginScreen.error
       (view (run Sample.offline (LoginScreen.handleEmailLogin blank)
                  st Sample.db))
     = "Please fill in all fields".
Proof.
  intros st blank.
  destruct (login_empty_field_rejected_locally
              Db.t Sample.offline blank st Sample.db (or_intror eq_refl))
    as (Hc & _ & _ & Hv).
  split; [exact Hc|]. rewrite Hv. reflexivity.
Defined.

(** X2.  An email login with both fields filled awaits exactly one [signIn]
    with the typed credentials and ends with [loading] off.  It asks the
    router for the tabs exactly when the gateway reports no error;
    otherwise it stays on the form with a message that is never empty,
    even when the gateway's own message is. *)
Theorem login_outcome :
  forall (W : Type) (remote : forall X, call X -> W -> X * W)
         (st s : LoginScreen.state) (w : W),
    LoginScreen.email st <> "" -> LoginScreen.password st <> "" ->
    let c := Auth (signIn (LoginScreen.email st) (LoginScreen.password st)) in
    let o := run remote (LoginScreen.handleEmailLogin st) s w in
    calls o = [log c]
    /\ LoginScreen.loading (view o) = false
    /\ match answer remote c w with
       | None => navs o = [replace "/(tabs)"]
                 /\ LoginScreen.error (view o) = ""
       | Some e => navs o = []
                   /\ LoginScreen.error (view o)
                      = Js.or_else (Error.message e) "Failed to sign in"
                   /\ LoginScreen.error (view o) <> ""
       end.
Proof.
  intros W remote st s w He Hp. unfold LoginScreen.handleEmailLogin.
  rewrite (truthy_true _ He), (truthy_true _ Hp). simpl. ask_remote.
  destruct o as [e|]; simpl; repeat split.
  apply or_else_nonempty. discriminate.
Qed.

Lemma login_outcome_witness :
  let o := run Sample.offline (LoginScreen.handleEmailLogin Sample.login_form)
               Sample.login_form Sample.db in
  navs o = [] /\ LoginScreen.error (view o) = "Network request failed"
  /\ LoginScreen.loading (view o) = false.
Proof.
  destruct (login_outcome Db.t Sample.offline Sample.login_form
              Sample.login_form Sample.db)
    as (_ & Hl & Hn & He & _); try discriminate.
  split; [exact Hn | split; [exact He | exact Hl]].
Defined.

(** X3.  The two Google handlers (login and signup screen) never navigate,
    whatever the gateway answers: they await one [signInWithGoogle], end
    with [loading] off, and show a message exactly when an error came
    back. *)
Theorem google_handlers_never_navigate :
  forall (W : Type) (remote : forall X, call X -> W -> X * W) (w : W),
    (forall st s : LoginScreen.state,
        let o := run remote (LoginScreen.handleGoogleLogin st) s w in
        calls o = [log (Auth signInWithGoogle)] /\ navs o = []
        /\ LoginScreen.loading (view o) = false
        /\ (LoginScreen.error (view o) = ""
            <-> answer remote (Auth signInWithGoogle) w = None))
    /\
    (forall st s : SignupScreen.state,
        let o := run remote (SignupScreen.handleGoogleSignup st) s w in
        calls o = [log (Auth signInWithGoogle)] /\ navs o = []
        /\ SignupScreen.loading (view o) = false
        /\ (SignupScreen.error (view o) = ""
            <-> answer remote (Auth signInWithGoogle) w = None)).
Proof.
  intros W remote w. split; intros st s; simpl; ask_remote;
    (destruct o as [e|]; simpl; repeat split; try discriminate;
     intros H; exfalso; revert H; apply or_else_nonempty; discriminate).
Qed.

Lemma startsWith_plus (rest : string) : Js.startsWith ("+" ++ rest) "+" = true.
Proof. unfold Js.startsWith. apply prefix_append. now exists rest. Qed.

(** X4.  A phone number that starts with ['+'] passes the form on both
    screens: exactly one [signInWithPhone] is awaited, with the number as
    typed.  The code entry opens ([otpSent] on, no message) when the
    gateway reports no error; otherwise [otpSent] keeps its value and a
    non-empty message is shown. *)
Theorem phone_with_plus_requests_code :
  forall (W : Type) (remote : forall X, call X -> W -> X * W) (w : W)
         (rest : string),
    let c := Auth (signInWithPhone ("+" ++ rest)) in
    (forall st s : LoginScreen.state,
        LoginScreen.phone st = "+" ++ rest ->
        let o := run remote (LoginScreen.handlePhoneSendOtp st) s w in
        calls o = [log c] /\ navs o = []
        /\ LoginScreen.loading (view o) = false
        /\ match answer remote c w with
           | None => LoginScreen.otpSent (view o) = true
                     /\ LoginScreen.error (view o) = ""
           | Some e => LoginScreen.otpSent (view o) = LoginScreen.otpSent s
                       /\ LoginScreen.error (view o) <> ""
           end)
    /\
    (forall st s : SignupScreen.state,
        SignupScreen.phone st = "+" ++ rest ->
        let o := run remote (SignupScreen.handlePhoneSendOtp st) s w in
        calls o = [log c] /\ navs o = []
        /\ SignupScreen.loading (view o) = false
        /\ match answer remote c w with
           | None => SignupScreen.otpSent (view o) = true
                     /\ SignupScreen.error (view o) = ""
           | Some e => SignupScreen.otpSent (view o) = SignupScreen.otpSent s
                       /\ SignupScreen.error (view o) <> ""
           end).
Proof.
  intros W remote w rest c. subst c. split; intros st s Hp.
  - unfold LoginScreen.handlePhoneSendOtp. rewrite Hp.
    rewrite startsWith_plus. simpl. ask_remote.
    destruct o as [e|]; simpl; repeat split.
    apply or_else_nonempty. discriminate.
  - unfold SignupScreen.handlePhoneSendOtp. rewrite Hp.
    rewrite startsWith_plus. simpl. ask_remote.
    destruct o as [e|]; simpl; repeat split.
    apply or_else_nonempty. discriminate.
Qed.

Lemma phone_with_plus_requests_code_witness :
  let st :=
    {| LoginScreen.mode := LoginScreen.phone_mode;
       LoginScreen.email := ""; LoginScreen.password := "";
       LoginScreen.phone := "+911234567890"; LoginScreen.otp := "";
       LoginScreen.otpSent := false; LoginScreen.error := "";
       LoginScreen.loading := false |} in
  let st' :=
    {| SignupScreen.mode := LoginScreen.phone_mode;
       SignupScreen.email := ""; SignupScreen.password := "";
       SignupScreen.confirmPassword := "";
       SignupScreen.phone := "+911234567890"; SignupScreen.otp := "";
       SignupScreen.otpSent := false; SignupScreen.error := "";
       SignupScreen.loading := false |} in
  calls (run (Db.remote Sample.gw Sample.cx)
             (LoginScreen.handlePhoneSendOtp st) st Sample.db)
  = [log (Auth (signInWithPhone "+911234567890"))]
  /\ calls (run (Db.remote Sample.gw Sample.cx)
                (SignupScreen.handlePhoneSendOtp st') st' Sample.db)
     = [log (Auth (signInWithPhone "+911234567890"))].
Proof.
  intros st st'.
  destruct (phone_with_plus_requests_code
              Db.t (Db.remote Sample.gw Sample.cx) Sample.db "911234567890")
    as [HL HS].
  split.
  - destruct (HL st st eq_refl) as (Hc & _). exact Hc.
  - destruct (HS st' st' eq_refl) as (Hc & _). exact Hc.
Defined.

(** X5.  Verifying a one-time code, on both screens.  With an empty code
    nothing is awaited.  Otherwise one [verifyOtp] goes out with the phone
    and the code of the form, and the handler navigates (to the tabs from
    the login screen, to profile setup from the signup screen) exactly
    when the answer has no error and carries a session.  An answer with
    neither error nor session leaves the user on the form with no message
    at all. *)
Theorem verify_otp_outcome :
  forall (W : Type) (remote : forall X, call X -> W -> X * W) (w : W),
    (forall st s : LoginScreen.state,
        let c := Auth (verifyOtp (LoginScreen.phone st) (LoginScreen.otp st)) in
        let o := run remote (LoginScreen.handlePhoneVerifyOtp st) s w in
        (LoginScreen.otp st = "" ->
         calls o = [] /\ navs o = [] /\ world o = w
         /\ view o = LoginScreen.with_error "Please enter the OTP" s)
        /\
        (LoginScreen.otp st <> "" ->
         calls o = [log c]
         /\ match answer remote c w with
            | (Some e, _) => navs o = [] /\ LoginScreen.error (view o) <> ""
            | (None, Some _) => navs o = [replace "/(tabs)"]
                                /\ LoginScreen.error (view o) = ""
            | (None, None) => navs o = [] /\ LoginScreen.error (view o) = ""
            end))
    /\
    (forall st s : SignupScreen.state,
        let c := Auth (verifyOtp (SignupScreen.phone st)
                                 (SignupScreen.otp st)) in
        let o := run remote (SignupScreen.handlePhoneVerifyOtp st) s w in
        (SignupScreen.otp st = "" ->
         calls o = [] /\ navs o = [] /\ world o = w
         /\ view o = SignupScreen.with_error "Please enter the OTP" s)
        /\
        (SignupScreen.otp st <> "" ->
         calls o = [log c]
         /\ match answer remote c w with
            | (Some e, _) => navs o = [] /\ SignupScreen.error (view o) <> ""
            | (None, Some _) => navs o = [replace "/(auth)/profile-setup"]
                                /\ SignupScreen.error (view o) = ""
            | (None, None) => navs o = [] /\ SignupScreen.error (view o) = ""
            end)).
Proof.
  intros W remote w. split; intros st s c o; subst o c; split; intros Ho.
  - unfold LoginScreen.handlePhoneVerifyOtp. rewrite Ho. simpl.
    repeat split.
  - unfold LoginScreen.handlePhoneVerifyOtp. rewrite (truthy_true _ Ho).
    simpl. ask_remote. destruct p as [[e|] [x|]]; simpl; repeat split;
      apply or_else_nonempty; discriminate.
  - unfold SignupScreen.handlePhoneVerifyOtp. rewrite Ho. simpl.
    repeat split.
  - unfold SignupScreen.handlePhoneVerifyOtp. rewrite (truthy_true _ Ho).
    simpl. ask_remote. destruct p as [[e|] [x|]]; simpl; repeat split;
      apply or_else_nonempty; discriminate.
Qed.

Lemma verify_otp_outcome_witness :
  let st :=
    {| LoginScreen.mode := LoginScreen.phone_mode;
       LoginScreen.email := ""; LoginScreen.password := "";
       LoginScreen.phone := "+911234567890"; LoginScreen.otp := "123456";
       LoginScreen.otpSent := true; LoginScreen.error := "";
       LoginScreen.loading := false |} in
  let st' :=
    {| SignupScreen.mode := LoginScreen.phone_mode;
       SignupScreen.email := ""; SignupScreen.password := "";
       SignupScreen.confirmPassword := "";
       SignupScreen.phone := "+911234567890"; SignupScreen.otp := "";
       SignupScreen.otpSent := true; SignupScreen.error := "";
       SignupScreen.loading := false |} in
  navs (run (Db.remote Sample.gw Sample.cx)
            (LoginScreen.handlePhoneVerifyOtp st) st Sample.db)
  = [replace "/(tabs)"]
  /\ calls (run (Db.remote Sample.gw Sample.cx)
                (SignupScreen.handlePhoneVerifyOtp st') st' Sample.db) = [].
Proof.
  intros st st'.
  destruct (verify_otp_outcome Db.t (Db.remote Sample.gw Sample.cx) Sample.db)
    as [HL HS].
  split.
  - destruct (HL st st) as [_ H]. destruct H as (_ & Hn & _).
    + discriminate.
    + exact Hn.
  - destruct (HS st' st') as [H _]. destruct (H eq_refl) as (Hc & _).
    exact Hc.
Defined.

Lemma strict_eq_refl (a : string) : Js.strict_eq a a = true.
Proof. apply String.eqb_refl. Qed.

(** X6.  The order of the checks of the email signup form: an empty field wins
    over a mismatch, a mismatch over a short password.  Each of them stops
    the handler before any call, and a form that passes all three does send
    a request. *)
Theorem signup_validation_order :
  forall (W : Type) (remote : forall X, call X -> W -> X * W)
         (st s : SignupScreen.state) (w : W),
    let o := run remote (SignupScreen.handleEmailSignup st) s w in
    let filled := SignupScreen.email st <> ""
                  /\ SignupScreen.password st <> ""
                  /\ SignupScreen.confirmPassword st <> "" in
    (SignupScreen.email st = "" \/ SignupScreen.password st = ""
     \/ SignupScreen.confirmPassword st = "" ->
     calls o = []
     /\ view o = SignupScreen.with_error "Please fill in all fields" s)
    /\
    (filled ->
     SignupScreen.password st <> SignupScreen.confirmPassword st ->
     calls o = []
     /\ view o = SignupScreen.with_error "Passwords do not match" s)
    /\
    (filled ->
     SignupScreen.password st = SignupScreen.confirmPassword st ->
     Js.length (SignupScreen.password st) < 6 ->
     calls o = []
     /\ view o = SignupScreen.with_error
                   "Password must be at least 6 characters" s)
    /\
    (filled ->
     SignupScreen.password st = SignupScreen.confirmPassword st ->
     6 <= Js.length (SignupScreen.password st) ->
     calls o = [log (Auth (signUp (SignupScreen.email st)
                                  (SignupScreen.password st)))]).
Proof.
  intros W remote st s w o filled. subst o filled.
  unfold SignupScreen.handleEmailSignup.
  split; [|split; [|split]].
  - intros H.
    assert (negb (Js.truthy (SignupScreen.email st))
            || negb (Js.truthy (SignupScreen.password st))
            || negb (Js.truthy (SignupScreen.confirmPassword st)) = true)
      as ->; [|split; reflexivity].
    destruct H as [-> | [-> | ->]]; simpl;
      rewrite ?orb_true_r; reflexivity.
  - intros (He & Hp & Hc) Hne.
    rewrite (truthy_true _ He), (truthy_true _ Hp), (truthy_true _ Hc).
    simpl. rewrite (strict_neq _ _ Hne). split; reflexivity.
  - intros (He & Hp & Hc) Heq Hlen.
    rewrite (truthy_true _ He), (truthy_true _ Hp), (truthy_true _ Hc).
    simpl. rewrite <- Heq, strict_eq_refl. simpl.
    apply Nat.ltb_lt in Hlen. rewrite Hlen. split; reflexivity.
  - intros (He & Hp & Hc) Heq Hlen.
    rewrite (truthy_true _ He), (truthy_true _ Hp), (truthy_true _ Hc).
    simpl. rewrite <- Heq, strict_eq_refl. simpl.
    apply Nat.ltb_ge in Hlen. rewrite Hlen. simpl. ask_remote.
    now destruct o.
Qed.

Lemma signup_validation_order_witness :
  let form (e p c : string) :=
    {| SignupScreen.mode := LoginScreen.email_mode;
       SignupScreen.email := e; SignupScreen.password := p;
       SignupScreen.confirmPassword := c;
       SignupScreen.phone := ""; SignupScreen.otp := "";
       SignupScreen.otpSent := false; SignupScreen.error := "";
       SignupScreen.loading := false |} in
  let shown (st : SignupScreen.state) :=
    SignupScreen.error
      (view (run Sample.offline (SignupScreen.handleEmailSignup st) st
                 Sample.db)) in
  shown (form "" "abc" "abd") = "Please fill in all fields"
  /\ shown (form "a@b.c" "abc" "abd") = "Passwords do not match"
  /\ shown (form "a@b.c" "abc" "abc")
     = "Password must be at least 6 characters"
  /\ shown (form "a@b.c" Sample.accented_password Sample.accented_password)
     = "Password must be at least 6 characters"
  /\ calls (run Sample.offline
                (SignupScreen.handleEmailSignup (form "a@b.c" "abcdef" "abcdef"))
                (form "a@b.c" "abcdef" "abcdef") Sample.db)
     = [log (Auth (signUp "a@b.c" "abcdef"))].
Proof.
  intros form shown. subst shown.
  assert (forall st,
             let o := run Sample.offline (SignupScreen.handleEmailSignup st)
                          st Sample.db in _)
    as H by (intros st; exact (signup_validation_order
                                 Db.t Sample.offline st st Sample.db)).
  split; [|split; [|split; [|split]]].
  - destruct (H (form "" "abc" "abd")) as (H1 & _).
    destruct H1 as [_ ->]; [left; reflexivity | reflexivity].
  - destruct (H (form "a@b.c" "abc" "abd")) as (_ & H2 & _).
    destruct H2 as [_ ->]; [repeat split; discriminate | discriminate
                           | reflexivity].
  - destruct (H (form "a@b.c" "abc" "abc")) as (_ & _ & H3 & _).
    destruct H3 as [_ ->];
      [repeat split; discriminate | reflexivity
       | apply Nat.ltb_lt; reflexivity | reflexivity].
  - destruct (H (form "a@b.c" Sample.accented_password
                      Sample.accented_password)) as (_ & _ & H3 & _).
    destruct H3 as [_ ->];
      [repeat split; discriminate | reflexivity
       | apply Nat.ltb_lt; reflexivity | reflexivity].
  - destruct (H (form "a@b.c" "abcdef" "abcdef")) as (_ & _ & _ & H4).
    apply H4; [repeat split; discriminate | reflexivity
               | apply Nat.leb_le; reflexivity].
Defined.

(** X7.  An email signup that passes the form sends the email and the password
    (the confirmation is never sent) and ends with [loading] off.  It asks
    the router for profile setup, and never for the tabs, exactly when the
    gateway reports no error; otherwise a non-empty message is shown. *)
Theorem signup_outcome :
  forall (W : Type) (remote : forall X, call X -> W -> X * W)
         (st s : SignupScreen.state) (w : W),
    SignupScreen.email st <> "" ->
    SignupScreen.password st <> "" ->
    SignupScreen.password st = SignupScreen.confirmPassword st ->
    6 <= Js.length (SignupScreen.password st) ->
    let c := Auth (signUp (SignupScreen.email st) (SignupScreen.password st)) in
    let o := run remote (SignupScreen.handleEmailSignup st) s w in
    calls o = [log c]
    /\ SignupScreen.loading (view o) = false
    /\ match answer remote c w with
       | None => navs o = [replace "/(auth)/profile-setup"]
                 /\ SignupScreen.error (view o) = ""
       | Some e => navs o = []
                   /\ SignupScreen.error (view o)
                      = Js.or_else (Error.message e)
                                   "Failed to create account"
                   /\ SignupScreen.error (view o) <> ""
       end.
Proof.
  intros W remote st s w He Hp Heq Hlen.
  unfold SignupScreen.handleEmailSignup.
  rewrite <- Heq, (truthy_true _ He), (truthy_true _ Hp), strict_eq_refl.
  apply Nat.ltb_ge in Hlen. rewrite Hlen. simpl. ask_remote.
  destruct o as [e|]; simpl; repeat split.
  apply or_else_nonempty. discriminate.
Qed.

Lemma signup_outcome_witness :
  let st :=
    {| SignupScreen.mode := LoginScreen.email_mode;
       SignupScreen.email := "asha@example.com";
       SignupScreen.password := "secret1";
       SignupScreen.confirmPassword := "secret1";
       SignupScreen.phone := ""; SignupScreen.otp := "";
       SignupScreen.otpSent := false; SignupScreen.error := "";
       SignupScreen.loading := false |} in
  navs (run (Db.remote Sample.gw Sample.cx)
            (SignupScreen.handleEmailSignup st) st Sample.db)
  = [replace "/(auth)/profile-setup"].
Proof.
  intros st.
  destruct (signup_outcome Db.t (Db.remote Sample.gw Sample.cx) st st
                           Sample.db)
    as (_ & _ & Hn & _);
    [discriminate | discriminate | reflexivity
     | apply Nat.leb_le; reflexivity | exact Hn].
Defined.

(** ** Entry redirect *)

(** X8.  While the session is still loading the entry screen does nothing at
    all, whoever the user is; once it is known that nobody is signed in, it
    sends to the login screen without asking the storage. *)
Theorem checkProfile_without_user :
  forall (W : Type) (remote : forall X, call X -> W -> X * W) (w : W),
    (forall user,
        let o := run remote (IndexScreen.checkProfile user true) tt w in
        calls o = [] /\ navs o = [] /\ world o = w)
    /\
    (let o := run remote (IndexScreen.checkProfile None false) tt w in
     calls o = [] /\ navs o = [replace "/(auth)/login"] /\ world o = w).
Proof.
  intros W remote w. split; [intros user|]; simpl; repeat split.
Qed.

(** X9.  Against the schema, for a signed-in user whose session makes the
    request and a sellers table with unique ids: the entry screen reads
    without writing, and sends to the tabs when the table has a row for
    the user and to profile setup when it has none. *)
Theorem checkProfile_on_schema :
  forall (gw : forall X, auth X -> X) (cx : Db.ctx) (d : Db.t) (u : User.t),
    Db.uid cx = Some (User.id u) ->
    NoDup (map SellerRow.id (Db.sellers d)) ->
    let o := run (Db.remote gw cx) (IndexScreen.checkProfile (Some u) false)
                 tt d in
    world o = d
    /\ ((exists r, In r (Db.sellers d) /\ SellerRow.id r = User.id u) ->
        navs o = [replace "/(tabs)"])
    /\ ((forall r, In r (Db.sellers d) -> SellerRow.id r <> User.id u) ->
        navs o = [replace "/(auth)/profile-setup"]).
Proof.
  intros gw cx d u Hu Hnd o. subst o. simpl.
  unfold Db.select_seller_id.
  assert (forall l, (forall r, In r l -> SellerRow.id r <> User.id u) ->
            filter (fun r => Db.owns cx (SellerRow.id r)
                             && (SellerRow.id r =? User.id u)) l = [])
    as Hnone'.
  { induction l as [|r l IH]; intros Hall; [reflexivity|]. simpl.
    assert ((SellerRow.id r =? User.id u) = false) as ->.
    { apply String.eqb_neq, Hall. now left. }
    rewrite andb_false_r. apply IH. intros x Hx. apply Hall. now right. }
  assert (forall l, NoDup (map SellerRow.id l) ->
            (exists r, In r l /\ SellerRow.id r = User.id u) ->
            exists r, filter (fun r => Db.owns cx (SellerRow.id r)
                                       && (SellerRow.id r =? User.id u)) l
                      = [r]) as Hone.
  { induction l as [|r l IH]; intros Hn (x & Hx & Hid); [destruct Hx|].
    simpl. inversion Hn as [|? ? Hnotin Hn']; subst.
    destruct (String.eqb_spec (SellerRow.id r) (User.id u)) as [E|E].
    - assert (Db.owns cx (SellerRow.id r) = true) as ->.
      { unfold Db.owns. rewrite Hu, E. apply String.eqb_refl. }
      simpl. exists r. f_equal. apply Hnone'. intros y Hy Hyid.
      apply Hnotin. rewrite E, <- Hyid. now apply in_map.
    - rewrite andb_false_r. apply IH; [exact Hn'|].
      exists x. split; [|exact Hid].
      destruct Hx as [->|Hx]; [contradiction | exact Hx]. }
  split; [|split].
  - match goal with
    | |- context [filter ?f ?l] => destruct (filter f l) as [|? [|? ?]]
    end; reflexivity.
  - intros Hex. destruct (Hone _ Hnd Hex) as [r ->]. reflexivity.
  - intros Hall. now rewrite (Hnone' _ Hall).
Qed.

Lemma checkProfile_on_schema_witness :
  navs (run (Db.remote Sample.gw Sample.cx)
            (IndexScreen.checkProfile (Some Sample.seller) false) tt
            Sample.db)
  = [replace "/(tabs)"]
  /\ navs (run (Db.remote Sample.gw Sample.cx)
               (IndexScreen.checkProfile (Some Sample.seller) false) tt
               Db.empty)
     = [replace "/(auth)/profile-setup"].
Proof.
  split.
  - destruct (checkProfile_on_schema Sample.gw Sample.cx Sample.db
                                     Sample.seller eq_refl) as (_ & H & _).
    + repeat constructor; simpl; intuition discriminate.
    + apply H. exists Sample.seller_row. split; [left|]; reflexivity.
  - destruct (checkProfile_on_schema Sample.gw Sample.cx Db.empty
                                     Sample.seller eq_refl) as (_ & _ & H).
    + constructor.
    + apply H. intros r [].
Defined.

(** ** Invariants of the storage *)

Lemma NoDup_keys_kept {Row Key : Type} (key : Row -> Key)
      (keep : Row -> bool) :
  forall rows : list Row,
    NoDup (map key rows) -> NoDup (map key (filter keep rows)).
Proof.
  intros rows. induction rows as [|row rows IH]; intros Hkeys.
  - constructor.
  - simpl in Hkeys. apply NoDup_cons_iff in Hkeys.
    destruct Hkeys as [Hfresh Hkeys]. simpl.
    destruct (keep row); simpl; [|now apply IH].
    apply NoDup_cons_iff. split; [|now apply IH].
    intros Hin. apply Hfresh. apply in_map_iff in Hin.
    destruct Hin as (other & Hsame & Hin). apply filter_In in Hin.
    apply in_map_iff. exists other. tauto.
Qed.

Lemma map_map_same {A B : Type} (f : A -> B) (g : A -> A) (l : list A) :
  (forall x, f (g x) = f x) -> map f (map g l) = map f l.
Proof.
  intros H. rewrite map_map. apply map_ext. exact H.
Qed.

(** X10.  The primary key and the UNIQUE pair of seller_products hold through
    every request: no request leaves two rows with one id, or two rows for
    one (seller, product) pair. *)
Theorem exec_keeps_keys :
  forall (c : Db.ctx) (X : Type) (q : storage X) (d : Db.t),
    keys_ok d -> keys_ok (snd (Db.exec c q d)).
Proof.
  intros c X q d [Hid Hpair]. destruct q; simpl; try (split; assumption).
  - (* insert *)
    unfold Db.insert_seller_product.
    destruct (negb (Db.owns c _)); [split; assumption|].
    destruct (negb (Db.stock_status_check _)); [split; assumption|].
    destruct (negb (existsb _ (Db.sellers d)) || _); [split; assumption|].
    destruct (existsb _ (Db.seller_products d)) eqn:Ee; [split; assumption|].
    assert (forall x, In x (Db.seller_products d) ->
              SellerProductRow.id x <> Db.gen_random_uuid c
              /\ (SellerProductRow.seller_id x,
                  SellerProductRow.product_id x)
                 <> (SellerProductInsert.seller_id row,
                     SellerProductInsert.product_id row)) as Hfresh.
    { intros x Hx.
      assert (((SellerProductRow.id x =? Db.gen_random_uuid c)
               || ((SellerProductRow.seller_id x
                    =? SellerProductInsert.seller_id row)
                   && (SellerProductRow.product_id x
                       =? SellerProductInsert.product_id row))) = false)
        as Hf.
      { destruct (_ || _) eqn:E; [|reflexivity].
        assert (existsb
                  (fun x =>
                     (SellerProductRow.id x =? Db.gen_random_uuid c)
                     || ((SellerProductRow.seller_id x
                          =? SellerProductInsert.seller_id row)
                         && (SellerProductRow.product_id x
                             =? SellerProductInsert.product_id row)))
                  (Db.seller_products d) = true) as Ht.
        { apply existsb_exists. now exists x. }
        congruence. }
      apply orb_false_iff in Hf. destruct Hf as [H1 H2]. split.
      - now apply String.eqb_neq.
      - intros Heq. injection Heq as E1 E2.
        rewrite E1, E2, !String.eqb_refl in H2. discriminate. }
    unfold keys_ok. simpl. rewrite !map_app. simpl. split.
    + apply NoDup_app; [exact Hid | repeat constructor; intros [] |].
      intros i Hi [<-|[]]. apply in_map_iff in Hi.
      destruct Hi as (x & Hxi & Hx). now destruct (Hfresh x Hx) as [H _].
    + apply NoDup_app; [exact Hpair | repeat constructor; intros [] |].
      intros i Hi [<-|[]]. apply in_map_iff in Hi.
      destruct Hi as (x & Hxi & Hx). now destruct (Hfresh x Hx) as [_ H].
  - (* update *)
    unfold Db.update_seller_product.
    destruct (existsb _ _ && _); [split; assumption|].
    unfold keys_ok. simpl.
    split; (rewrite map_map_same; [assumption|]);
      intros x; now destruct (Db.reaches_seller_product c id x).
  - (* delete *)
    split; now apply NoDup_keys_kept.
  - (* update of an order *)
    unfold Db.update_order.
    destruct (existsb _ (Db.orders d) && _); split; assumption.
Qed.

Lemma sample_db_keys_ok : keys_ok Sample.db.
Proof.
  split; simpl; repeat constructor; intros [].
Defined.

Lemma exec_keeps_keys_witness :
  keys_ok (snd (Db.exec Sample.cx
                  (seller_products_insert
                     {| SellerProductInsert.seller_id := "seller-1";
                        SellerProductInsert.product_id := "prod-mat";
                        SellerProductInsert.stock_status := "available" |})
                  Sample.db)).
Proof.
  apply exec_keeps_keys. exact sample_db_keys_ok.
Defined.

Lemma status_check_valid (s : string) :
  Db.status_check s = true <-> valid_status s.
Proof.
  unfold Db.status_check, valid_status.
  rewrite !orb_true_iff, !String.eqb_eq. tauto.
Qed.

(** X11.  The CHECK on [orders.status] holds through every request, starting
    from the empty table; and the statuses it admits are exactly the
    values offered by the status list of the orders screen, so every
    entry of the list can be stored and every stored status has an
    entry. *)
Theorem order_status_five_valued :
  orders_ok Db.empty
  /\ (forall (c : Db.ctx) (X : Type) (q : storage X) (d : Db.t),
         orders_ok d -> orders_ok (snd (Db.exec c q d)))
  /\ (forall s, Db.status_check s = true
                <-> In s (map OrdersScreen.StatusOption.value
                              OrdersScreen.STATUS_OPTIONS)).
Proof.
  split; [intros r []|]. split.
  - intros c X q d H. destruct q; simpl; try exact H.
    + unfold Db.insert_seller_product.
      repeat match goal with
             | |- context [if ?b then _ else _] => destruct b
             end; exact H.
    + unfold Db.update_seller_product.
      destruct (existsb _ _ && _); exact H.
    + unfold Db.update_order.
      destruct (existsb _ _) eqn:Ee;
        destruct (Db.status_check status) eqn:Ec; simpl; try exact H.
      * intros r Hr. apply in_map_iff in Hr. destruct Hr as (x & <- & Hx).
        destruct (Db.reaches_order c id x); [|now apply H].
        simpl. now apply status_check_valid.
      * intros r Hr. apply in_map_iff in Hr. destruct Hr as (x & <- & Hx).
        destruct (Db.reaches_order c id x); [|now apply H].
        simpl. now apply status_check_valid.
      * intros r Hr. apply in_map_iff in Hr. destruct Hr as (x & <- & Hx).
        destruct (Db.reaches_order c id x) eqn:Er; [|now apply H].
        exfalso. assert (existsb (Db.reaches_order c id) (Db.orders d) = true)
          as Ht by (apply existsb_exists; now exists x).
        congruence.
  - intros s. rewrite status_check_valid. unfold valid_status. simpl.
    split; intros H; repeat destruct H as [H|H]; subst; auto 10.
    destruct H.
Qed.

Lemma sample_db_orders_ok : orders_ok Sample.db.
Proof.
  intros r [<-|[]]. right. right. right. left. reflexivity.
Defined.

Lemma order_status_five_valued_witness :
  orders_ok (snd (Db.exec Sample.cx
                    (orders_update "shipped" "2025-10-04T16:40:00.000Z"
                                   "order-1")
                    Sample.db)).
Proof.
  destruct order_status_five_valued as (_ & H & _).
  apply H. exact sample_db_orders_ok.
Defined.

(** X12.  Referential integrity holds through every request: a SellerProduct
    row always points at an existing seller and an existing catalog
    product, an order at an existing seller.  In particular no request
    removes a seller or a catalog product. *)
Theorem exec_keeps_references :
  forall (c : Db.ctx) (X : Type) (q : storage X) (d : Db.t),
    references_ok d ->
    references_ok (snd (Db.exec c q d))
    /\ map SellerRow.id (Db.sellers (snd (Db.exec c q d)))
       = map SellerRow.id (Db.sellers d)
    /\ Db.master_products (snd (Db.exec c q d)) = Db.master_products d.
Proof.
  intros c X q d [Hsp Ho]. destruct q; simpl;
    try (split; [split; assumption | split; reflexivity]).
  - (* update of a seller *)
    assert (map SellerRow.id
              (map (fun r => if Db.owns c (SellerRow.id r)
                                && (SellerRow.id r =? id)
                             then Db.patch_seller patch r else r)
                   (Db.sellers d))
            = map SellerRow.id (Db.sellers d)) as E.
    { apply map_map_same. intros x.
      now destruct (Db.owns c (SellerRow.id x) && (SellerRow.id x =? id)). }
    split; [|split; [exact E | reflexivity]].
    split; simpl; intros r Hr; rewrite E; [now apply Hsp | now apply Ho].
  - (* insert *)
    unfold Db.insert_seller_product.
    destruct (negb (Db.owns c _));
      [split; [split; assumption | split; reflexivity]|].
    destruct (negb (Db.stock_status_check _));
      [split; [split; assumption | split; reflexivity]|].
    destruct (negb (existsb _ (Db.sellers d))) eqn:E1;
      [split; [split; assumption | split; reflexivity]|].
    destruct (negb (existsb _ (Db.master_products d))) eqn:E2;
      [split; [split; assumption | split; reflexivity]|].
    simpl.
    destruct (existsb _ (Db.seller_products d));
      [split; [split; assumption | split; reflexivity]|].
    split; [|split; reflexivity]. split; simpl; [|exact Ho].
    intros r Hr. apply in_app_or in Hr. destruct Hr as [Hr|[<-|[]]];
      [now apply Hsp|]. simpl.
    apply negb_false_iff, existsb_exists in E1, E2.
    destruct E1 as (x & Hx & Ex). destruct E2 as (y & Hy & Ey).
    apply String.eqb_eq in Ex, Ey. split; apply in_map_iff; eauto.
  - (* update of a seller product *)
    unfold Db.update_seller_product.
    destruct (existsb _ _ && _);
      [split; [split; assumption | split; reflexivity]|].
    split; [|split; reflexivity]. split; simpl; [|exact Ho].
    intros r Hr. apply in_map_iff in Hr. destruct Hr as (x & <- & Hx).
    destruct (Db.reaches_seller_product c id x); simpl; now apply Hsp.
  - (* delete *)
    split; [|split; reflexivity]. split; simpl; [|exact Ho].
    intros r Hr. apply filter_In in Hr. now apply Hsp.
  - (* update of an order *)
    unfold Db.update_order.
    destruct (existsb _ _ && _);
      [split; [split; assumption | split; reflexivity]|].
    split; [|split; reflexivity]. split; simpl; [exact Hsp|].
    intros r Hr. apply in_map_iff in Hr. destruct Hr as (x & <- & Hx).
    destruct (Db.reaches_order c id x); simpl; now apply Ho.
Qed.

Lemma sample_db_references_ok : references_ok Sample.db.
Proof.
  split.
  - intros r [<-|[]]. simpl. auto.
  - intros r [<-|[]]. simpl. auto.
Defined.

Lemma exec_keeps_references_witness :
  references_ok (snd (Db.exec Sample.cx (seller_products_delete "sp-1")
                              Sample.db)).
Proof.
  destruct (exec_keeps_references Sample.cx _ (seller_products_delete "sp-1")
              Sample.db sample_db_references_ok) as [H _].
  exact H.
Defined.

Lemma filter_map_fixed {A : Type} (p : A -> bool) (f : A -> A) (l : list A) :
  (forall x, p (f x) = p x) -> (forall x, p x = true -> f x = x) ->
  filter p (map f l) = filter p l.
Proof.
  intros Hp Hf. induction l as [|x l IH]; simpl; [reflexivity|].
  rewrite Hp. destruct (p x) eqn:E; [|exact IH].
  now rewrite (Hf x E), IH.
Qed.

Lemma filter_filter_kept {A : Type} (p q : A -> bool) (l : list A) :
  (forall x, p x = true -> q x = true) ->
  filter p (filter q l) = filter p l.
Proof.
  intros H. induction l as [|x l IH]; simpl; [reflexivity|].
  destruct (q x) eqn:Eq; simpl.
  - now rewrite IH.
  - destruct (p x) eqn:Ep; [|exact IH].
    rewrite (H x Ep) in Eq. discriminate.
Qed.

(** X13.  Row-level ownership: whatever request a session sends, the Seller
    rows, SellerProduct rows and orders of every other seller stay exactly
    as they were. *)
Theorem exec_leaves_foreign_rows :
  forall (c : Db.ctx) (X : Type) (q : storage X) (d : Db.t),
    foreign_sellers c (snd (Db.exec c q d)) = foreign_sellers c d
    /\ foreign_seller_products c (snd (Db.exec c q d))
       = foreign_seller_products c d
    /\ foreign_orders c (snd (Db.exec c q d)) = foreign_orders c d.
Proof.
  intros c X q d.
  unfold foreign_sellers, foreign_seller_products, foreign_orders.
  destruct q; simpl; try (repeat split; reflexivity).
  - (* update of a seller *)
    repeat split. apply filter_map_fixed; intros x.
    + now destruct (Db.owns c (SellerRow.id x) && (SellerRow.id x =? id)).
    + intros Hx. apply negb_true_iff in Hx. now rewrite Hx.
  - (* insert *)
    unfold Db.insert_seller_product.
    destruct (negb (Db.owns c _)) eqn:Eo; [repeat split|].
    destruct (negb (Db.stock_status_check _)); [repeat split|].
    destruct (negb (existsb _ (Db.sellers d)) || _); [repeat split|].
    destruct (existsb _ (Db.seller_products d)); [repeat split|].
    simpl. repeat split. rewrite filter_app. simpl. rewrite Eo.
    apply app_nil_r.
  - (* update of a seller product *)
    unfold Db.update_seller_product.
    destruct (existsb _ _ && _); [repeat split|]. simpl. repeat split.
    apply filter_map_fixed; intros x.
    + now destruct (Db.reaches_seller_product c id x).
    + intros Hx. apply negb_true_iff in Hx.
      unfold Db.reaches_seller_product. now rewrite Hx.
  - (* delete *)
    repeat split. apply filter_filter_kept. intros x Hx.
    apply negb_true_iff in Hx. unfold Db.reaches_seller_product.
    now rewrite Hx.
  - (* update of an order *)
    unfold Db.update_order.
    destruct (existsb _ _ && _); [repeat split|]. simpl. repeat split.
    apply filter_map_fixed; intros x.
    + now destruct (Db.reaches_order c id x).
    + intros Hx. apply negb_true_iff in Hx.
      unfold Db.reaches_order. now rewrite Hx.
Qed.

(** ** Catalog and inventory against the schema *)

Lemma insert_seller_product_fresh (c : Db.ctx) (r : SellerProductInsert.t)
      (d : Db.t) :
  Db.owns c (SellerProductInsert.seller_id r) = true ->
  Db.stock_status_check (SellerProductInsert.stock_status r) = true ->
  In (SellerProductInsert.seller_id r) (map SellerRow.id (Db.sellers d)) ->
  In (SellerProductInsert.product_id r)
     (map MasterProductRow.id (Db.master_products d)) ->
  (forall x, In x (Db.seller_products d) ->
             SellerProductRow.id x <> Db.gen_random_uuid c
             /\ (SellerProductRow.seller_id x <> SellerProductInsert.seller_id r
                 \/ SellerProductRow.product_id x
                    <> SellerProductInsert.product_id r)) ->
  fst (Db.insert_seller_product c r d) = None.
Proof.
  intros Ho Hc Hs Hm Hfresh. unfold Db.insert_seller_product.
  rewrite Ho, Hc. simpl.
  assert (existsb (fun s => SellerRow.id s =? SellerProductInsert.seller_id r)
                  (Db.sellers d) = true) as ->.
  { apply in_map_iff in Hs. destruct Hs as (x & Hx & Hin).
    apply existsb_exists. exists x. split; [exact Hin|].
    now apply String.eqb_eq. }
  assert (existsb (fun m => MasterProductRow.id m
                            =? SellerProductInsert.product_id r)
                  (Db.master_products d) = true) as ->.
  { apply in_map_iff in Hm. destruct Hm as (x & Hx & Hin).
    apply existsb_exists. exists x. split; [exact Hin|].
    now apply String.eqb_eq. }
  simpl.
  match goal with
  | |- context [if ?b then _ else _] => destruct b eqn:E
  end; [|reflexivity].
  exfalso. apply existsb_exists in E. destruct E as (x & Hx & E).
  destruct (Hfresh x Hx) as [H1 H2].
  apply orb_true_iff in E. destruct E as [E|E].
  - now apply String.eqb_eq in E.
  - apply andb_true_iff in E. destruct E as [E1 E2].
    apply String.eqb_eq in E1, E2. tauto.
Qed.

(** X14.  Adding one catalog product twice (a double tap: the second handler
    may hold any render of the screen).  For a seller with a profile, an
    existing catalog product and no row for the pair yet, the first insert
    is accepted and the second is refused by the schema whatever id it
    draws; the second handler changes neither the view nor the table, and
    the table ends with exactly one row for the pair. *)
Theorem addProduct_twice_one_row :
  forall (gw : forall X, auth X -> X) (c1 c2 : Db.ctx) (d : Db.t)
         (u : User.t) (st st2 : CatalogScreen.state) (productId : string),
    Db.uid c1 = Some (User.id u) ->
    In (User.id u) (map SellerRow.id (Db.sellers d)) ->
    In productId (map MasterProductRow.id (Db.master_products d)) ->
    (forall x, In x (Db.seller_products d) ->
               SellerProductRow.id x <> Db.gen_random_uuid c1
               /\ (SellerProductRow.seller_id x <> User.id u
                   \/ SellerProductRow.product_id x <> productId)) ->
    let c := Storage (seller_products_insert
               {| SellerProductInsert.seller_id := User.id u;
                  SellerProductInsert.product_id := productId;
                  SellerProductInsert.stock_status := "available" |}) in
    let o1 := run (Db.remote gw c1)
                  (CatalogScreen.addProduct (Some u) st productId) st d in
    let o2 := run (Db.remote gw c2)
                  (CatalogScreen.addProduct (Some u) st2 productId)
                  (view o1) (world o1) in
    answer (Db.remote gw c1) c d = None
    /\ answer (Db.remote gw c2) c (world o1) <> None
    /\ view o2 = view o1 /\ world o2 = world o1
    /\ List.length
         (filter (fun x => (SellerProductRow.seller_id x =? User.id u)
                           && (SellerProductRow.product_id x =? productId))
                 (Db.seller_products (world o2))) = 1.
Proof.
  intros gw c1 c2 d u st st2 productId Hu Hs Hm Hfresh c o1 o2.
  set (r := {| SellerProductInsert.seller_id := User.id u;
               SellerProductInsert.product_id := productId;
               SellerProductInsert.stock_status := "available" |}) in *.
  assert (fst (Db.insert_seller_product c1 r d) = None) as H1.
  { apply insert_seller_product_fresh; try assumption; try reflexivity.
    unfold Db.owns. rewrite Hu. apply String.eqb_refl. }
  pose proof (insert_seller_product_accepted c1 r d H1) as Hrows.
  assert (world o1 = snd (Db.insert_seller_product c1 r d)) as Hw1.
  { exact (proj1 (proj2 (proj2 (addProduct_run _ (Db.remote gw c1) d u st st
                                               productId)))). }
  assert (exists x, In x (Db.seller_products (world o1))
                    /\ SellerProductRow.seller_id x = User.id u
                    /\ SellerProductRow.product_id x = productId) as Hdup.
  { rewrite Hw1, Hrows. eexists. split; [apply in_or_app; right; now left|].
    split; reflexivity. }
  destruct Hdup as (x & Hx & Hxs & Hxp).
  destruct (insert_seller_product_duplicate c2 r (world o1) x Hx Hxs Hxp)
    as [H2 H2'].
  assert (world o2 = snd (Db.insert_seller_product c2 r (world o1))) as Hw2.
  { exact (proj1 (proj2 (proj2 (addProduct_run _ (Db.remote gw c2) (world o1)
                                               u st2 (view o1) productId)))). }
  assert (view o2
          = match fst (Db.insert_seller_product c2 r (world o1)) with
            | None =>
                {| CatalogScreen.products :=
                     map (fun p =>
                            if Js.strict_eq (CatalogScreen.Product.id p)
                                            productId
                            then CatalogScreen.Product.with_is_added true p
                            else p)
                         (CatalogScreen.products st2);
                   CatalogScreen.loading := CatalogScreen.loading (view o1);
                   CatalogScreen.refreshing :=
                     CatalogScreen.refreshing (view o1);
                   CatalogScreen.searchQuery :=
                     CatalogScreen.searchQuery (view o1) |}
            | Some _ => view o1
            end) as Hv2.
  { exact (proj2 (proj2 (proj2 (addProduct_run _ (Db.remote gw c2) (world o1)
                                               u st2 (view o1) productId)))). }
  split; [exact H1|]. split; [exact H2|]. split.
  { rewrite Hv2. destruct (fst (Db.insert_seller_product c2 r (world o1)));
      [reflexivity | now elim H2]. }
  split; [now rewrite Hw2|].
  rewrite Hw2, H2', Hw1, Hrows, filter_app. simpl.
  rewrite !String.eqb_refl. simpl.
  assert (filter (fun x => (SellerProductRow.seller_id x =? User.id u)
                           && (SellerProductRow.product_id x =? productId))
                 (Db.seller_products d) = []) as ->; [|reflexivity].
  clear -Hfresh. induction (Db.seller_products d) as [|y l IH];
    [reflexivity|]. simpl.
  destruct (Hfresh y (or_introl eq_refl)) as [_ [H|H]];
    apply String.eqb_neq in H; rewrite H; rewrite ?andb_false_r; simpl;
    apply IH; intros z Hz; apply Hfresh; now right.
Qed.

Lemma addProduct_twice_one_row_witness :
  let add st s d := run (Db.remote Sample.gw Sample.cx)
                        (CatalogScreen.addProduct (Some Sample.seller) st
                                                  "prod-mat") s d in
  let o1 := add Sample.catalog Sample.catalog Sample.db in
  let o2 := add Sample.catalog (view o1) (world o1) in
  view o2 = view o1 /\ world o2 = world o1
  /\ List.length
       (filter (fun x => (SellerProductRow.seller_id x =? "seller-1")
                         && (SellerProductRow.product_id x =? "prod-mat"))
               (Db.seller_products (world o2))) = 1.
Proof.
  intros add o1 o2.
  destruct (addProduct_twice_one_row
              Sample.gw Sample.cx Sample.cx Sample.db Sample.seller
              Sample.catalog Sample.catalog "prod-mat" eq_refl)
    as (_ & _ & Hv & Hw & Hn).
  - simpl. auto.
  - simpl. auto.
  - intros x [<-|[]]. split; [discriminate | right; discriminate].
  - split; [exact Hv | split; [exact Hw | exact Hn]].
Defined.

(** X15.  Removing a seller product against the schema.  The delete reports no
    error; afterwards the table holds exactly the former rows that the
    session's delete of that id does not reach (so the row is gone, and a
    row of another seller with that id is not), the view holds exactly the
    former items with another id, the other tables are untouched, and
    removing the same id again changes nothing more. *)
Theorem removeProduct_on_schema :
  forall (gw : forall X, auth X -> X) (c : Db.ctx) (d : Db.t)
         (st s : MyProductsScreen.state) (productId : string),
    let remove st s d :=
      run (Db.remote gw c) (MyProductsScreen.removeProduct st productId) s d in
    let o := remove st s d in
    answer (Db.remote gw c) (Storage (seller_products_delete productId)) d
    = None
    /\ (forall r, In r (Db.seller_products (world o))
                  <-> In r (Db.seller_products d)
                      /\ Db.reaches_seller_product c productId r = false)
    /\ (forall p, In p (MyProductsScreen.products (view o))
                  <-> In p (MyProductsScreen.products st)
                      /\ MyProductsScreen.SellerProduct.id p <> productId)
    /\ Db.sellers (world o) = Db.sellers d
    /\ Db.master_products (world o) = Db.master_products d
    /\ Db.orders (world o) = Db.orders d
    /\ view (remove (view o) (view o) (world o)) = view o
    /\ world (remove (view o) (view o) (world o)) = world o.
Proof.
  intros gw c d st s productId remove o.
  assert (forall st s d,
             remove st s d
             = {| view :=
                    {| MyProductsScreen.products :=
                         filter (fun p =>
                                   negb (Js.strict_eq
                                           (MyProductsScreen.SellerProduct.id p)
                                           productId))
                                (MyProductsScreen.products st);
                       MyProductsScreen.loading := MyProductsScreen.loading s;
                       MyProductsScreen.refreshing :=
                         MyProductsScreen.refreshing s |};
                  world :=
                    Db.with_seller_products
                      (filter (fun r =>
                                 negb (Db.reaches_seller_product c productId r))
                              (Db.seller_products d))
                      d;
                  calls := [log (Storage (seller_products_delete productId))];
                  navs := [] |}) as Hrun by reflexivity.
  subst o. rewrite !Hrun. cbn [view world]. clear Hrun remove.
  split; [reflexivity|]. split.
  { intros r. simpl. rewrite filter_In, negb_true_iff. tauto. }
  split.
  { intros p. simpl. rewrite filter_In, negb_true_iff.
    unfold Js.strict_eq. now rewrite String.eqb_neq. }
  repeat (split; [reflexivity|]). simpl. split.
  - f_equal. apply filter_filter_kept. auto.
  - unfold Db.with_seller_products. simpl. f_equal.
    apply filter_filter_kept. auto.
Qed.

Lemma all_unreached_map {A : Type} (reach : A -> bool) (f : A -> A)
      (l : list A) :
  existsb reach l = false ->
  map (fun r => if reach r then f r else r) l = l.
Proof.
  induction l as [|x l IH]; simpl; intros H; [reflexivity|].
  apply orb_false_iff in H. destruct H as [-> H]. now rewrite IH.
Qed.

(** X16.  The two edges of an order update against the schema.  A status
    outside the five, sent for an order the session owns, is refused: the
    handler leaves view and table alone.  An id that reaches no order of
    the session (an unknown id, or an order of another seller) is answered
    without error although no row is written. *)
Theorem updateOrderStatus_edges :
  forall (gw : forall X, auth X -> X) (c : Db.ctx) (d : Db.t)
         (st s : OrdersScreen.state) (date : timestamptz)
         (orderId newStatus : string),
    let o := run (Db.remote gw c)
                 (OrdersScreen.updateOrderStatus st date orderId newStatus)
                 s d in
    let r := answer (Db.remote gw c)
                    (Storage (orders_update newStatus date orderId)) d in
    ((exists x, In x (Db.orders d) /\ Db.reaches_order c orderId x = true) ->
     ~ valid_status newStatus ->
     r <> None /\ world o = d /\ view o = s)
    /\
    ((forall x, In x (Db.orders d) -> Db.reaches_order c orderId x = false) ->
     r = None /\ world o = d).
Proof.
  intros gw c d st s date orderId newStatus o r.
  destruct (updateOrderStatus_run _ (Db.remote gw c) d st s date orderId
                                  newStatus) as (_ & _ & Hw & Hv).
  fold o in Hw, Hv. fold r in Hv. split.
  - intros Hex Hbad.
    assert (Db.update_order c newStatus date orderId d
            = (Some Db.check_violation, d)) as E.
    { unfold Db.update_order.
      assert (existsb (Db.reaches_order c orderId) (Db.orders d) = true)
        as -> by (apply existsb_exists; exact Hex).
      destruct (Db.status_check newStatus) eqn:Ec; [|reflexivity].
      apply status_check_valid in Ec. contradiction. }
    assert (r = Some Db.check_violation) as Hr.
    { unfold r, answer. simpl. now rewrite E. }
    split; [rewrite Hr; discriminate|]. split.
    + rewrite Hw. simpl. now rewrite E.
    + now rewrite Hv, Hr.
  - intros Hnone.
    assert (existsb (Db.reaches_order c orderId) (Db.orders d) = false) as Ee.
    { destruct (existsb _ _) eqn:E; [|reflexivity].
      apply existsb_exists in E. destruct E as (x & Hx & E).
      rewrite (Hnone x Hx) in E. discriminate. }
    assert (Db.update_order c newStatus date orderId d = (None, d)) as E.
    { unfold Db.update_order. rewrite Ee. simpl.
      rewrite all_unreached_map by exact Ee. now destruct d. }
    split.
    + unfold r, answer. simpl. now rewrite E.
    + rewrite Hw. simpl. now rewrite E.
Qed.

Lemma updateOrderStatus_edges_witness :
  let upd id status :=
    run (Db.remote Sample.gw Sample.cx)
        (OrdersScreen.updateOrderStatus Sample.orders_view
           "2025-10-04T16:40:00.000Z" id status)
        Sample.orders_view Sample.db in
  (world (upd "order-1" "returned") = Sample.db
   /\ view (upd "order-1" "returned") = Sample.orders_view)
  /\ world (upd "order-9" "packed") = Sample.db.
Proof.
  intros upd. split.
  - destruct (updateOrderStatus_edges
                Sample.gw Sample.cx Sample.db Sample.orders_view
                Sample.orders_view "2025-10-04T16:40:00.000Z"
                "order-1" "returned") as [H _].
    destruct H as (_ & Hw & Hv).
    + exists Sample.delivered_order. split; [left|]; reflexivity.
    + intros [H|[H|[H|[H|H]]]]; discriminate H.
    + split; [exact Hw | exact Hv].
  - destruct (updateOrderStatus_edges
                Sample.gw Sample.cx Sample.db Sample.orders_view
                Sample.orders_view "2025-10-04T16:40:00.000Z"
                "order-9" "packed") as [_ H].
    destruct H as [_ Hw]; [|exact Hw].
    intros x [<-|[]]. reflexivity.
Defined.

(** ** Dashboard counters *)

Section Counters.
Variable number : Type.
Variable zero : number.
Variable add : number -> number -> number.
Variable parseFloat : decimal -> number.

Let in_stock (l : list ProductStock.t) : nat :=
  List.length (filter (fun p => Js.strict_eq (ProductStock.stock_status p)
                                             "available") l).
Let out_of_stock (l : list ProductStock.t) : nat :=
  List.length (filter (fun p => Js.strict_eq (ProductStock.stock_status p)
                                             "out_of_stock") l).

Lemma stock_counts_le (l : list ProductStock.t) :
  in_stock l + out_of_stock l <= List.length l.
Proof.
  unfold in_stock, out_of_stock, Js.strict_eq.
  induction l as [|p l IH]; simpl; [lia|].
  destruct (String.eqb_spec (ProductStock.stock_status p) "available")
    as [E|E].
  - rewrite E. simpl. lia.
  - destruct (ProductStock.stock_status p =? "out_of_stock"); simpl; lia.
Qed.

Lemma stock_counts_eq (l : list ProductStock.t) :
  (forall p, In p l -> valid_stock_status (ProductStock.stock_status p)) ->
  in_stock l + out_of_stock l = List.length l.
Proof.
  unfold in_stock, out_of_stock, Js.strict_eq.
  induction l as [|p l IH]; simpl; intros H; [reflexivity|].
  assert (forall q, In q l -> valid_stock_status (ProductStock.stock_status q))
    as Hl by (intros q Hq; apply H; now right).
  specialize (IH Hl).
  destruct (H p (or_introl eq_refl)) as [-> | ->]; simpl; lia.
Qed.

(** X17.  The counters of the dashboard.  In stock and out of stock never add
    up to more than the total, and add up to it when every row has one of
    the two statuses; a missing response counts as an empty list.  Run for
    a seller's session against a table that satisfies the CHECK, the two
    counters add up to the number of the seller's rows, the order counter
    is the number of the seller's orders, and both progress flags end
    off. *)
Theorem dashboard_counters :
  (forall (productsData : option (list ProductStock.t))
          (ordersData : option (list OrderTotal.t)),
      let st := DashboardScreen.loadStats_stats zero add parseFloat
                  productsData ordersData in
      let products := match productsData with Some l => l | None => [] end in
      DashboardScreen.totalProducts st = List.length products
      /\ DashboardScreen.inStock st + DashboardScreen.outOfStock st
         <= DashboardScreen.totalProducts st
      /\ ((forall p, In p products ->
                     valid_stock_status (ProductStock.stock_status p)) ->
          DashboardScreen.inStock st + DashboardScreen.outOfStock st
          = DashboardScreen.totalProducts st))
  /\
  (forall (gw : forall X, auth X -> X) (cx : Db.ctx) (d : Db.t)
          (u : User.t) (st s : DashboardScreen.state number),
      Db.uid cx = Some (User.id u) ->
      stock_ok d ->
      let o := run (Db.remote gw cx)
                   (DashboardScreen.loadStats zero add parseFloat (Some u) st)
                   s d in
      let shown := DashboardScreen.stats (view o) in
      DashboardScreen.inStock shown + DashboardScreen.outOfStock shown
      = DashboardScreen.totalProducts shown
      /\ DashboardScreen.totalProducts shown
         = List.length (filter (fun r => SellerProductRow.seller_id r
                                         =? User.id u)
                               (Db.seller_products d))
      /\ DashboardScreen.totalOrders shown
         = List.length (orders_of (User.id u) d)
      /\ DashboardScreen.loading (view o) = false
      /\ DashboardScreen.refreshing (view o) = false
      /\ world o = d).
Proof.
  split.
  - intros productsData ordersData st products. subst st products.
    split; [reflexivity|]. split.
    + apply stock_counts_le.
    + apply stock_counts_eq.
  - intros gw cx d u st s Hu Hok o shown. subst shown o.
    cbn -[Db.select_total_amount_status Db.select_stock_status
          DashboardScreen.loadStats_stats].
    rewrite (select_own_orders cx (User.id u) d Hu).
    assert (forall A (seller_id : A -> uuid) (l : list A),
               filter (fun r => Db.owns cx (seller_id r)
                                && (seller_id r =? User.id u)) l
               = filter (fun r => seller_id r =? User.id u) l) as Hown.
    { intros A f l. apply filter_ext. intros r. unfold Db.owns.
      rewrite Hu, String.eqb_sym. apply andb_diag. }
    unfold Db.select_stock_status. rewrite Hown.
    set (mine := filter _ (Db.seller_products d)).
    split.
    { apply stock_counts_eq. intros p Hp. apply in_map_iff in Hp.
      destruct Hp as (r & <- & Hr). simpl. apply Hok.
      apply filter_In in Hr. tauto. }
    split; [simpl; apply length_map|].
    split; [reflexivity|]. repeat split.
Qed.

End Counters.

Lemma dashboard_counters_witness :
  (let st := DashboardScreen.loadStats_stats
               0%Z Z.add (fun a : Z => a)
               (Some [ {| ProductStock.stock_status := "available" |};
                       {| ProductStock.stock_status := "out_of_stock" |} ])
               None in
   DashboardScreen.inStock st + DashboardScreen.outOfStock st
   = DashboardScreen.totalProducts st)
  /\
  let o := run (Db.remote Sample.gw Sample.cx)
               (DashboardScreen.loadStats 0%Z Z.add (fun a : Z => a)
                                          (Some Sample.seller)
                                          Sample.dashboard)
               Sample.dashboard Sample.db in
  DashboardScreen.inStock (DashboardScreen.stats (view o))
  + DashboardScreen.outOfStock (DashboardScreen.stats (view o))
  = DashboardScreen.totalProducts (DashboardScreen.stats (view o))
  /\ DashboardScreen.loading (view o) = false.
Proof.
  destruct (dashboard_counters Z 0%Z Z.add (fun a : Z => a)) as [H0 H].
  split.
  { destruct (H0 (Some [ {| ProductStock.stock_status := "available" |};
                         {| ProductStock.stock_status := "out_of_stock" |} ])
                 None) as (_ & _ & Heq).
    apply Heq. intros p [<-|[<-|[]]]; [left | right]; reflexivity. }
  destruct (H Sample.gw Sample.cx Sample.db Sample.seller Sample.dashboard
              Sample.dashboard eq_refl sample_db_stock_ok)
    as (Hsum & _ & _ & Hl & _).
  split; [exact Hsum | exact Hl].
Defined.

(** ** Profile edits *)

(** X18.  Saving the profile.  Without a user or without an edited profile the
    handler does nothing.  Otherwise the view takes the edited profile and
    leaves edit mode when the remote reports no error, and stays exactly
    as it was (still editing, old profile shown) when it reports one.
    Against the schema a second save of the same edit changes neither the
    table nor the view. *)
Theorem handleSave_view_and_repeat :
  (forall (W : Type) (remote : forall X, call X -> W -> X * W) (w : W)
          (user : option User.t) (st s : ProfileScreen.state),
      user = None \/ ProfileScreen.editedProfile st = None ->
      let o := run remote (ProfileScreen.handleSave user st) s w in
      calls o = [] /\ navs o = [] /\ view o = s /\ world o = w)
  /\
  (forall (W : Type) (remote : forall X, call X -> W -> X * W) (w : W)
          (u : User.t) (st s : ProfileScreen.state)
          (edited : ProfileScreen.SellerProfile.t),
      ProfileScreen.editedProfile st = Some edited ->
      let o := run remote (ProfileScreen.handleSave (Some u) st) s w in
      match answer remote
                   (Storage (sellers_update (save_patch edited) (User.id u)))
                   w with
      | None =>
          view o = {| ProfileScreen.profile := Some edited;
                      ProfileScreen.loading := ProfileScreen.loading s;
                      ProfileScreen.editing := false;
                      ProfileScreen.editedProfile :=
                        ProfileScreen.editedProfile s |}
      | Some _ => view o = s
      end)
  /\
  (forall (gw : forall X, auth X -> X) (cx : Db.ctx) (d : Db.t)
          (u : User.t) (st : ProfileScreen.state)
          (edited : ProfileScreen.SellerProfile.t),
      ProfileScreen.editedProfile st = Some edited ->
      let save st d :=
        run (Db.remote gw cx) (ProfileScreen.handleSave (Some u) st) st d in
      let o1 := save st d in
      let o2 := save (view o1) (world o1) in
      view o2 = view o1 /\ world o2 = world o1).
Proof.
  split; [|split].
  - intros W remote w user st s H o. subst o.
    unfold ProfileScreen.handleSave.
    destruct user as [u|]; [|simpl; repeat split].
    destruct H as [H|H]; [discriminate|]. rewrite H. simpl. repeat split.
  - intros W remote w u st s edited He o. subst o.
    unfold ProfileScreen.handleSave. rewrite He. unfold save_patch.
    simpl. ask_remote. now destruct o.
  - intros gw cx d u st edited He save o1 o2.
    assert (forall st d,
               ProfileScreen.editedProfile st = Some edited ->
               save st d
               = {| view :=
                      {| ProfileScreen.profile := Some edited;
                         ProfileScreen.loading := ProfileScreen.loading st;
                         ProfileScreen.editing := false;
                         ProfileScreen.editedProfile := Some edited |};
                    world :=
                      snd (Db.update_seller cx (save_patch edited)
                                            (User.id u) d);
                    calls := [log (Storage (sellers_update (save_patch edited)
                                                           (User.id u)))];
                    navs := [] |}) as Hrun.
    { intros st0 d0 He0. unfold save, ProfileScreen.handleSave.
      rewrite He0. simpl. rewrite He0. reflexivity. }
    subst o2 o1. rewrite (Hrun st d He). cbn [view world].
    rewrite Hrun by reflexivity. cbn [view world]. split; [reflexivity|].
    unfold Db.update_seller. simpl. f_equal. rewrite map_map.
    apply map_ext. intros r.
    destruct (Db.owns cx (SellerRow.id r) && (SellerRow.id r =? User.id u))
      eqn:E; simpl; rewrite E; reflexivity.
Qed.

Lemma handleSave_view_and_repeat_witness :
  (let o := run Sample.offline
                (ProfileScreen.handleSave None Sample.profile_view)
                Sample.profile_view Sample.db in
   calls o = [] /\ view o = Sample.profile_view)
  /\
  (let save st d :=
     run (Db.remote Sample.gw Sample.cx)
         (ProfileScreen.handleSave (Some Sample.seller) st) st d in
   let o1 := save Sample.profile_view Sample.db in
   let o2 := save (view o1) (world o1) in
   ProfileScreen.editing (view o1) = false
   /\ view o2 = view o1 /\ world o2 = world o1).
Proof.
  destruct handleSave_view_and_repeat as (Hnone & Hview & Htwice).
  split.
  - destruct (Hnone Db.t Sample.offline Sample.db None Sample.profile_view
                    Sample.profile_view (or_introl eq_refl))
      as (Hc & _ & Hv & _).
    split; [exact Hc | exact Hv].
  - intros save o1 o2.
    pose proof (Hview Db.t (Db.remote Sample.gw Sample.cx) Sample.db
                      Sample.seller Sample.profile_view Sample.profile_view
                      Sample.edited eq_refl) as Hv.
    destruct (Htwice Sample.gw Sample.cx Sample.db Sample.seller
                     Sample.profile_view Sample.edited eq_refl) as [H1 H2].
    split; [|split; [exact H1 | exact H2]].
    simpl in Hv. exact (f_equal ProfileScreen.editing Hv).
Defined.

(** ** Search, badges and the stock switch *)

Lemma filter_map_commute {A : Type} (p : A -> bool) (f : A -> A)
      (l : list A) :
  (forall x, p (f x) = p x) -> filter p (map f l) = map f (filter p l).
Proof.
  intros H. induction l as [|x l IH]; simpl; [reflexivity|].
  rewrite H. destruct (p x); simpl; now rewrite IH.
Qed.

(** X19.  Searching and adding do not interfere: the products that match a
    query are the same before and after a product is marked as added, so
    the filtered list after a successful add is the former filtered list
    with that product marked.  Two queries with the same lowercase form
    select the same products. *)
Theorem search_ignores_added_mark :
  forall (toLowerCase : string -> string),
    (forall (W : Type) (remote : forall X, call X -> W -> X * W) (w : W)
            (u : User.t) (st s : CatalogScreen.state)
            (productId searchQuery : string),
        let c := Storage (seller_products_insert
                   {| SellerProductInsert.seller_id := User.id u;
                      SellerProductInsert.product_id := productId;
                      SellerProductInsert.stock_status := "available" |}) in
        let o := run remote (CatalogScreen.addProduct (Some u) st productId)
                     s w in
        answer remote c w = None ->
        CatalogScreen.filteredProducts toLowerCase
          (CatalogScreen.products (view o)) searchQuery
        = map (fun p => if Js.strict_eq (CatalogScreen.Product.id p) productId
                        then CatalogScreen.Product.with_is_added true p
                        else p)
              (CatalogScreen.filteredProducts toLowerCase
                 (CatalogScreen.products st) searchQuery))
    /\
    (forall (products : list CatalogScreen.Product.t) (q1 q2 : string),
        toLowerCase q1 = toLowerCase q2 ->
        CatalogScreen.filteredProducts toLowerCase products q1
        = CatalogScreen.filteredProducts toLowerCase products q2).
Proof.
  intros toLowerCase. split.
  - intros W remote w u st s productId searchQuery c o Ha. subst o.
    destruct (addProduct_run W remote w u st s productId)
      as (_ & _ & _ & Hv).
    fold c in Hv. rewrite Ha in Hv. rewrite Hv. simpl.
    unfold CatalogScreen.filteredProducts. apply filter_map_commute.
    intros x. now destruct (Js.strict_eq (CatalogScreen.Product.id x)
                                         productId).
  - intros products q1 q2 H. unfold CatalogScreen.filteredProducts.
    now rewrite H.
Qed.

Lemma search_ignores_added_mark_witness :
  let o := run (Db.remote Sample.gw Sample.cx)
               (CatalogScreen.addProduct (Some Sample.seller) Sample.catalog
                                         "prod-mat")
               Sample.catalog Sample.db in
  CatalogScreen.filteredProducts Sample.toLowerCase
    (CatalogScreen.products (view o)) "YOGA"
  = [CatalogScreen.Product.with_is_added true Sample.catalog_mat]
  /\ CatalogScreen.filteredProducts Sample.toLowerCase
       [Sample.catalog_tea; Sample.catalog_mat] "YOGA"
     = CatalogScreen.filteredProducts Sample.toLowerCase
         [Sample.catalog_tea; Sample.catalog_mat] "yoga".
Proof.
  destruct (search_ignores_added_mark Sample.toLowerCase) as [Hadd Hq].
  split.
  - rewrite (Hadd Db.t (Db.remote Sample.gw Sample.cx) Sample.db
                  Sample.seller Sample.catalog Sample.catalog
                  "prod-mat" "YOGA" eq_refl).
    reflexivity.
  - apply Hq. reflexivity.
Defined.

(** X20.  The badge of an order.  A status the schema admits gets the colour
    and the label of its entry in the status list, and the five colours
    are pairwise different; any other status gets the grey fallback, which
    is none of the five, and is shown as it is stored.  The colour is
    never empty. *)
Theorem status_badge :
  (forall target, In target OrdersScreen.STATUS_OPTIONS ->
     OrdersScreen.getStatusColor (OrdersScreen.StatusOption.value target)
     = OrdersScreen.StatusOption.color target
     /\ forall item,
          OrdersScreen.Order.status item
          = OrdersScreen.StatusOption.value target ->
          OrdersScreen.statusText item = OrdersScreen.StatusOption.label target)
  /\ (forall s1 s2, valid_status s1 -> valid_status s2 ->
        OrdersScreen.getStatusColor s1 = OrdersScreen.getStatusColor s2 ->
        s1 = s2)
  /\ (forall s, ~ valid_status s ->
        OrdersScreen.getStatusColor s = "#6b7280"
        /\ forall item, OrdersScreen.Order.status item = s ->
                        OrdersScreen.statusText item = s)
  /\ (forall s, valid_status s -> OrdersScreen.getStatusColor s <> "#6b7280")
  /\ (forall s, OrdersScreen.getStatusColor s <> "").
Proof.
  assert (forall s, ~ valid_status s -> OrdersScreen.findStatus s = None)
    as Hnone.
  { intros s H. unfold OrdersScreen.findStatus.
    destruct (find _ OrdersScreen.STATUS_OPTIONS) as [x|] eqn:E;
      [|reflexivity].
    apply find_some in E. destruct E as [Hx E].
    apply String.eqb_eq in E. subst s. exfalso. apply H.
    apply status_check_valid. now apply status_options_pass_check. }
  split; [|split; [|split; [|split]]].
  - intros target Ht. simpl in Ht.
    destruct Ht as [<-|[<-|[<-|[<-|[<-|[]]]]]];
      (split; [reflexivity|]); intros item Hi;
      unfold OrdersScreen.statusText; rewrite Hi; reflexivity.
  - intros s1 s2 H1 H2.
    destruct H1 as [->|[->|[->|[->| ->]]]];
      destruct H2 as [->|[->|[->|[->| ->]]]];
      intros H; try reflexivity; discriminate H.
  - intros s H. unfold OrdersScreen.getStatusColor, OrdersScreen.statusText.
    split; [now rewrite (Hnone s H)|]. intros item ->.
    now rewrite (Hnone _ H).
  - intros s [->|[->|[->|[->| ->]]]]; discriminate.
  - intros s. unfold OrdersScreen.getStatusColor.
    destruct (OrdersScreen.findStatus s);
      [apply or_else_nonempty|]; discriminate.
Qed.

Lemma status_badge_witness :
  OrdersScreen.getStatusColor "delivered" = "#10b981"
  /\ OrdersScreen.statusText Sample.order_view = "Delivered"
  /\ OrdersScreen.getStatusColor "returned" = "#6b7280".
Proof.
  destruct status_badge as (Hknown & _ & Hother & _).
  destruct (Hknown {| OrdersScreen.StatusOption.value := "delivered";
                      OrdersScreen.StatusOption.label := "Delivered";
                      OrdersScreen.StatusOption.color := "#10b981" |})
    as [Hc Hl].
  { simpl. auto 10. }
  destruct (Hother "returned") as [Hf _].
  { intros [H|[H|[H|[H|H]]]]; discriminate H. }
  split; [exact Hc | split; [apply Hl; reflexivity | exact Hf]].
Defined.

(** X21.  The stock switch against the schema is never refused, whatever status
    the view held for the item: the status it sends is always one of the
    two the CHECK admits.  After it, the items of the view with that id and
    the rows of the table the session reaches under that id carry the same
    status, even when view and table disagreed before. *)
Theorem toggleStock_resynchronises :
  forall (gw : forall X, auth X -> X) (c : Db.ctx) (d : Db.t)
         (st s : MyProductsScreen.state) (productId currentStatus : string),
    let sent := MyProductsScreen.newStatus currentStatus in
    let o := run (Db.remote gw c)
                 (MyProductsScreen.toggleStock st productId currentStatus)
                 s d in
    answer (Db.remote gw c)
           (Storage (seller_products_update sent productId)) d = None
    /\ valid_stock_status sent
    /\ (forall p, In p (MyProductsScreen.products (view o)) ->
                  MyProductsScreen.SellerProduct.id p = productId ->
                  MyProductsScreen.SellerProduct.stock_status p = sent)
    /\ (forall r, In r (Db.seller_products (world o)) ->
                  Db.reaches_seller_product c productId r = true ->
                  SellerProductRow.stock_status r = sent).
Proof.
  intros gw c d st s productId currentStatus sent o. subst o.
  rewrite toggleStock_on_schema. cbn [view world]. fold sent.
  assert (Db.stock_status_check sent = true) as Hc.
  { apply stock_status_check_valid, newStatus_valid. }
  split.
  { unfold answer. simpl. unfold Db.update_seller_product.
    now rewrite Hc, andb_false_r. }
  split; [apply newStatus_valid|]. split.
  - intros p Hp Hid. simpl in Hp. apply in_map_iff in Hp.
    destruct Hp as (x & <- & _). unfold Js.strict_eq in *.
    destruct (String.eqb_spec (MyProductsScreen.SellerProduct.id x) productId)
      as [E|E]; [reflexivity | contradiction].
  - intros r Hr Hreach. simpl in Hr. apply in_map_iff in Hr.
    destruct Hr as (x & <- & _).
    destruct (Db.reaches_seller_product c productId x) eqn:E;
      [reflexivity | congruence].
Qed.

Lemma toggleStock_resynchronises_witness :
  let stale :=
    Db.with_seller_products
      [Db.set_stock_status "out_of_stock" Sample.tea_in_shop] Sample.db in
  let o := run (Db.remote Sample.gw Sample.cx)
               (MyProductsScreen.toggleStock Sample.my_products "sp-1"
                                             "available")
               Sample.my_products stale in
  map MyProductsScreen.SellerProduct.stock_status
      (MyProductsScreen.products (view o)) = ["out_of_stock"]
  /\ map SellerProductRow.stock_status (Db.seller_products (world o))
     = ["out_of_stock"].
Proof.
  intros stale o.
  destruct (toggleStock_resynchronises
              Sample.gw Sample.cx stale Sample.my_products
              Sample.my_products "sp-1" "available") as (_ & _ & Hv & Hw).
  split.
  - exact (f_equal (fun x => [x])
                   (Hv (MyProductsScreen.SellerProduct.with_stock_status
                          "out_of_stock" Sample.my_tea)
                       (or_introl eq_refl) eq_refl)).
  - exact (f_equal (fun x => [x])
                   (Hw (Db.set_stock_status "out_of_stock" Sample.tea_in_shop)
                       (or_introl eq_refl) eq_refl)).
Defined.

(** ** Profile setup *)

Lemma filter_by_key {A : Type} (key : A -> string) (i : string)
      (l : list A) :
  NoDup (map key l) ->
  forall r, In r l -> key r = i -> filter (fun x => key x =? i) l = [r].
Proof.
  induction l as [|x l IH]; intros Hn r Hr Hk; [destruct Hr|].
  simpl in *. inversion Hn as [|? ? Hx Hl]; subst.
  destruct Hr as [->|Hr].
  - rewrite String.eqb_refl. f_equal.
    clear IH Hn Hl. induction l as [|y l IH]; [reflexivity|]. simpl.
    destruct (String.eqb_spec (key y) (key r)) as [E|E].
    + exfalso. apply Hx. left. exact E.
    + apply IH. intros H. apply Hx. now right.
  - destruct (String.eqb_spec (key x) (key r)) as [E|E].
    + exfalso. apply Hx. rewrite E. now apply in_map.
    + now apply IH.
Qed.

Lemma filter_by_key_none {A : Type} (key : A -> string) (i : string)
      (l : list A) :
  (forall r, In r l -> key r <> i) -> filter (fun x => key x =? i) l = [].
Proof.
  induction l as [|x l IH]; intros H; [reflexivity|]. simpl.
  assert ((key x =? i) = false) as ->
      by (apply String.eqb_neq, H; now left).
  apply IH. intros r Hr. apply H. now right.
Qed.

Lemma filter_own_key {A : Type} (key : A -> string) (c : Db.ctx) (i : string)
      (l : list A) :
  Db.uid c = Some i ->
  filter (fun x => Db.owns c (key x) && (key x =? i)) l
  = filter (fun x => key x =? i) l.
Proof.
  intros Hu. apply filter_ext. intros x. unfold Db.owns.
  rewrite Hu, String.eqb_sym. apply andb_diag.
Qed.

(** X22.  Profile setup stops at the form when one of the four required fields
    is empty, whoever the user is and whatever the tax id field holds, and
    when nobody is signed in: no request is sent, the remote is as it was,
    nothing is navigated to. *)
Theorem handleSetup_rejected_locally :
  forall (W : Type) (remote : forall X, request X -> W -> X * W) (w : W)
         (user : option User.t) (st s : ProfileSetupScreen.state),
    let o := perform remote (ProfileSetupScreen.handleSetup user st) s w in
    (ProfileSetupScreen.shopName st = ""
     \/ ProfileSetupScreen.ownerName st = ""
     \/ ProfileSetupScreen.phone st = ""
     \/ ProfileSetupScreen.address st = "" ->
     requests o = [] /\ routes o = [] /\ remote_state o = w
     /\ shown o = ProfileSetupScreen.with_error
                    "Please fill in all required fields" s)
    /\
    (ProfileSetupScreen.shopName st <> "" ->
     ProfileSetupScreen.ownerName st <> "" ->
     ProfileSetupScreen.phone st <> "" ->
     ProfileSetupScreen.address st <> "" ->
     user = None ->
     requests o = [] /\ routes o = [] /\ remote_state o = w
     /\ shown o = ProfileSetupScreen.with_error "User not authenticated" s).
Proof.
  intros W remote w user st s o. subst o.
  unfold ProfileSetupScreen.handleSetup. split.
  - intros H.
    assert (negb (Js.truthy (ProfileSetupScreen.shopName st))
            || negb (Js.truthy (ProfileSetupScreen.ownerName st))
            || negb (Js.truthy (ProfileSetupScreen.phone st))
            || negb (Js.truthy (ProfileSetupScreen.address st)) = true)
      as ->.
    { destruct H as [-> | [-> | [-> | ->]]]; simpl;
        rewrite ?orb_true_r; reflexivity. }
    simpl. repeat split.
  - intros H1 H2 H3 H4 ->.
    rewrite (truthy_true _ H1), (truthy_true _ H2), (truthy_true _ H3),
      (truthy_true _ H4).
    simpl. repeat split.
Qed.

Lemma handleSetup_rejected_locally_witness :
  let blank :=
    {| ProfileSetupScreen.shopName := "Kiran Crafts";
       ProfileSetupScreen.ownerName := "Kiran";
       ProfileSetupScreen.phone := "";
       ProfileSetupScreen.address := "5 River Lane";
       ProfileSetupScreen.gstNumber := "GST9";
       ProfileSetupScreen.error := "";
       ProfileSetupScreen.loading := false |} in
  requests (perform Sample.unreachable
              (ProfileSetupScreen.handleSetup (Some Sample.newcomer) blank)
              blank Sample.db) = []
  /\ ProfileSetupScreen.error
       (shown (perform Sample.unreachable
                 (ProfileSetupScreen.handleSetup None Sample.setup_form)
                 Sample.setup_form Sample.db))
     = "User not authenticated".
Proof.
  intros blank. split.
  - destruct (handleSetup_rejected_locally
                Db.t Sample.unreachable Sample.db (Some Sample.newcomer)
                blank blank) as [H _].
    destruct H as (Hr & _); [right; right; left; reflexivity | exact Hr].
  - destruct (handleSetup_rejected_locally
                Db.t Sample.unreachable Sample.db None
                Sample.setup_form Sample.setup_form) as [_ H].
    destruct H as (_ & _ & _ & Hs);
      [discriminate | discriminate | discriminate | discriminate
      | reflexivity
      | exact (f_equal ProfileSetupScreen.error Hs)].
Defined.

Lemma handleSetup_perform :
  forall (W : Type) (remote : forall X, request X -> W -> X * W) (w : W)
         (u : User.t) (st s : ProfileSetupScreen.state),
    ProfileSetupScreen.shopName st <> "" ->
    ProfileSetupScreen.ownerName st <> "" ->
    ProfileSetupScreen.phone st <> "" ->
    ProfileSetupScreen.address st <> "" ->
    let q := Further (sellers_insert (ProfileSetupScreen.setup_row u st)) in
    let o := perform remote (ProfileSetupScreen.handleSetup (Some u) st)
                     s w in
    requests o = [note q]
    /\ remote_state o = snd (remote _ q w)
    /\ ProfileSetupScreen.loading (shown o) = false
    /\ match fst (remote _ q w) with
       | None => routes o = [replace "/(tabs)"]
                 /\ ProfileSetupScreen.error (shown o) = ""
       | Some e => routes o = []
                   /\ ProfileSetupScreen.error (shown o) <> ""
       end.
Proof.
  intros W remote w u st s H1 H2 H3 H4 q o. subst o q.
  unfold ProfileSetupScreen.handleSetup.
  rewrite (truthy_true _ H1), (truthy_true _ H2), (truthy_true _ H3),
    (truthy_true _ H4).
  simpl.
  destruct (remote _ (Further (sellers_insert
                                 (ProfileSetupScreen.setup_row u st))) w)
    as [[e|] w']; simpl; repeat split.
  apply or_else_nonempty. discriminate.
Qed.

(** X23.  Profile setup against the schema, for the session of the user and a
    form with the four required fields.  When the table has no row for the
    user, the insert is accepted: one row is appended that carries the
    fields of the form, the id of the user, no tax id for an empty tax id
    field and the verified flag off, and the handler asks for the tabs.
    When a row for the user exists, the insert is refused: the table is
    unchanged, nothing is navigated to and a non-empty message is
    shown. *)
Theorem handleSetup_on_schema :
  forall (gw : forall X, auth X -> X) (cx : Db.ctx) (d : Db.t)
         (u : User.t) (st s : ProfileSetupScreen.state),
    Db.uid cx = Some (User.id u) ->
    ProfileSetupScreen.shopName st <> "" ->
    ProfileSetupScreen.ownerName st <> "" ->
    ProfileSetupScreen.phone st <> "" ->
    ProfileSetupScreen.address st <> "" ->
    let o := perform (Backend.remote gw cx)
                     (ProfileSetupScreen.handleSetup (Some u) st) s d in
    ((forall r, In r (Db.sellers d) -> SellerRow.id r <> User.id u) ->
     routes o = [replace "/(tabs)"]
     /\ ProfileSetupScreen.error (shown o) = ""
     /\ Db.seller_products (remote_state o) = Db.seller_products d
     /\ Db.orders (remote_state o) = Db.orders d
     /\ exists row,
          Db.sellers (remote_state o) = (Db.sellers d ++ [row])%list
          /\ SellerRow.id row = User.id u
          /\ SellerRow.shop_name row = ProfileSetupScreen.shopName st
          /\ SellerRow.owner_name row = ProfileSetupScreen.ownerName st
          /\ SellerRow.phone row = ProfileSetupScreen.phone st
          /\ SellerRow.address row = ProfileSetupScreen.address st
          /\ (ProfileSetupScreen.gstNumber st = "" ->
              SellerRow.gst_number row = None)
          /\ (ProfileSetupScreen.gstNumber st <> "" ->
              SellerRow.gst_number row
              = Some (ProfileSetupScreen.gstNumber st))
          /\ SellerRow.is_verified row = Some false)
    /\
    ((exists r, In r (Db.sellers d) /\ SellerRow.id r = User.id u) ->
     routes o = [] /\ remote_state o = d
     /\ ProfileSetupScreen.error (shown o) <> "").
Proof.
  intros gw cx d u st s Hu H1 H2 H3 H4 o.
  destruct (handleSetup_perform _ (Backend.remote gw cx) d u st s
                                H1 H2 H3 H4) as (_ & Hw & _ & Hm).
  fold o in Hw, Hm. cbn [Backend.remote Backend.exec] in Hw, Hm.
  assert (Db.owns cx (SellerInsert.id (ProfileSetupScreen.setup_row u st))
          = true) as Hown.
  { unfold Db.owns. rewrite Hu. apply String.eqb_refl. }
  split.
  - intros Hnone.
    assert (existsb (fun x => SellerRow.id x =? User.id u) (Db.sellers d)
            = false) as Hex.
    { destruct (existsb _ _) eqn:E; [|reflexivity].
      apply existsb_exists in E. destruct E as (x & Hx & E).
      apply String.eqb_eq in E. now elim (Hnone x Hx). }
    unfold Backend.insert_seller in Hw, Hm. rewrite Hown in Hw, Hm.
    cbn [negb SellerInsert.id ProfileSetupScreen.setup_row] in Hw, Hm.
    rewrite Hex in Hw, Hm. cbn [fst snd] in Hw, Hm.
    destruct Hm as [Hr He]. rewrite Hw.
    split; [exact Hr|]. split; [exact He|]. repeat (split; [reflexivity|]).
    eexists. split; [reflexivity|]. cbn.
    repeat (split; [reflexivity|]). split; [|split; [|reflexivity]].
    + now intros ->.
    + intros Hg. now rewrite (truthy_true _ Hg).
  - intros (r & Hr & Hid).
    assert (existsb (fun x => SellerRow.id x =? User.id u) (Db.sellers d)
            = true) as Hex.
    { apply existsb_exists. exists r. split; [exact Hr|].
      now apply String.eqb_eq. }
    unfold Backend.insert_seller in Hw, Hm. rewrite Hown in Hw, Hm.
    cbn [negb SellerInsert.id ProfileSetupScreen.setup_row] in Hw, Hm.
    rewrite Hex in Hw, Hm. cbn [fst snd] in Hw, Hm.
    destruct Hm as [Hro He]. split; [exact Hro|]. split; assumption.
Qed.

Lemma handleSetup_on_schema_witness :
  (let o := perform (Backend.remote Sample.gw Sample.cx3)
                    (ProfileSetupScreen.handleSetup (Some Sample.newcomer)
                                                    Sample.setup_form)
                    Sample.setup_form Sample.db in
   routes o = [replace "/(tabs)"]
   /\ List.length (Db.sellers (remote_state o)) = 3)
  /\
  (let again :=
     {| ProfileSetupScreen.shopName := "Asha Stores 2";
        ProfileSetupScreen.ownerName := "Asha";
        ProfileSetupScreen.phone := "+911234567890";
        ProfileSetupScreen.address := "12 Market Road";
        ProfileSetupScreen.gstNumber := "GST1";
        ProfileSetupScreen.error := "";
        ProfileSetupScreen.loading := false |} in
   let o := perform (Backend.remote Sample.gw Sample.cx)
                    (ProfileSetupScreen.handleSetup (Some Sample.seller) again)
                    again Sample.db in
   routes o = [] /\ remote_state o = Sample.db).
Proof.
  split.
  - destruct (handleSetup_on_schema
                Sample.gw Sample.cx3 Sample.db Sample.newcomer
                Sample.setup_form Sample.setup_form eq_refl)
      as [H _]; try discriminate.
    destruct H as (Hr & _ & _ & _ & row & Hrows & _).
    + intros r [<-|[<-|[]]]; discriminate.
    + split; [exact Hr|].
      exact (eq_trans (f_equal (@List.length _) Hrows) eq_refl).
  - intros again.
    destruct (handleSetup_on_schema
                Sample.gw Sample.cx Sample.db Sample.seller again again
                eq_refl) as [_ H]; try discriminate.
    destruct H as (Hr & Hw & _).
    + exists Sample.seller_row. split; [left|]; reflexivity.
    + split; [exact Hr | exact Hw].
Defined.

Lemma insert_seller_accepted (c : Db.ctx) (r : SellerInsert.t) (d : Db.t) :
  Db.owns c (SellerInsert.id r) = true ->
  (forall x, In x (Db.sellers d) -> SellerRow.id x <> SellerInsert.id r) ->
  exists row,
    SellerRow.id row = SellerInsert.id r
    /\ Backend.insert_seller c r d
       = (None,
          {| Db.sellers := Db.sellers d ++ [row];
             Db.master_products := Db.master_products d;
             Db.seller_products := Db.seller_products d;
             Db.orders := Db.orders d |}).
Proof.
  intros Ho Hnone. unfold Backend.insert_seller. rewrite Ho. simpl.
  assert (existsb (fun x => SellerRow.id x =? SellerInsert.id r)
                  (Db.sellers d) = false) as ->.
  { destruct (existsb _ _) eqn:E; [|reflexivity].
    apply existsb_exists in E. destruct E as (x & Hx & E).
    apply String.eqb_eq in E. now elim (Hnone x Hx). }
  eexists. split; [|reflexivity]. reflexivity.
Qed.

(** X24.  Setup and entry redirect compose.  For a signed-in user without a
    row, in a sellers table with unique ids, the entry screen sends to
    profile setup; once the setup form has been submitted for that user
    the ids are still unique and the entry screen sends to the tabs. *)
Theorem setup_then_entry :
  forall (gw : forall X, auth X -> X) (cx cx' : Db.ctx) (d : Db.t)
         (u : User.t) (st s : ProfileSetupScreen.state),
    Db.uid cx = Some (User.id u) ->
    Db.uid cx' = Some (User.id u) ->
    ProfileSetupScreen.shopName st <> "" ->
    ProfileSetupScreen.ownerName st <> "" ->
    ProfileSetupScreen.phone st <> "" ->
    ProfileSetupScreen.address st <> "" ->
    NoDup (map SellerRow.id (Db.sellers d)) ->
    (forall r, In r (Db.sellers d) -> SellerRow.id r <> User.id u) ->
    let entry d :=
      navs (run (Db.remote gw cx') (IndexScreen.checkProfile (Some u) false)
                tt d) in
    let o := perform (Backend.remote gw cx)
                     (ProfileSetupScreen.handleSetup (Some u) st) s d in
    entry d = [replace "/(auth)/profile-setup"]
    /\ entry (remote_state o) = [replace "/(tabs)"]
    /\ NoDup (map SellerRow.id (Db.sellers (remote_state o))).
Proof.
  intros gw cx cx' d u st s Hu Hu' H1 H2 H3 H4 Hnd Hnone entry o.
  assert (forall d0, entry d0
                     = match filter (fun r => SellerRow.id r =? User.id u)
                                    (Db.sellers d0) with
                       | [r] => [replace "/(tabs)"]
                       | _ => [replace "/(auth)/profile-setup"]
                       end) as Hentry.
  { intros d0. unfold entry. simpl. unfold Db.select_seller_id.
    rewrite (filter_own_key SellerRow.id cx' (User.id u) _ Hu').
    now destruct (filter _ (Db.sellers d0)) as [|? [|? ?]]. }
  destruct (handleSetup_perform _ (Backend.remote gw cx) d u st s
                                H1 H2 H3 H4) as (_ & Hw & _).
  fold o in Hw. cbn [Backend.remote Backend.exec] in Hw.
  destruct (insert_seller_accepted cx (ProfileSetupScreen.setup_row u st) d)
    as (row & Hid & Hins).
  { unfold Db.owns. rewrite Hu. apply String.eqb_refl. }
  { exact Hnone. }
  rewrite Hins in Hw. simpl in Hw, Hid.
  assert (NoDup (map SellerRow.id (Db.sellers (remote_state o)))) as Hnd'.
  { rewrite Hw. simpl. rewrite map_app. apply NoDup_app; [exact Hnd | |].
    - repeat constructor. intros [].
    - intros i Hi [<-|[]]. apply in_map_iff in Hi.
      destruct Hi as (x & Hx & Hin). rewrite Hid in Hx.
      now apply (Hnone x Hin). }
  split; [|split; [|exact Hnd']].
  - rewrite Hentry. now rewrite (filter_by_key_none _ _ _ Hnone).
  - rewrite Hentry.
    rewrite (filter_by_key SellerRow.id (User.id u) _ Hnd' row);
      [reflexivity | | exact Hid].
    rewrite Hw. simpl. apply in_or_app. right. now left.
Qed.

Lemma setup_then_entry_witness :
  let entry d :=
    navs (run (Db.remote Sample.gw Sample.cx3)
              (IndexScreen.checkProfile (Some Sample.newcomer) false) tt d) in
  let o := perform (Backend.remote Sample.gw Sample.cx3)
                   (ProfileSetupScreen.handleSetup (Some Sample.newcomer)
                                                   Sample.setup_form)
                   Sample.setup_form Sample.db in
  entry Sample.db = [replace "/(auth)/profile-setup"]
  /\ entry (remote_state o) = [replace "/(tabs)"].
Proof.
  intros entry o.
  destruct (setup_then_entry
              Sample.gw Sample.cx3 Sample.cx3 Sample.db Sample.newcomer
              Sample.setup_form Sample.setup_form eq_refl eq_refl)
    as (Hb & Ha & _); try discriminate.
  - repeat constructor; simpl; intuition discriminate.
  - intros r [<-|[<-|[]]]; discriminate.
  - split; [exact Hb | exact Ha].
Defined.

(** X25.  The primary key of sellers holds through every request of either
    kind, and the further requests touch no other table: the loaders only
    read, and profile setup writes to sellers alone. *)
Theorem sellers_primary_key :
  forall (gw : forall X, auth X -> X) (c : Db.ctx) (X : Type)
         (r : request X) (d : Db.t),
    NoDup (map SellerRow.id (Db.sellers d)) ->
    NoDup (map SellerRow.id (Db.sellers (snd (Backend.remote gw c r d))))
    /\ match r with
       | Known _ => True
       | Further _ =>
           Db.master_products (snd (Backend.remote gw c r d))
           = Db.master_products d
           /\ Db.seller_products (snd (Backend.remote gw c r d))
              = Db.seller_products d
           /\ Db.orders (snd (Backend.remote gw c r d)) = Db.orders d
       end.
Proof.
  intros gw c X r d Hnd. destruct r as [[a|q]|q]; simpl.
  - split; [exact Hnd | exact I].
  - split; [|exact I]. destruct q; simpl; try exact Hnd.
    + rewrite map_map_same; [exact Hnd|]. intros x.
      now destruct (Db.owns c (SellerRow.id x) && (SellerRow.id x =? id)).
    + unfold Db.insert_seller_product.
      repeat match goal with
             | |- context [if ?b then _ else _] => destruct b
             end; exact Hnd.
    + unfold Db.update_seller_product.
      destruct (existsb _ _ && _); exact Hnd.
    + unfold Db.update_order. destruct (existsb _ _ && _); exact Hnd.
  - destruct q; simpl; try (split; [exact Hnd | repeat split]).
    unfold Backend.insert_seller.
    destruct (negb (Db.owns c _)); [split; [exact Hnd | repeat split]|].
    destruct (existsb _ (Db.sellers d)) eqn:E;
      [split; [exact Hnd | repeat split]|].
    simpl. split; [|repeat split].
    rewrite map_app. apply NoDup_app; [exact Hnd | |].
    + repeat constructor. intros [].
    + intros i Hi [<-|[]]. apply in_map_iff in Hi.
      destruct Hi as (x & Hx & Hin).
      assert (existsb (fun s => SellerRow.id s =? SellerInsert.id row)
                      (Db.sellers d) = true) as Ht.
      { apply existsb_exists. exists x. split; [exact Hin|].
        now apply String.eqb_eq. }
      congruence.
Qed.

Lemma sellers_primary_key_witness :
  NoDup (map SellerRow.id
             (Db.sellers
                (snd (Backend.remote Sample.gw Sample.cx3
                        (Further (sellers_insert
                                    (ProfileSetupScreen.setup_row
                                       Sample.newcomer Sample.setup_form)))
                        Sample.db)))).
Proof.
  apply (sellers_primary_key Sample.gw Sample.cx3 _
           (Further (sellers_insert
                       (ProfileSetupScreen.setup_row Sample.newcomer
                                                     Sample.setup_form)))
           Sample.db).
  repeat constructor; simpl; intuition discriminate.
Defined.

(** ** Loading the catalog *)

Lemma loadProducts_perform :
  forall (gw : forall X, auth X -> X) (cx : Db.ctx) (d : Db.t)
         (u : User.t) (st s : CatalogScreen.state),
    perform (Backend.remote gw cx)
            (CatalogLoader.loadProducts (Some u) st) s d
    = {| shown :=
           {| CatalogScreen.products :=
                CatalogLoader.productsWithStatus
                  (Backend.select_active_master cx d)
                  (Backend.select_product_ids cx (User.id u) d);
              CatalogScreen.loading := false;
              CatalogScreen.refreshing := false;
              CatalogScreen.searchQuery := CatalogScreen.searchQuery s |};
         remote_state := d;
         requests :=
           [note (Further master_products_select_active);
            note (Further (seller_products_select_product_id (User.id u)))];
         routes := [] |}.
Proof. reflexivity. Qed.

Lemma has_spec (ids : list uuid) (i : uuid) :
  CatalogLoader.has ids i = true <-> In i ids.
Proof.
  unfold CatalogLoader.has. rewrite existsb_exists. split.
  - intros (x & Hx & E). apply String.eqb_eq in E. now subst.
  - intros H. exists i. split; [exact H | apply String.eqb_refl].
Qed.

(** X26.  Loading the catalog for a seller's session against the schema reads
    without writing and ends both progress flags.  It lists the active
    catalog products in table order, none of the inactive ones, and marks
    a product as added exactly when the table holds a SellerProduct row of
    this seller for it. *)
Theorem loadProducts_on_schema :
  forall (gw : forall X, auth X -> X) (cx : Db.ctx) (d : Db.t)
         (u : User.t) (st s : CatalogScreen.state),
    Db.uid cx = Some (User.id u) ->
    let o := perform (Backend.remote gw cx)
                     (CatalogLoader.loadProducts (Some u) st) s d in
    remote_state o = d
    /\ CatalogScreen.loading (shown o) = false
    /\ CatalogScreen.refreshing (shown o) = false
    /\ map CatalogScreen.Product.id (CatalogScreen.products (shown o))
       = map MasterProductRow.id
             (filter (fun m => Backend.is_true (MasterProductRow.is_active m))
                     (Db.master_products d))
    /\ (forall p, In p (CatalogScreen.products (shown o)) ->
          (CatalogScreen.Product.is_added p = true
           <-> exists r, In r (Db.seller_products d)
                         /\ SellerProductRow.seller_id r = User.id u
                         /\ SellerProductRow.product_id r
                            = CatalogScreen.Product.id p)).
Proof.
  intros gw cx d u st s Hu o. subst o. rewrite loadProducts_perform.
  cbn [shown remote_state CatalogScreen.loading CatalogScreen.refreshing
       CatalogScreen.products].
  repeat (split; [reflexivity|]).
  unfold Backend.select_active_master, Backend.select_product_ids.
  rewrite Hu, (filter_own_key SellerProductRow.seller_id cx (User.id u) _ Hu).
  unfold CatalogLoader.productsWithStatus. split.
  - rewrite map_map. simpl.
    assert (forall l, filter (fun m => Backend.is_true
                                         (MasterProductRow.is_active m)
                                       && Backend.is_true
                                            (MasterProductRow.is_active m)) l
                      = filter (fun m => Backend.is_true
                                           (MasterProductRow.is_active m)) l)
      as -> by (intros l; apply filter_ext; intros m; apply andb_diag).
    reflexivity.
  - intros p Hp. apply in_map_iff in Hp. destruct Hp as (m & <- & _).
    simpl. rewrite has_spec, in_map_iff. split.
    + intros (r & Hr & Hin). apply filter_In in Hin.
      destruct Hin as [Hin E]. apply String.eqb_eq in E. now exists r.
    + intros (r & Hin & Hs & Hp). exists r. split; [exact Hp|].
      apply filter_In. split; [exact Hin | now apply String.eqb_eq].
Qed.

Lemma loadProducts_on_schema_witness :
  let o := perform (Backend.remote Sample.gw Sample.cx)
                   (CatalogLoader.loadProducts (Some Sample.seller)
                                               Sample.catalog)
                   Sample.catalog Sample.db in
  map CatalogScreen.Product.id (CatalogScreen.products (shown o))
  = ["prod-tea"; "prod-mat"]
  /\ map CatalogScreen.Product.is_added (CatalogScreen.products (shown o))
     = [true; false].
Proof.
  intros o.
  destruct (loadProducts_on_schema Sample.gw Sample.cx Sample.db
              Sample.seller Sample.catalog Sample.catalog eq_refl)
    as (_ & _ & _ & Hids & Hadded).
  split; [exact Hids|].
  pose proof (Hadded (CatalogLoader.withStatus true Sample.tea)
                     (or_introl eq_refl)) as Htea.
  exact (f_equal (fun b => [b; false])
                 (proj2 Htea (ex_intro _ Sample.tea_in_shop
                                (conj (or_introl eq_refl)
                                      (conj eq_refl eq_refl))))).
Defined.

(** X27.  The mark set by a successful add is the one a reload would set: when
    the view shows what the loader produced from the table, and the add
    is accepted, loading again from the new table gives exactly the list
    the handler has put in the view. *)
Theorem reload_agrees_with_add :
  forall (gw : forall X, auth X -> X) (c1 c2 : Db.ctx) (d : Db.t)
         (u : User.t) (st0 s0 st : CatalogScreen.state) (productId : string),
    Db.uid c1 = Some (User.id u) ->
    Db.uid c2 = Some (User.id u) ->
    let loaded d :=
      CatalogScreen.products
        (shown (perform (Backend.remote gw c2)
                        (CatalogLoader.loadProducts (Some u) st0) s0 d)) in
    CatalogScreen.products st = loaded d ->
    let c := Storage (seller_products_insert
               {| SellerProductInsert.seller_id := User.id u;
                  SellerProductInsert.product_id := productId;
                  SellerProductInsert.stock_status := "available" |}) in
    let o := run (Db.remote gw c1)
                 (CatalogScreen.addProduct (Some u) st productId) st d in
    answer (Db.remote gw c1) c d = None ->
    loaded (world o) = CatalogScreen.products (view o).
Proof.
  intros gw c1 c2 d u st0 s0 st productId Hu1 Hu2 loaded Hst c o Ha.
  set (r := {| SellerProductInsert.seller_id := User.id u;
               SellerProductInsert.product_id := productId;
               SellerProductInsert.stock_status := "available" |}) in *.
  assert (forall d0, loaded d0
                     = CatalogLoader.productsWithStatus
                         (Backend.select_active_master c2 d0)
                         (Backend.select_product_ids c2 (User.id u) d0))
    as Hloaded.
  { intros d0. unfold loaded. now rewrite loadProducts_perform. }
  destruct (addProduct_run _ (Db.remote gw c1) d u st st productId)
    as (_ & _ & Hw & Hv).
  fold r c o in Hw, Hv. rewrite Ha in Hv.
  assert (world o = snd (Db.insert_seller_product c1 r d)) as Hw' by exact Hw.
  assert (fst (Db.insert_seller_product c1 r d) = None) as Ha' by exact Ha.
  pose proof (insert_seller_product_accepted c1 r d Ha') as Hrows.
  assert (Db.master_products (world o) = Db.master_products d) as Hm.
  { rewrite Hw'. unfold Db.insert_seller_product.
    repeat match goal with
           | |- context [if ?b then _ else _] => destruct b
           end; reflexivity. }
  rewrite Hv. cbn [CatalogScreen.products]. rewrite Hst, !Hloaded.
  unfold Backend.select_active_master, Backend.select_product_ids.
  rewrite Hu2, Hm.
  rewrite !(filter_own_key SellerProductRow.seller_id c2 (User.id u) _ Hu2).
  rewrite Hw', Hrows, filter_app, map_app. simpl.
  rewrite String.eqb_refl. simpl.
  unfold CatalogLoader.productsWithStatus. rewrite map_map.
  apply map_ext. intros m. simpl. unfold Js.strict_eq, CatalogLoader.has.
  rewrite existsb_app. simpl. rewrite orb_false_r.
  destruct (String.eqb_spec (MasterProductRow.id m) productId) as [E|E].
  - rewrite E, String.eqb_refl, orb_true_r. reflexivity.
  - rewrite String.eqb_sym. apply String.eqb_neq in E. rewrite E.
    now rewrite orb_false_r.
Qed.

Lemma reload_agrees_with_add_witness :
  let loaded d :=
    CatalogScreen.products
      (shown (perform (Backend.remote Sample.gw Sample.cx)
                      (CatalogLoader.loadProducts (Some Sample.seller)
                                                  Sample.catalog)
                      Sample.catalog d)) in
  let st :=
    {| CatalogScreen.products := loaded Sample.db;
       CatalogScreen.loading := false; CatalogScreen.refreshing := false;
       CatalogScreen.searchQuery := "" |} in
  let o := run (Db.remote Sample.gw Sample.cx)
               (CatalogScreen.addProduct (Some Sample.seller) st "prod-mat")
               st Sample.db in
  loaded (world o) = CatalogScreen.products (view o).
Proof.
  intros loaded st o.
  apply (reload_agrees_with_add
           Sample.gw Sample.cx Sample.cx Sample.db Sample.seller
           Sample.catalog Sample.catalog st "prod-mat");
    reflexivity.
Defined.

(** ** Loading the profile *)

Lemma loadProfile_perform :
  forall (gw : forall X, auth X -> X) (cx : Db.ctx) (d : Db.t)
         (u : User.t) (st s : ProfileScreen.state),
    perform (Backend.remote gw cx) (ProfileLoader.loadProfile (Some u) st) s d
    = {| shown :=
           match Backend.select_seller cx (User.id u) d with
           | Some row =>
               {| ProfileScreen.profile := Some (ProfileLoader.of_row row);
                  ProfileScreen.loading := false;
                  ProfileScreen.editing := ProfileScreen.editing s;
                  ProfileScreen.editedProfile :=
                    Some (ProfileLoader.of_row row) |}
           | None =>
               {| ProfileScreen.profile := ProfileScreen.profile s;
                  ProfileScreen.loading := false;
                  ProfileScreen.editing := ProfileScreen.editing s;
                  ProfileScreen.editedProfile :=
                    ProfileScreen.editedProfile s |}
           end;
         remote_state := d;
         requests := [note (Further (sellers_select (User.id u)))];
         routes := [] |}.
Proof.
  intros gw cx d u st s. unfold ProfileLoader.loadProfile.
  cbn -[Backend.select_seller].
  now destruct (Backend.select_seller cx (User.id u) d).
Qed.

Lemma select_seller_row (cx : Db.ctx) (i : uuid) (d : Db.t) (r : SellerRow.t) :
  Db.uid cx = Some i ->
  NoDup (map SellerRow.id (Db.sellers d)) ->
  In r (Db.sellers d) -> SellerRow.id r = i ->
  Backend.select_seller cx i d = Some r.
Proof.
  intros Hu Hnd Hr Hid. unfold Backend.select_seller.
  rewrite (filter_own_key SellerRow.id cx i _ Hu).
  now rewrite (filter_by_key SellerRow.id i _ Hnd r Hr Hid).
Qed.

Lemma select_seller_none (cx : Db.ctx) (i : uuid) (d : Db.t) :
  Db.uid cx = Some i ->
  (forall r, In r (Db.sellers d) -> SellerRow.id r <> i) ->
  Backend.select_seller cx i d = None.
Proof.
  intros Hu Hnone. unfold Backend.select_seller.
  rewrite (filter_own_key SellerRow.id cx i _ Hu).
  now rewrite (filter_by_key_none SellerRow.id i _ Hnone).
Qed.

(** X28.  Loading the profile for a user's session against a sellers table with
    unique ids reads without writing and ends [loading].  With a row for
    the user, the shown profile and the edit buffer both become that row,
    and the screen leaves the placeholder.  Without one, profile and edit
    buffer keep their values, so a screen that had no profile goes on
    rendering the placeholder although loading has ended. *)
Theorem loadProfile_on_schema :
  forall (gw : forall X, auth X -> X) (cx : Db.ctx) (d : Db.t)
         (u : User.t) (st s : ProfileScreen.state),
    Db.uid cx = Some (User.id u) ->
    NoDup (map SellerRow.id (Db.sellers d)) ->
    let o := perform (Backend.remote gw cx)
                     (ProfileLoader.loadProfile (Some u) st) s d in
    remote_state o = d
    /\ ProfileScreen.loading (shown o) = false
    /\ (forall r, In r (Db.sellers d) -> SellerRow.id r = User.id u ->
          ProfileScreen.profile (shown o) = Some (ProfileLoader.of_row r)
          /\ ProfileScreen.editedProfile (shown o)
             = Some (ProfileLoader.of_row r)
          /\ ProfileLoader.rendersPlaceholder (shown o) = false)
    /\ ((forall r, In r (Db.sellers d) -> SellerRow.id r <> User.id u) ->
        ProfileScreen.profile (shown o) = ProfileScreen.profile s
        /\ ProfileScreen.editedProfile (shown o)
           = ProfileScreen.editedProfile s
        /\ (ProfileScreen.profile s = None ->
            ProfileLoader.rendersPlaceholder (shown o) = true)).
Proof.
  intros gw cx d u st s Hu Hnd o. subst o. rewrite loadProfile_perform.
  cbn [shown remote_state]. split; [reflexivity|]. split.
  { now destruct (Backend.select_seller cx (User.id u) d). }
  split.
  - intros r Hr Hid. rewrite (select_seller_row cx _ d r Hu Hnd Hr Hid).
    repeat split.
  - intros Hnone. rewrite (select_seller_none cx _ d Hu Hnone).
    repeat split. simpl. unfold ProfileLoader.rendersPlaceholder. simpl.
    now intros ->.
Qed.

Lemma loadProfile_on_schema_witness :
  (let o := perform (Backend.remote Sample.gw Sample.cx)
                    (ProfileLoader.loadProfile (Some Sample.seller)
                                               Sample.profile_blank)
                    Sample.profile_blank Sample.db in
   ProfileScreen.profile (shown o)
   = Some (ProfileLoader.of_row Sample.seller_row))
  /\
  (let o := perform (Backend.remote Sample.gw Sample.cx3)
                    (ProfileLoader.loadProfile (Some Sample.newcomer)
                                               Sample.profile_blank)
                    Sample.profile_blank Sample.db in
   ProfileLoader.rendersPlaceholder (shown o) = true).
Proof.
  assert (NoDup (map SellerRow.id (Db.sellers Sample.db))) as Hnd.
  { repeat constructor; simpl; intuition discriminate. }
  split.
  - destruct (loadProfile_on_schema
                Sample.gw Sample.cx Sample.db Sample.seller
                Sample.profile_blank Sample.profile_blank eq_refl Hnd)
      as (_ & _ & H & _).
    destruct (H Sample.seller_row (or_introl eq_refl) eq_refl) as [Hp _].
    exact Hp.
  - destruct (loadProfile_on_schema
                Sample.gw Sample.cx3 Sample.db Sample.newcomer
                Sample.profile_blank Sample.profile_blank eq_refl Hnd)
      as (_ & _ & _ & H).
    destruct H as (_ & _ & Hph).
    + intros r [<-|[<-|[]]]; discriminate.
    + apply Hph. reflexivity.
Defined.

Lemma patch_with_own_row (r : SellerRow.t) :
  Db.patch_seller (save_patch (ProfileLoader.of_row r)) r = r.
Proof. now destruct r. Qed.

Lemma same_key_same_row {A : Type} (key : A -> string) (l : list A) :
  NoDup (map key l) ->
  forall x y, In x l -> In y l -> key x = key y -> x = y.
Proof.
  induction l as [|a l IH]; intros Hn x y Hx Hy Hk; [destruct Hx|].
  simpl in Hn. inversion Hn as [|? ? Ha Hl]; subst.
  destruct Hx as [->|Hx], Hy as [->|Hy]; try reflexivity.
  - exfalso. apply Ha. rewrite Hk. now apply in_map.
  - exfalso. apply Ha. rewrite <- Hk. now apply in_map.
  - now apply IH.
Qed.

(** X29.  Load and save form a round trip: a profile that is loaded and saved
    without an edit is accepted by the schema and leaves the database
    exactly as it was. *)
Theorem load_then_save_changes_nothing :
  forall (gw : forall X, auth X -> X) (cx : Db.ctx) (d : Db.t)
         (u : User.t) (st s : ProfileScreen.state) (r : SellerRow.t),
    Db.uid cx = Some (User.id u) ->
    NoDup (map SellerRow.id (Db.sellers d)) ->
    In r (Db.sellers d) -> SellerRow.id r = User.id u ->
    let o := perform (Backend.remote gw cx)
                     (ProfileLoader.loadProfile (Some u) st) s d in
    let o' := run (Db.remote gw cx)
                  (ProfileScreen.handleSave (Some u) (shown o)) (shown o)
                  (remote_state o) in
    calls o' = [log (Storage (sellers_update
                                (save_patch (ProfileLoader.of_row r))
                                (User.id u)))]
    /\ world o' = d
    /\ ProfileScreen.profile (view o') = Some (ProfileLoader.of_row r)
    /\ ProfileScreen.editing (view o') = false.
Proof.
  intros gw cx d u st s r Hu Hnd Hr Hid o o'. subst o' o.
  rewrite loadProfile_perform. cbn [shown remote_state].
  rewrite (select_seller_row cx _ d r Hu Hnd Hr Hid).
  set (loaded := {| ProfileScreen.profile := _ |}).
  destruct (handleSave_run _ (Db.remote gw cx) d u loaded loaded
                           (ProfileLoader.of_row r) eq_refl)
    as (Hc & _ & Hw).
  split; [exact Hc|]. split.
  - rewrite Hw. simpl. destruct d as [se mp sp os]. simpl in *. f_equal.
    rewrite <- (map_id se) at 2. apply map_ext_in. intros x Hx.
    destruct (Db.owns cx (SellerRow.id x) && (SellerRow.id x =? User.id u))
      eqn:E; [|reflexivity].
    apply andb_true_iff in E. destruct E as [_ E]. apply String.eqb_eq in E.
    assert (x = r) as -> by
        (apply (same_key_same_row SellerRow.id se Hnd); congruence).
    apply patch_with_own_row.
  - unfold ProfileScreen.handleSave. subst loaded. simpl. split; reflexivity.
Qed.

Lemma load_then_save_changes_nothing_witness :
  let o := perform (Backend.remote Sample.gw Sample.cx)
                   (ProfileLoader.loadProfile (Some Sample.seller)
                                              Sample.profile_blank)
                   Sample.profile_blank Sample.db in
  world (run (Db.remote Sample.gw Sample.cx)
             (ProfileScreen.handleSave (Some Sample.seller) (shown o))
             (shown o) (remote_state o))
  = Sample.db.
Proof.
  intros o.
  destruct (load_then_save_changes_nothing
              Sample.gw Sample.cx Sample.db Sample.seller
              Sample.profile_blank Sample.profile_blank Sample.seller_row
              eq_refl) as (_ & Hw & _).
  - repeat constructor; simpl; intuition discriminate.
  - left. reflexivity.
  - reflexivity.
  - exact Hw.
Defined.

(** ** Pull to refresh *)

(** X30.  Pull to refresh on the dashboard and on the catalog.  With a user the
    handler ends with the refreshing flag and the loading flag off,
    whatever the remote answers.  Without a user the loader returns before
    its [finally] block: no request is sent and the refreshing flag, just
    switched on, stays on. *)
Theorem pull_to_refresh_flag :
  (forall (number : Type) (zero : number) (add : number -> number -> number)
          (parseFloat : decimal -> number)
          (W : Type) (remote : forall X, call X -> W -> X * W) (w : W)
          (st s : DashboardScreen.state number),
      (forall u,
          let o := run remote
                       (DashboardScreen.onRefresh zero add parseFloat
                                                  (Some u) st) s w in
          DashboardScreen.refreshing (view o) = false
          /\ DashboardScreen.loading (view o) = false)
      /\
      (let o := run remote
                    (DashboardScreen.onRefresh zero add parseFloat None st)
                    s w in
       calls o = [] /\ world o = w
       /\ DashboardScreen.refreshing (view o) = true
       /\ DashboardScreen.loading (view o) = DashboardScreen.loading s
       /\ DashboardScreen.stats (view o) = DashboardScreen.stats s))
  /\
  (forall (W : Type) (remote : forall X, request X -> W -> X * W) (w : W)
          (st s : CatalogScreen.state),
      (forall u,
          let o := perform remote (CatalogLoader.onRefresh (Some u) st) s w in
          CatalogScreen.refreshing (shown o) = false
          /\ CatalogScreen.loading (shown o) = false)
      /\
      (let o := perform remote (CatalogLoader.onRefresh None st) s w in
       requests o = [] /\ remote_state o = w
       /\ CatalogScreen.refreshing (shown o) = true
       /\ CatalogScreen.loading (shown o) = CatalogScreen.loading s
       /\ CatalogScreen.products (shown o) = CatalogScreen.products s)).
Proof.
  split.
  - intros number zero add parseFloat W remote w st s. split.
    + intros u. cbn -[DashboardScreen.loadStats_stats].
      destruct (remote _ (Storage (seller_products_select_stock_status
                                     (User.id u))) w) as [x w1].
      destruct (remote _ (Storage (orders_select_total_amount_status
                                     (User.id u))) w1) as [y w2].
      split; reflexivity.
    + simpl. repeat split.
  - intros W remote w st s. split.
    + intros u. cbn -[CatalogLoader.productsWithStatus].
      destruct (remote _ (Further master_products_select_active) w)
        as [x w1].
      destruct (remote _ (Further (seller_products_select_product_id
                                     (User.id u))) w1) as [y w2].
      split; reflexivity.
    + simpl. repeat split.
Qed.
